(** * Meta-learning pseudo-label training loop (train_meta_learning.py)

    A shallow embedding of the training script: the arithmetic of the
    pseudo-label update, the learning-rate schedule, the resume block, the
    step loop of [main] and the evaluation pass [test].

    Numbers.  Python and torch floats are modelled as extended rationals
    [fl]: exact rational arithmetic (no rounding, no overflow, one zero)
    together with the two infinities and NaN, so that a division by a zero
    row sum produces what torch produces.  Hyper-parameters read from the
    command line ([lr], [lr_decay], [multiplier]) are finite rationals.
    The learning rate is followed a second time as the binary64 number the
    interpreter holds, with every product rounded ([Binary64]).

    Effects.  The script mutates module-level objects and the locals of
    [main]; they are the fields of [state], threaded through a state monad
    whose results also carry Python's [continue] and exceptions.  What the
    script writes (log lines, summaries, checkpoints, [print]) is appended
    to a trace.  Moving tensors to a device and wrapping the modules in
    [DataParallel] change no value and are left out. *)

From Stdlib Require Import ZArith QArith Qabs Qminmax Lia Lqa List String.
From stdpp Require Import base strings gmap list.
Import ListNotations.

Local Open Scope string_scope.
Local Open Scope Z_scope.

(** ** Floats *)

Module Float.

Inductive fl : Type :=
| Fin (q : Q)
| PInf
| NInf
| NaN.

Definition fneg (x : fl) : fl :=
  match x with
  | Fin q => Fin (- q)%Q
  | PInf => NInf
  | NInf => PInf
  | NaN => NaN
  end.

Definition fadd (x y : fl) : fl :=
  match x, y with
  | NaN, _ | _, NaN => NaN
  | Fin a, Fin b => Fin (a + b)%Q
  | PInf, NInf | NInf, PInf => NaN
  | PInf, _ | _, PInf => PInf
  | NInf, _ | _, NInf => NInf
  end.

Definition fsub (x y : fl) : fl := fadd x (fneg y).

(** The infinity with the sign of [a] times the sign [pos]; [0 * inf] is NaN. *)
Definition inf_signed (a : Q) (pos : bool) : fl :=
  match (a ?= 0)%Q with
  | Eq => NaN
  | Gt => if pos then PInf else NInf
  | Lt => if pos then NInf else PInf
  end.

Definition fmul (x y : fl) : fl :=
  match x, y with
  | NaN, _ | _, NaN => NaN
  | Fin a, Fin b => Fin (a * b)%Q
  | Fin a, PInf | PInf, Fin a => inf_signed a true
  | Fin a, NInf | NInf, Fin a => inf_signed a false
  | PInf, PInf | NInf, NInf => PInf
  | PInf, NInf | NInf, PInf => NInf
  end.

(** Division as torch does it: [0/0] is NaN, [a/0] an infinity. *)
Definition fdiv (x y : fl) : fl :=
  match x, y with
  | NaN, _ | _, NaN => NaN
  | Fin a, Fin b =>
      match (b ?= 0)%Q with
      | Eq => inf_signed a true
      | _ => Fin (a / b)%Q
      end
  | Fin _, PInf | Fin _, NInf => Fin 0
  | PInf, Fin b => match (b ?= 0)%Q with Lt => NInf | _ => PInf end
  | NInf, Fin b => match (b ?= 0)%Q with Lt => PInf | _ => NInf end
  | _, _ => NaN
  end.

(** [a > b] on floats: every comparison with NaN is false. *)
Definition fgt (x y : fl) : bool :=
  match x, y with
  | NaN, _ | _, NaN => false
  | Fin a, Fin b => negb (Qle_bool a b)
  | Fin _, NInf => true
  | Fin _, PInf => false
  | PInf, PInf => false
  | PInf, _ => true
  | NInf, _ => false
  end.

(** [torch.clamp(x, min=lo, max=hi)] on one entry: [min(max(x, lo), hi)]. *)
Definition clamp (lo hi : Q) (x : fl) : fl :=
  match x with
  | Fin q => Fin (Qmin (Qmax q lo) hi)
  | PInf => Fin hi
  | NInf => Fin lo
  | NaN => NaN
  end.

(** [torch.relu_] on one entry: [max(x, 0)]. *)
Definition relu (x : fl) : fl :=
  match x with
  | Fin q => Fin (Qmax q 0)
  | PInf => PInf
  | NInf => Fin 0
  | NaN => NaN
  end.


End Float.
Export Float.

(** ** Tensors *)

Abbreviation matrix := (list (list fl)).

Record tensor : Type := { data : matrix; requires_grad : bool }.

Definition detach (t : tensor) : tensor :=
  {| data := data t; requires_grad := false |}.

Definition set_requires_grad (b : bool) (t : tensor) : tensor :=
  {| data := data t; requires_grad := b |}.

Definition set_data (m : matrix) (t : tensor) : tensor :=
  {| data := m; requires_grad := requires_grad t |}.

Definition row_sum (r : list fl) : fl := fold_right fadd (Fin 0) r.

(** [torch.sum(m, dim=1, keepdim=True)]: one sum per row. *)
Definition sum_dim1 (m : matrix) : list fl := map row_sum m.

(** [m /= s] with [s] a column of one divisor per row (broadcast along
    dim 1). *)
Definition div_rows (m : matrix) (s : list fl) : matrix :=
  zip_with (fun r d => map (fun x => fdiv x d) r) m s.

(** [lr * g] for a Python float and a tensor. *)
Definition scale (lr : Q) (g : matrix) : matrix :=
  map (map (fmul (Fin lr))) g.

(** [t -= d], entry by entry; autograd returns a gradient of the shape of
    the tensor it differentiates against. *)
Definition isub (t d : matrix) : matrix :=
  zip_with (zip_with fsub) t d.

(** Lines 130-137: the projection selected by [args.type]. *)
Definition project (type : string) (m : matrix) : matrix :=
  if String.eqb type "0" then
    let c := map (map (clamp 0 1)) m in
    div_rows c (sum_dim1 c)
  else if String.eqb type "1" then
    let r := map (map relu) m in
    div_rows r (sum_dim1 r)
  else if String.eqb type "2" then
    map (map relu) m
  else m.

(** Lines 126-137: the update of [unlabel_pseudo_gt] under [torch.no_grad()]. *)
Definition update_pseudo_gt (type : string) (inner_lr : Q)
    (unlabel_pseudo_gt : tensor) (unlabel_grad : matrix) : tensor :=
  let t := set_requires_grad false unlabel_pseudo_gt in
  let t := set_data (isub (data t) (scale inner_lr unlabel_grad)) t in
  set_data (project type (data t)) t.

(** Line 141: the target handed to the final [F.kl_div]. *)
Definition final_target (type : string) (inner_lr : Q)
    (unlabel_pseudo_gt : tensor) (unlabel_grad : matrix) : tensor :=
  detach (update_pseudo_gt type inner_lr unlabel_pseudo_gt unlabel_grad).

(** The choices argparse accepts for [--type]. *)
Definition type_choices : list string := ["0"; "1"; "2"; "3"].

(** *** The projection in the words of the specification *)

Module Spec.

(** "clamp every entry to [0,1]" *)
Definition clamp01 (x : fl) : fl :=
  match x with
  | Fin q => if Qle_bool 0 q then (if Qle_bool q 1 then Fin q else Fin 1) else Fin 0
  | PInf => Fin 1
  | NInf => Fin 0
  | NaN => NaN
  end.

(** "set negative entries to 0" *)
Definition clip_negative (x : fl) : fl :=
  match x with
  | Fin q => if Qle_bool 0 q then Fin q else Fin 0
  | PInf => PInf
  | NInf => Fin 0
  | NaN => NaN
  end.

(** "divide each row by its sum" *)
Definition renormalize (m : matrix) : matrix :=
  map (fun r => map (fun x => fdiv x (row_sum r)) r) m.

(** "target -= inner_lr * meta_gradient" *)
Definition meta_update (inner_lr : Q) (target grad : matrix) : matrix :=
  zip_with (zip_with (fun x g => fsub x (fmul (Fin inner_lr) g))) target grad.

Definition policy0 (m : matrix) : matrix := renormalize (map (map clamp01) m).
Definition policy1 (m : matrix) : matrix := renormalize (map (map clip_negative) m).
Definition policy2 (m : matrix) : matrix := map (map clip_negative) m.

End Spec.

(** *** What the claims say of a projected row *)


Definition sums_to_one (r : list fl) : bool :=
  match row_sum r with
  | Fin s => Qle_bool (Qabs (s - 1)) (1 # 100000)
  | _ => false
  end.


Definition is_negative (x : fl) : bool :=
  match x with
  | Fin q => negb (Qle_bool 0 q)
  | NInf => true
  | _ => false
  end.






(** ** The world outside the script

    The network, the autograd engine, the optimizer's update rule and the
    loss functions are torch's; the script only calls them.  They are the
    fields of [Torch]: functions of the values the script passes to them.
    In torch the fast-weights forward pass and the gradient of line 123
    also read the gradients an earlier [backward] left in the parameters
    ([loss1.backward] of line 118 adds to them and no [zero_grad] comes
    before it); that store is not carried here, and nothing below relies
    on the values these two functions return. *)

Inductive exn : Type :=
| KeyError (key : string)
| TypeError
| ZeroDivisionError
| NotImplementedError
| RuntimeError (what : string).

(** An [nn.Module]: its [state_dict()] and its [training] flag. *)
Record module (w : Type) : Type := { state_dict : w; training : bool }.
Arguments state_dict {w} _.
Arguments training {w} _.

Definition set_training {w} (b : bool) (m : module w) : module w :=
  {| state_dict := state_dict m; training := b |}.

Definition load_state_dict {w} (sd : w) (m : module w) : module w :=
  {| state_dict := sd; training := training m |}.

Class Torch : Type := {
  weights : Type;
  buffers : Type;
  images : Type;
  grads : Type;
  (** [x.size(0)] *)
  size0 : images -> Z;
  (** [classifier(model(x))] *)
  forward : module weights -> module weights -> images -> matrix;
  (** [classifier(model(x, inner_lr), inner_lr)] once
      [loss1.backward(create_graph=True)] has run for the unlabeled images
      and the pseudo-label leaf given. *)
  forward_fast : module weights -> module weights -> Q ->
                 images -> tensor -> images -> matrix;
  softmax : matrix -> matrix;
  log_softmax : matrix -> matrix;
  (** [F.kl_div(input, target, reduction='batchmean')] *)
  kl_div : matrix -> tensor -> fl;
  (** [F.cross_entropy(pred, gt, reduction='mean')] *)
  cross_entropy : matrix -> list Z -> fl;
  (** [torch.autograd.grad(loss2, (unlabel_pseudo_gt,))] for the graph built
      from the weights, the inner rate, the unlabeled images, the leaf and
      the labeled batch. *)
  autograd_grad : module weights -> module weights -> Q ->
                  images -> tensor -> images -> list Z -> matrix;
  (** [optimizer.zero_grad(); loss.backward()] for
      [loss = F.kl_div(log_softmax(classifier(model(x))), target)]. *)
  backward : module weights -> module weights -> images -> tensor -> grads;
  (** The update rule of [SGD.step()]: rate, momentum, weight decay, the
      momentum buffers, both sets of weights and their gradients. *)
  sgd_step : Q -> Q -> Q -> buffers -> weights * weights -> grads ->
             buffers * (weights * weights);
  (** The state of a newly built [SGD]. *)
  no_buffers : buffers;
  (** [accuracy(pred, gt, topk=(1,))] *)
  accuracy : matrix -> list Z -> fl;
}.

(** ** MetricsAggregator ([utils.AverageMeter]) *)

(** Modelled from the spec: [AverageMeter] lives in utils.py, which is not
    among the sources.  Section 4.5: per metric the latest value, a running
    count, a running sum and a running mean; [update(value, weight)] folds
    [weight] occurrences of [value] into them; a fresh meter is empty. *)
Record AverageMeter : Type := {
  meter_val : fl;
  meter_sum : fl;
  meter_count : Z;
  meter_avg : fl;
}.

Definition AverageMeter_new : AverageMeter :=
  {| meter_val := Fin 0; meter_sum := Fin 0; meter_count := 0; meter_avg := Fin 0 |}.

Definition meter_update (m : AverageMeter) (v : fl) (n : Z) : AverageMeter :=
  let s := fadd (meter_sum m) (fmul v (Fin (inject_Z n))) in
  let c := meter_count m + n in
  {| meter_val := v; meter_sum := s; meter_count := c;
     meter_avg := fdiv s (Fin (inject_Z c)) |}.

(** ** Optimizer and learning-rate scheduler *)

(** [SGD]: the single parameter group and the momentum buffers; this is
    also what [optimizer.state_dict()] holds. *)
Record SGD (B : Type) : Type := {
  group_lr : Q;
  group_momentum : Q;
  group_weight_decay : Q;
  opt_state : B;
}.
Arguments group_lr {B} _.
Arguments group_momentum {B} _.
Arguments group_weight_decay {B} _.
Arguments opt_state {B} _.

Definition set_group_lr {B} (r : Q) (o : SGD B) : SGD B :=
  {| group_lr := r; group_momentum := group_momentum o;
     group_weight_decay := group_weight_decay o; opt_state := opt_state o |}.

Definition set_opt_state {B} (b : B) (o : SGD B) : SGD B :=
  {| group_lr := group_lr o; group_momentum := group_momentum o;
     group_weight_decay := group_weight_decay o; opt_state := b |}.

(** [torch.optim.lr_scheduler.MultiStepLR], as torch defines it: the rate
    lives in the optimizer's parameter group and each [step()] rewrites it
    from its current value.  [milestones] is a [Counter], kept here as the
    list it was built from. *)
Record MultiStepLR : Type := {
  milestones : list Z;
  gamma : Q;
  last_epoch : Z;
}.

Fixpoint qpow (g : Q) (n : nat) : Q :=
  match n with
  | O => 1%Q
  | S n' => (g * qpow g n')%Q
  end.

(** [get_lr()]: the rate is kept unless [last_epoch] is a milestone, and is
    then multiplied by [gamma ** milestones[last_epoch]]. *)
Definition get_lr (sch : MultiStepLR) (current : Q) : Q :=
  match count_occ Z.eq_dec (milestones sch) (last_epoch sch) with
  | O => current
  | n => (current * qpow (gamma sch) n)%Q
  end.

(** [lr_scheduler.step()]: advance the counter, write the new rate into the
    optimizer's parameter group. *)
Definition scheduler_step {B} (p : MultiStepLR * SGD B) : MultiStepLR * SGD B :=
  let sch := {| milestones := milestones (fst p); gamma := gamma (fst p);
                last_epoch := last_epoch (fst p) + 1 |} in
  (sch, set_group_lr (get_lr sch (group_lr (snd p))) (snd p)).

(** The constructor starts at [last_epoch = -1] and takes the initial step. *)
Definition MultiStepLR_new {B} (o : SGD B) (g : Q) (ms : list Z)
  : MultiStepLR * SGD B :=
  scheduler_step ({| milestones := ms; gamma := g; last_epoch := -1 |}, o).

(** ** Command line *)

Record Args : Type := {
  num_label : Z;
  total_steps : Z;
  start_step : Z;
  batch_size : Z;
  lr : Q;
  lr_decay : Q;
  multiplier : Q;
  fix_inner : bool;
  type : string;
  weight_decay : Q;
  momentum : Q;
  resume : option string;
  print_freq : Z;
  test_freq : Z;
  save_path : string;
  (** set by the loop, not by the parser *)
  inner_lr : option Q;
}.

Definition set_start_step (z : Z) (a : Args) : Args :=
  {| num_label := num_label a; total_steps := total_steps a; start_step := z;
     batch_size := batch_size a; lr := lr a; lr_decay := lr_decay a;
     multiplier := multiplier a; fix_inner := fix_inner a; type := type a;
     weight_decay := weight_decay a; momentum := momentum a;
     resume := resume a; print_freq := print_freq a; test_freq := test_freq a;
     save_path := save_path a; inner_lr := inner_lr a |}.

Definition set_inner_lr (r : Q) (a : Args) : Args :=
  {| num_label := num_label a; total_steps := total_steps a;
     start_step := start_step a;
     batch_size := batch_size a; lr := lr a; lr_decay := lr_decay a;
     multiplier := multiplier a; fix_inner := fix_inner a; type := type a;
     weight_decay := weight_decay a; momentum := momentum a;
     resume := resume a; print_freq := print_freq a; test_freq := test_freq a;
     save_path := save_path a; inner_lr := Some r |}.

(** [range(a, b)] *)
Definition py_range (a b : Z) : list Z :=
  map (fun i => a + Z.of_nat i) (seq 0 (Z.to_nat (b - a))).

(** ** The script *)

Section Script.

Context {T : Torch}.

(** Values that end up in a checkpoint, in a scalar summary or in a local
    name that is bound to values of more than one type. *)
Inductive pyval : Type :=
| PyInt (z : Z)
| PyFloat (x : fl)
| PyStateDict (w : weights)
| PyOptim (o : SGD buffers)
| PyMeter (m : AverageMeter).

Abbreviation checkpoint := (gmap string pyval).

Abbreviation batch := (images * list Z)%type.

(** What a run reads: the two endless training loaders (the n-th batch each
    yields), the test loader (a finite sequence whose iterator may raise),
    the wall clock (the n-th reading) and the checkpoint files. *)
Record World : Type := {
  label_loader : nat -> batch;
  unlabel_loader : nat -> batch;
  test_loader : list (exn + batch);
  wall : nat -> fl;
  files : gmap string checkpoint;
}.

Inductive message : Type :=
| MsgLoading (path : string)
| MsgLoaded (path : string) (epoch : pyval)
| MsgNoCheckpoint (path : string)
| MsgStart
| MsgStep (step total : Z) (rate inner : Q) (meters : list AverageMeter)
| MsgBest (best : fl)
| MsgTest (i : Z) (len : nat) (meters : list AverageMeter)
| MsgAccuracy (avg : fl).

(** What a run writes, and (to state in which mode the network ran) every
    call of the network with the [training] flags and the gradient mode it
    ran under. *)
Inductive event : Type :=
| Printed (x : fl)
| Logged (m : message)
| AddScalar (tag : string) (v : pyval) (step : Z)
| SaveCheckpoint (st : checkpoint) (is_best : bool) (path filename : string)
| Forward (model_training classifier_training grad : bool)
| ForwardFast (model_training classifier_training grad : bool).

(** The local names of [main]. *)
Record locals : Type := {
  data_times : AverageMeter;
  batch_times : AverageMeter;
  label_losses : AverageMeter;
  unlabel_losses : AverageMeter;
  label_acc : AverageMeter;
  unlabel_acc : AverageMeter;
  best_acc : fl;
  losses : option AverageMeter;
  acc : option pyval;
}.


Definition upd_data_times (f : AverageMeter -> AverageMeter) (l : locals) : locals :=
  {| data_times := f (data_times l); batch_times := batch_times l;
     label_losses := label_losses l; unlabel_losses := unlabel_losses l;
     label_acc := label_acc l; unlabel_acc := unlabel_acc l; best_acc :=
     best_acc l; losses := losses l; acc := acc l |}.

Definition upd_batch_times (f : AverageMeter -> AverageMeter) (l : locals) : locals :=
  {| data_times := data_times l; batch_times := f (batch_times l);
     label_losses := label_losses l; unlabel_losses := unlabel_losses l;
     label_acc := label_acc l; unlabel_acc := unlabel_acc l; best_acc :=
     best_acc l; losses := losses l; acc := acc l |}.

Definition upd_label_losses (f : AverageMeter -> AverageMeter) (l : locals) : locals :=
  {| data_times := data_times l; batch_times := batch_times l; label_losses
     := f (label_losses l); unlabel_losses := unlabel_losses l; label_acc :=
     label_acc l; unlabel_acc := unlabel_acc l; best_acc := best_acc l;
     losses := losses l; acc := acc l |}.

Definition upd_unlabel_losses (f : AverageMeter -> AverageMeter) (l : locals) : locals :=
  {| data_times := data_times l; batch_times := batch_times l; label_losses
     := label_losses l; unlabel_losses := f (unlabel_losses l); label_acc :=
     label_acc l; unlabel_acc := unlabel_acc l; best_acc := best_acc l;
     losses := losses l; acc := acc l |}.

Definition upd_label_acc (f : AverageMeter -> AverageMeter) (l : locals) : locals :=
  {| data_times := data_times l; batch_times := batch_times l; label_losses
     := label_losses l; unlabel_losses := unlabel_losses l; label_acc := f
     (label_acc l); unlabel_acc := unlabel_acc l; best_acc := best_acc l;
     losses := losses l; acc := acc l |}.

Definition upd_unlabel_acc (f : AverageMeter -> AverageMeter) (l : locals) : locals :=
  {| data_times := data_times l; batch_times := batch_times l; label_losses
     := label_losses l; unlabel_losses := unlabel_losses l; label_acc :=
     label_acc l; unlabel_acc := f (unlabel_acc l); best_acc := best_acc l;
     losses := losses l; acc := acc l |}.

Definition upd_best_acc (f : fl -> fl) (l : locals) : locals :=
  {| data_times := data_times l; batch_times := batch_times l; label_losses
     := label_losses l; unlabel_losses := unlabel_losses l; label_acc :=
     label_acc l; unlabel_acc := unlabel_acc l; best_acc := f (best_acc l);
     losses := losses l; acc := acc l |}.

Definition upd_losses (f : option AverageMeter -> option AverageMeter) (l : locals) : locals :=
  {| data_times := data_times l; batch_times := batch_times l; label_losses
     := label_losses l; unlabel_losses := unlabel_losses l; label_acc :=
     label_acc l; unlabel_acc := unlabel_acc l; best_acc := best_acc l;
     losses := f (losses l); acc := acc l |}.

Definition upd_acc (f : option pyval -> option pyval) (l : locals) : locals :=
  {| data_times := data_times l; batch_times := batch_times l; label_losses
     := label_losses l; unlabel_losses := unlabel_losses l; label_acc :=
     label_acc l; unlabel_acc := unlabel_acc l; best_acc := best_acc l;
     losses := losses l; acc := f (acc l) |}.


(** Module-level names, the frame of [main], the loaders' positions, the
    clock and the trace. *)
Record state : Type := {
  args : Args;
  model : module weights;
  classifier : module weights;
  grad_enabled : bool;
  optimizer : SGD buffers;
  lr_scheduler : MultiStepLR;
  module_best_acc : option pyval;
  label_pos : nat;
  unlabel_pos : nat;
  clock : nat;
  frame : locals;
  out : list event;
}.


Definition upd_args (f : Args -> Args) (s : state) : state :=
  {| args := f (args s); model := model s; classifier := classifier s;
     grad_enabled := grad_enabled s; optimizer := optimizer s; lr_scheduler
     := lr_scheduler s; module_best_acc := module_best_acc s; label_pos :=
     label_pos s; unlabel_pos := unlabel_pos s; clock := clock s; frame :=
     frame s; out := out s |}.

Definition upd_model (f : module weights -> module weights) (s : state) : state :=
  {| args := args s; model := f (model s); classifier := classifier s;
     grad_enabled := grad_enabled s; optimizer := optimizer s; lr_scheduler
     := lr_scheduler s; module_best_acc := module_best_acc s; label_pos :=
     label_pos s; unlabel_pos := unlabel_pos s; clock := clock s; frame :=
     frame s; out := out s |}.

Definition upd_classifier (f : module weights -> module weights) (s : state) : state :=
  {| args := args s; model := model s; classifier := f (classifier s);
     grad_enabled := grad_enabled s; optimizer := optimizer s; lr_scheduler
     := lr_scheduler s; module_best_acc := module_best_acc s; label_pos :=
     label_pos s; unlabel_pos := unlabel_pos s; clock := clock s; frame :=
     frame s; out := out s |}.

Definition upd_grad_enabled (f : bool -> bool) (s : state) : state :=
  {| args := args s; model := model s; classifier := classifier s;
     grad_enabled := f (grad_enabled s); optimizer := optimizer s;
     lr_scheduler := lr_scheduler s; module_best_acc := module_best_acc s;
     label_pos := label_pos s; unlabel_pos := unlabel_pos s; clock := clock
     s; frame := frame s; out := out s |}.

Definition upd_optimizer (f : SGD buffers -> SGD buffers) (s : state) : state :=
  {| args := args s; model := model s; classifier := classifier s;
     grad_enabled := grad_enabled s; optimizer := f (optimizer s);
     lr_scheduler := lr_scheduler s; module_best_acc := module_best_acc s;
     label_pos := label_pos s; unlabel_pos := unlabel_pos s; clock := clock
     s; frame := frame s; out := out s |}.

Definition upd_lr_scheduler (f : MultiStepLR -> MultiStepLR) (s : state) : state :=
  {| args := args s; model := model s; classifier := classifier s;
     grad_enabled := grad_enabled s; optimizer := optimizer s; lr_scheduler
     := f (lr_scheduler s); module_best_acc := module_best_acc s; label_pos
     := label_pos s; unlabel_pos := unlabel_pos s; clock := clock s; frame
     := frame s; out := out s |}.

Definition upd_module_best_acc (f : option pyval -> option pyval) (s : state) : state :=
  {| args := args s; model := model s; classifier := classifier s;
     grad_enabled := grad_enabled s; optimizer := optimizer s; lr_scheduler
     := lr_scheduler s; module_best_acc := f (module_best_acc s); label_pos
     := label_pos s; unlabel_pos := unlabel_pos s; clock := clock s; frame
     := frame s; out := out s |}.

Definition upd_label_pos (f : nat -> nat) (s : state) : state :=
  {| args := args s; model := model s; classifier := classifier s;
     grad_enabled := grad_enabled s; optimizer := optimizer s; lr_scheduler
     := lr_scheduler s; module_best_acc := module_best_acc s; label_pos := f
     (label_pos s); unlabel_pos := unlabel_pos s; clock := clock s; frame :=
     frame s; out := out s |}.

Definition upd_unlabel_pos (f : nat -> nat) (s : state) : state :=
  {| args := args s; model := model s; classifier := classifier s;
     grad_enabled := grad_enabled s; optimizer := optimizer s; lr_scheduler
     := lr_scheduler s; module_best_acc := module_best_acc s; label_pos :=
     label_pos s; unlabel_pos := f (unlabel_pos s); clock := clock s; frame
     := frame s; out := out s |}.

Definition upd_clock (f : nat -> nat) (s : state) : state :=
  {| args := args s; model := model s; classifier := classifier s;
     grad_enabled := grad_enabled s; optimizer := optimizer s; lr_scheduler
     := lr_scheduler s; module_best_acc := module_best_acc s; label_pos :=
     label_pos s; unlabel_pos := unlabel_pos s; clock := f (clock s); frame
     := frame s; out := out s |}.

Definition upd_frame (f : locals -> locals) (s : state) : state :=
  {| args := args s; model := model s; classifier := classifier s;
     grad_enabled := grad_enabled s; optimizer := optimizer s; lr_scheduler
     := lr_scheduler s; module_best_acc := module_best_acc s; label_pos :=
     label_pos s; unlabel_pos := unlabel_pos s; clock := clock s; frame := f
     (frame s); out := out s |}.

Definition upd_out (f : list event -> list event) (s : state) : state :=
  {| args := args s; model := model s; classifier := classifier s;
     grad_enabled := grad_enabled s; optimizer := optimizer s; lr_scheduler
     := lr_scheduler s; module_best_acc := module_best_acc s; label_pos :=
     label_pos s; unlabel_pos := unlabel_pos s; clock := clock s; frame :=
     frame s; out := f (out s) |}.


(** *** Control: a state monad with [continue] and exceptions *)

Inductive res (A : Type) : Type :=
| Val (a : A)
| Cont
| Exc (e : exn).
Arguments Val {A} _.
Arguments Cont {A}.
Arguments Exc {A} _.

Definition M (A : Type) : Type := state -> res A * state.

Definition ret {A} (a : A) : M A := fun s => (Val a, s).

Definition bind {A B} (m : M A) (k : A -> M B) : M B :=
  fun s =>
    match m s with
    | (Val a, s') => k a s'
    | (Cont, s') => (Cont, s')
    | (Exc e, s') => (Exc e, s')
    end.

Definition raise {A} (e : exn) : M A := fun s => (Exc e, s).
Definition continue : M unit := fun s => (Cont, s).
Definition gets {A} (f : state -> A) : M A := fun s => (Val (f s), s).
Definition modify (f : state -> state) : M unit := fun s => (Val tt, f s).

Notation "x <- m ;; k" := (bind m (fun x => k))
  (at level 100, m at next level, right associativity).
Notation "m ;;; k" := (bind m (fun _ => k))
  (at level 100, right associativity).

Variable W : World.

(** [for x in l: body], where the body may [continue] or raise. *)
Fixpoint for_each {A} (l : list A) (body : A -> M unit) : M unit :=
  match l with
  | [] => ret tt
  | x :: l' =>
      fun s =>
        match body x s with
        | (Exc e, s') => (Exc e, s')
        | (_, s') => for_each l' body s'
        end
  end.

(** [with torch.no_grad(): m]: the previous gradient mode is put back when
    the block is left, also by an exception. *)
Definition with_no_grad {A} (m : M A) : M A :=
  fun s =>
    let prev := grad_enabled s in
    let '(r, s') := m (upd_grad_enabled (fun _ => false) s) in
    (r, upd_grad_enabled (fun _ => prev) s').

(** [a % b] *)
Definition py_mod (a b : Z) : M Z :=
  if b =? 0 then raise ZeroDivisionError else ret (a mod b).

(** [d[key]] *)
Definition getitem (d : checkpoint) (key : string) : M pyval :=
  match d !! key with
  | Some v => ret v
  | None => raise (KeyError key)
  end.

Definition emit (e : event) : M unit := modify (upd_out (fun o => (o ++ [e])%list)).

Definition info (m : message) : M unit := emit (Logged m).

(** [writer.add_scalar(tag, v, step)].  tensorboardX turns the value into
    an array first; a Python number is written to the event file, any other
    object the script holds (an [AverageMeter], a dictionary) makes that
    conversion raise [NotImplementedError] and nothing is written. *)
Definition add_scalar (tag : string) (v : pyval) (step : Z) : M unit :=
  match v with
  | PyInt _ | PyFloat _ => emit (AddScalar tag v step)
  | PyStateDict _ | PyOptim _ | PyMeter _ => raise NotImplementedError
  end.

(** [time.time()] *)
Definition time_time : M fl :=
  n <- gets clock ;;
  modify (upd_clock S) ;;;
  ret (wall W n).

(** [next(label_loader)], [next(unlabel_loader)] *)
Definition next_label : M batch :=
  n <- gets label_pos ;;
  modify (upd_label_pos S) ;;;
  ret (label_loader W n).

Definition next_unlabel : M batch :=
  n <- gets unlabel_pos ;;
  modify (upd_unlabel_pos S) ;;;
  ret (unlabel_loader W n).

(** [classifier(model(x))] *)
Definition call_forward (x : images) : M matrix :=
  s <- gets id ;;
  emit (Forward (training (model s)) (training (classifier s)) (grad_enabled s)) ;;;
  ret (forward (model s) (classifier s) x).

(** [classifier(model(x, inner_lr), inner_lr)] *)
Definition call_forward_fast (rate : Q) (unlabel_img : images) (leaf : tensor)
    (x : images) : M matrix :=
  s <- gets id ;;
  emit (ForwardFast (training (model s)) (training (classifier s)) (grad_enabled s)) ;;;
  ret (forward_fast (model s) (classifier s) rate unlabel_img leaf x).

(** [optimizer.zero_grad(); loss.backward(); optimizer.step()] *)
Definition optimizer_step (unlabel_img : images) (target : tensor) : M unit :=
  s <- gets id ;;
  let o := optimizer s in
  let g := backward (model s) (classifier s) unlabel_img target in
  let '(b, (wm, wc)) :=
    sgd_step (group_lr o) (group_momentum o) (group_weight_decay o) (opt_state o)
             (state_dict (model s), state_dict (classifier s)) g in
  modify (upd_optimizer (set_opt_state b)) ;;;
  modify (upd_model (load_state_dict wm)) ;;;
  modify (upd_classifier (load_state_dict wc)).

(** [lr_scheduler.step()] *)
Definition lr_scheduler_step : M unit :=
  modify (fun s =>
    let '(sch, o) := scheduler_step (lr_scheduler s, optimizer s) in
    upd_lr_scheduler (fun _ => sch) (upd_optimizer (fun _ => o) s)).

(** *** Lines 13-88: set-up and the resume block *)

(** The types the script relies on; a value of another type is refused
    where it is read.  Python refuses it where it is first used: a step
    that is no [int] is stored by line 81 and refused by [range] on line
    96, the rest of the resume block having run. *)
Definition as_int (v : pyval) : M Z :=
  match v with PyInt z => ret z | _ => raise TypeError end.

Definition as_state_dict (v : pyval) : M weights :=
  match v with PyStateDict w => ret w | _ => raise TypeError end.

Definition as_optim (v : pyval) : M (SGD buffers) :=
  match v with PyOptim o => ret o | _ => raise TypeError end.

Definition fresh_locals : locals :=
  {| data_times := AverageMeter_new; batch_times := AverageMeter_new;
     label_losses := AverageMeter_new; unlabel_losses := AverageMeter_new;
     label_acc := AverageMeter_new; unlabel_acc := AverageMeter_new;
     best_acc := Fin 0; losses := None; acc := None |}.

(** Lines 59-74: the modules as built ([nn.Module]s start in training
    mode), the optimizer and the scheduler. *)
Definition build (a : Args) (model0 classifier0 : weights) : state :=
  let o := {| group_lr := lr a; group_momentum := momentum a;
              group_weight_decay := weight_decay a; opt_state := no_buffers |} in
  let '(sch, o) :=
    MultiStepLR_new o (lr_decay a) [total_steps a / 2; total_steps a * 3 / 4] in
  {| args := a;
     model := {| state_dict := model0; training := true |};
     classifier := {| state_dict := classifier0; training := true |};
     grad_enabled := true;
     optimizer := o;
     lr_scheduler := sch;
     module_best_acc := None;
     label_pos := O; unlabel_pos := O; clock := O;
     frame := fresh_locals;
     out := [] |}.

(** Lines 77-88. *)
Definition resume_block : M unit :=
  a <- gets args ;;
  match resume a with
  | None => ret tt
  | Some path =>
      match files W !! path with
      | Some ckpt =>
          info (MsgLoading path) ;;;
          v <- getitem ckpt "step" ;;
          z <- as_int v ;;
          modify (upd_args (set_start_step z)) ;;;
          v <- getitem ckpt "best_acc" ;;
          modify (upd_module_best_acc (fun _ => Some v)) ;;;
          v <- getitem ckpt "model" ;;
          w <- as_state_dict v ;;
          modify (upd_model (load_state_dict w)) ;;;
          v <- getitem ckpt "classifier" ;;
          w <- as_state_dict v ;;
          modify (upd_classifier (load_state_dict w)) ;;;
          v <- getitem ckpt "optimizer" ;;
          o <- as_optim v ;;
          modify (upd_optimizer (fun _ => o)) ;;;
          v <- getitem ckpt "epoch" ;;
          info (MsgLoaded path v)
      | None => info (MsgNoCheckpoint path)
      end
  end.

(** *** Lines 212-245: [test] *)

Record test_meters : Type := {
  t_batch_time : AverageMeter;
  t_losses : AverageMeter;
  t_acc : AverageMeter;
}.

Fixpoint test_loop (i : Z) (items : list (exn + batch)) (end_ : fl)
    (ms : test_meters) : M test_meters :=
  match items with
  | [] => ret ms
  | inl e :: _ => raise e
  | inr (data, target) :: rest =>
      pred <- call_forward data ;;
      let loss := cross_entropy pred target in
      let top1 := accuracy pred target in
      let losses := meter_update (t_losses ms) loss (size0 data) in
      let acc := meter_update (t_acc ms) top1 (size0 data) in
      now <- time_time ;;
      let batch_time := meter_update (t_batch_time ms) (fsub now end_) 1 in
      end_ <- time_time ;;
      a <- gets args ;;
      r <- py_mod i (print_freq a) ;;
      (if r =? 0
       then info (MsgTest i (length (test_loader W)) [batch_time; losses; acc])
       else ret tt) ;;;
      test_loop (i + 1) rest end_
        {| t_batch_time := batch_time; t_losses := losses; t_acc := acc |}
  end.

Definition test : M fl :=
  let ms := {| t_batch_time := AverageMeter_new; t_losses := AverageMeter_new;
               t_acc := AverageMeter_new |} in
  modify (upd_model (set_training false)) ;;;
  modify (upd_classifier (set_training false)) ;;;
  ms <- with_no_grad (
          end_ <- time_time ;;
          ms <- test_loop 0 (test_loader W) end_ ms ;;
          info (MsgAccuracy (meter_avg (t_acc ms))) ;;;
          ret ms) ;;
  modify (upd_model (set_training true)) ;;;
  modify (upd_classifier (set_training true)) ;;;
  ret (meter_avg (t_acc ms)).

(** *** Lines 90-209: [main] *)

(** What one pass through lines 108-152 computes and the rest of the
    iteration reads. *)
Record step_values : Type := {
  unlabel_pred : matrix;
  label_pred : matrix;
  loss2 : fl;
  target : tensor;
  loss : fl;
}.

(** Lines 108-152: the inner rate, the meta-gradient, the update of the
    pseudo-labels, the loss and one SGD step. *)
Definition train_step (label unlabel : batch) : M step_values :=
  let '(label_img, label_gt) := label in
  let '(unlabel_img, unlabel_gt) := unlabel in
  a <- gets args ;;
  o <- gets optimizer ;;
  let rate := if fix_inner a then (lr a * multiplier a)%Q
              else (group_lr o * multiplier a)%Q in
  modify (upd_args (set_inner_lr rate)) ;;;
  unlabel_pred <- call_forward unlabel_img ;;
  let unlabel_pseudo_gt :=
    set_requires_grad true
      (detach {| data := softmax unlabel_pred; requires_grad := true |}) in
  label_pred <- call_forward_fast rate unlabel_img unlabel_pseudo_gt label_img ;;
  let loss2 := cross_entropy label_pred label_gt in
  s <- gets id ;;
  let unlabel_grad :=
    autograd_grad (model s) (classifier s) rate unlabel_img unlabel_pseudo_gt
                  label_img label_gt in
  a <- gets args ;;
  updated <- with_no_grad
               (ret (update_pseudo_gt (type a) rate unlabel_pseudo_gt unlabel_grad)) ;;
  let target := detach updated in
  let loss := kl_div (log_softmax unlabel_pred) target in
  optimizer_step unlabel_img target ;;;
  lr_scheduler_step ;;;
  ret {| unlabel_pred := unlabel_pred; label_pred := label_pred;
         loss2 := loss2; target := target; loss := loss |}.

Definition upd_meter (u : (AverageMeter -> AverageMeter) -> locals -> locals)
    (v : fl) (n : Z) : M unit :=
  modify (upd_frame (u (fun m => meter_update m v n))).

(** Lines 159-189: accuracy, the running averages, the summaries, the log
    line. *)
Definition record_metrics (step : Z) (data_start data_end : fl)
    (label unlabel : batch) (r : step_values) : M unit :=
  let '(label_img, label_gt) := label in
  let '(unlabel_img, unlabel_gt) := unlabel in
  let label_top1 := accuracy (label_pred r) label_gt in
  let unlabel_top1 := accuracy (unlabel_pred r) unlabel_gt in
  upd_meter upd_data_times (fsub data_end data_start) 1 ;;;
  now <- time_time ;;
  upd_meter upd_batch_times (fsub now data_end) 1 ;;;
  upd_meter upd_label_losses (loss2 r) (size0 label_img) ;;;
  upd_meter upd_unlabel_losses (loss r) (size0 label_img) ;;;
  upd_meter upd_label_acc label_top1 (size0 label_img) ;;;
  upd_meter upd_unlabel_acc unlabel_top1 (size0 label_img) ;;;
  o <- gets optimizer ;;
  a <- gets args ;;
  let rate := match inner_lr a with Some q => q | None => 0%Q end in
  add_scalar "train/label-acc" (PyFloat label_top1) step ;;;
  add_scalar "train/unlabel-acc" (PyFloat unlabel_top1) step ;;;
  add_scalar "train/label-loss" (PyFloat (loss2 r)) step ;;;
  add_scalar "train/unlabel-loss" (PyFloat (loss r)) step ;;;
  add_scalar "train/lr" (PyFloat (Fin (group_lr o))) step ;;;
  add_scalar "train/inner-lr" (PyFloat (Fin rate)) step ;;;
  m <- py_mod step (print_freq a) ;;
  if m =? 0 then
    l <- gets frame ;;
    info (MsgStep step (total_steps a) (group_lr o) rate
            [data_times l; batch_times l; label_losses l; unlabel_losses l;
             label_acc l; unlabel_acc l])
  else ret tt.

(** The dictionary handed to [save_checkpoint] (lines 199-205). *)
Definition checkpoint_of (step : Z) (s : state) : checkpoint :=
  <["step" := PyInt (step + 1)]>
  (<["model" := PyStateDict (state_dict (model s))]>
  (<["classifier" := PyStateDict (state_dict (classifier s))]>
  (<["best_acc" := PyFloat (best_acc (frame s))]>
  (<["optimizer" := PyOptim (optimizer s)]> ∅)))).

(** Lines 193-209: the body of the test-and-save branch.  Line 207 binds
    two new meters to the names [losses] and [acc]; the value line 209 then
    passes to [add_scalar] is that new meter, not the score. *)
Definition evaluate_and_save (step : Z) : M unit :=
  score <- test ;;
  modify (upd_frame (upd_acc (fun _ => Some (PyFloat score)))) ;;;
  l <- gets frame ;;
  let is_best := fgt score (best_acc l) in
  (if is_best then modify (upd_frame (upd_best_acc (fun _ => score)))
   else ret tt) ;;;
  l <- gets frame ;;
  info (MsgBest (best_acc l)) ;;;
  s <- gets id ;;
  emit (SaveCheckpoint (checkpoint_of step s) is_best
          (save_path (args s)) "checkpoint.pth") ;;;
  modify (upd_frame (upd_losses (fun _ => Some AverageMeter_new))) ;;;
  modify (upd_frame (upd_acc (fun _ => Some (PyMeter AverageMeter_new)))) ;;;
  add_scalar "test/accuracy" (PyMeter AverageMeter_new) step.

(** Lines 191-209. *)
Definition test_and_save (step : Z) : M unit :=
  a <- gets args ;;
  m <- py_mod (step + 1) (test_freq a) ;;
  if (m =? 0) || (step =? total_steps a - 1)
  then evaluate_and_save step
  else ret tt.

(** Lines 97-209: one pass through the body of the [for] loop. *)
Definition iteration (step : Z) : M unit :=
  data_start <- time_time ;;
  label <- next_label ;;
  unlabel <- next_unlabel ;;
  data_end <- time_time ;;
  r <- train_step label unlabel ;;
  now <- time_time ;;
  emit (Printed (fsub now data_end)) ;;;
  continue ;;;
  record_metrics step data_start data_end label unlabel r ;;;
  test_and_save step.

(** Lines 91-95. *)
Definition main_prologue : M unit :=
  modify (upd_frame (fun _ => fresh_locals)) ;;;
  modify (upd_model (set_training true)) ;;;
  modify (upd_classifier (set_training true)) ;;;
  info MsgStart.

(** [main], with the loop stopped before step [stop]. *)
Definition main_until (stop : Z) : M unit :=
  main_prologue ;;;
  a <- gets args ;;
  for_each (py_range (start_step a) stop) iteration.

Definition main : M unit :=
  main_prologue ;;;
  a <- gets args ;;
  for_each (py_range (start_step a) (total_steps a)) iteration.

(** The script from the parsed arguments on: build, resume, [main()]. *)
Definition script (a : Args) (model0 classifier0 : weights) : res unit * state :=
  (resume_block ;;; main) (build a model0 classifier0).

Definition script_until (stop : Z) (a : Args) (model0 classifier0 : weights)
  : res unit * state :=
  (resume_block ;;; main_until stop) (build a model0 classifier0).

End Script.

Arguments Val {A} _.
Arguments Cont {A}.
Arguments Exc {A} _.

(** ** A small instance to run the script on

    A two-class network that returns its input, with integer "weights"
    that count the SGD steps taken. *)

Definition identity_net : Torch :=
  {| weights := Z;
     buffers := Z;
     images := matrix;
     grads := Z;
     size0 := fun x => Z.of_nat (length x);
     forward := fun _ _ x => x;
     forward_fast := fun _ _ _ _ _ x => x;
     softmax := fun m => m;
     log_softmax := fun m => m;
     kl_div := fun _ _ => Fin 0;
     cross_entropy := fun _ _ => Fin 0;
     autograd_grad := fun _ _ _ _ leaf _ _ => map (map (fun _ => Fin 1)) (data leaf);
     backward := fun _ _ _ _ => 1;
     sgd_step := fun _ _ _ b w g => (b + 1, (fst w + g, snd w + g));
     no_buffers := 0;
     accuracy := fun _ _ => Fin 50 |}.

Definition default_args : Args :=
  {| num_label := 4000; total_steps := 120000; start_step := 0;
     batch_size := 128; lr := 1 # 10; lr_decay := 1 # 10; multiplier := 1;
     fix_inner := false; type := "0"; weight_decay := 1 # 10000;
     momentum := 9 # 10; resume := None; print_freq := 50; test_freq := 400;
     save_path := "./results"; inner_lr := None |}.

Definition with_steps (start total : Z) (a : Args) : Args :=
  {| num_label := num_label a; total_steps := total; start_step := start;
     batch_size := batch_size a; lr := lr a; lr_decay := lr_decay a;
     multiplier := multiplier a; fix_inner := fix_inner a; type := type a;
     weight_decay := weight_decay a; momentum := momentum a;
     resume := resume a; print_freq := print_freq a; test_freq := test_freq a;
     save_path := save_path a; inner_lr := inner_lr a |}.

Definition with_test_freq (f : Z) (a : Args) : Args :=
  {| num_label := num_label a; total_steps := total_steps a;
     start_step := start_step a;
     batch_size := batch_size a; lr := lr a; lr_decay := lr_decay a;
     multiplier := multiplier a; fix_inner := fix_inner a; type := type a;
     weight_decay := weight_decay a; momentum := momentum a;
     resume := resume a; print_freq := print_freq a; test_freq := f;
     save_path := save_path a; inner_lr := inner_lr a |}.

Definition with_resume (path : string) (a : Args) : Args :=
  {| num_label := num_label a; total_steps := total_steps a;
     start_step := start_step a;
     batch_size := batch_size a; lr := lr a; lr_decay := lr_decay a;
     multiplier := multiplier a; fix_inner := fix_inner a; type := type a;
     weight_decay := weight_decay a; momentum := momentum a;
     resume := Some path; print_freq := print_freq a; test_freq := test_freq a;
     save_path := save_path a; inner_lr := inner_lr a |}.

Definition small_world (fs : gmap string (gmap string (@pyval identity_net)))
    (tests : list (exn + (matrix * list Z))) : @World identity_net :=
  {| label_loader := fun _ => (([[Fin 1; Fin 0]] : @images identity_net), [0]);
     unlabel_loader :=
       fun _ => (([[Fin (1 # 2); Fin (1 # 2)]] : @images identity_net), [1]);
     test_loader := tests;
     wall := fun n => Fin (inject_Z (Z.of_nat n));
     files := fs |}.

(** The same network with an optimizer whose buffers keep, in order, the
    rate of every [SGD.step()] call, and a world for it. *)
Definition rate_log_net : Torch :=
  {| weights := Z;
     buffers := list Q;
     images := matrix;
     grads := Z;
     size0 := fun x => Z.of_nat (length x);
     forward := fun _ _ x => x;
     forward_fast := fun _ _ _ _ _ x => x;
     softmax := fun m => m;
     log_softmax := fun m => m;
     kl_div := fun _ _ => Fin 0;
     cross_entropy := fun _ _ => Fin 0;
     autograd_grad := fun _ _ _ _ leaf _ _ => map (map (fun _ => Fin 1)) (data leaf);
     backward := fun _ _ _ _ => 1;
     sgd_step := fun r _ _ b w g => ((b ++ [r])%list, (fst w + g, snd w + g));
     no_buffers := [];
     accuracy := fun _ _ => Fin 50 |}.

Definition rate_log_world : @World rate_log_net :=
  {| label_loader := fun _ => (([[Fin 1; Fin 0]] : @images rate_log_net), [0]);
     unlabel_loader :=
       fun _ => (([[Fin (1 # 2); Fin (1 # 2)]] : @images rate_log_net), [1]);
     test_loader := [];
     wall := fun n => Fin (inject_Z (Z.of_nat n));
     files := ∅ |}.

(** The unlabeled loader with its ground-truth labels replaced. *)
Definition relabel {T : Torch} (gt : nat -> list Z) (W : World) : World :=
  {| label_loader := label_loader W;
     unlabel_loader := fun n => (fst (unlabel_loader W n), gt n);
     test_loader := test_loader W;
     wall := wall W;
     files := files W |}.

(** The rate in the optimizer when the iteration for [step] begins: the
    rate its [optimizer.step()] uses. *)
Definition lr_used_at {T : Torch} (W : World) (a : Args)
    (model0 classifier0 : weights) (step : Z) : Q :=
  group_lr (optimizer (snd (script_until W step a model0 classifier0))).

(** Decays that have taken effect at [step] of a run of [total] steps. *)
Definition decays (total step : Z) : nat :=
  (if total / 2 <=? step then 1%nat else 0%nat)
  + (if total * 3 / 4 <=? step then 1%nat else 0%nat).

(** Milestones in the half-open interval from [lo] (excluded) to [hi]. *)
Definition hits (ms : list Z) (lo hi : Z) : nat :=
  length (List.filter (fun m => (lo <? m) && (m <=? hi)) ms).

(** The scheduler together with the rate it maintains in the optimizer,
    and [lr_scheduler.step()] on that pair. *)
Definition sched_view {T : Torch} (s : state) : MultiStepLR * Q :=
  (lr_scheduler s, group_lr (optimizer s)).

Definition advance (p : MultiStepLR * Q) : MultiStepLR * Q :=
  let sch := {| milestones := milestones (fst p); gamma := gamma (fst p);
                last_epoch := last_epoch (fst p) + 1 |} in
  (sch, get_lr sch (snd p)).

(** *** The rate as the interpreter holds it

    [args.lr], [args.lr_decay] and the rate in the optimizer's parameter
    group are Python floats, binary64 numbers, and the product in [get_lr]
    is rounded.  The script above carries a rate as the rational number it
    stands for; here is the scheduler's arithmetic once more, with the
    rounding written out.  A binary64 number is kept as the rational it
    is. *)
Module Binary64.

(** The integer nearest to [q], ties to even. *)
Definition rne (q : Q) : Z :=
  let n := Qnum q in
  let d := Zpos (Qden q) in
  match 2 * (n mod d) ?= d with
  | Lt => n / d
  | Gt => n / d + 1
  | Eq => if Z.even (n / d) then n / d else n / d + 1
  end.

Definition pow2 (e : Z) : Q :=
  if 0 <=? e then inject_Z (2 ^ e) else (1 # Z.to_pos (2 ^ (- e)))%Q.

(** The exponent [e] of a positive [q]: [2^e <= q < 2^(e+1)]. *)
Definition ilog2 (q : Q) : Z :=
  let e := Z.log2 (Qnum q) - Z.log2 (Zpos (Qden q)) in
  if Qle_bool (pow2 e) q then e else e - 1.

(** Round to nearest, ties to even: 53 significant bits, and multiples of
    [2^-1074] below the normal range.  Overflow to infinity is not
    written out: a rate beyond the largest binary64 number is kept. *)
Definition round64 (q : Q) : Q :=
  match Qnum q with
  | Z0 => 0%Q
  | _ =>
      let a := Qabs q in
      let e := Z.max (ilog2 a - 52) (-1074) in
      let m := rne (a / pow2 e) in
      Qred ((if Qle_bool 0 q then inject_Z m else inject_Z (- m)) * pow2 e)
  end.

(** [x * y] on floats. *)
Definition mul64 (x y : Q) : Q := round64 (x * y).

(** [gamma ** n] on a float and an [int]: the C library's [pow], taken as
    correctly rounded; [pow(x, 1)] is [x]. *)
Definition pow64 (g : Q) (n : nat) : Q :=
  match n with
  | 1%nat => g
  | _ => round64 (qpow g n)
  end.

Definition get_lr (sch : MultiStepLR) (current : Q) : Q :=
  match count_occ Z.eq_dec (milestones sch) (last_epoch sch) with
  | O => current
  | n => mul64 current (pow64 (gamma sch) n)
  end.

Definition advance (p : MultiStepLR * Q) : MultiStepLR * Q :=
  let sch := {| milestones := milestones (fst p); gamma := gamma (fst p);
                last_epoch := last_epoch (fst p) + 1 |} in
  (sch, get_lr sch (snd p)).



End Binary64.


(** Events of the training part of an iteration: the two calls of the
    network and the [print] of line 155. *)
Definition train_event {T : Torch} (e : event) : bool :=
  match e with
  | Forward _ _ _ | ForwardFast _ _ _ | Printed _ => true
  | _ => false
  end.

(** Events of an evaluation pass: log lines, and calls of the network with
    both modules in inference mode and gradients off. *)
Definition eval_event {T : Torch} (e : event) : bool :=
  match e with
  | Forward m c g => negb (m || c || g)
  | Logged _ => true
  | _ => false
  end.

Definition is_forward {T : Torch} (e : event) : bool :=
  match e with Forward _ _ _ => true | _ => false end.

(** [s'] differs from [s] at most in the clock and the trace. *)
Definition only_clock_and_trace {T : Torch} (s s' : state) : Prop :=
  args s' = args s /\ model s' = model s /\ classifier s' = classifier s
  /\ grad_enabled s' = grad_enabled s /\ optimizer s' = optimizer s
  /\ lr_scheduler s' = lr_scheduler s /\ module_best_acc s' = module_best_acc s
  /\ label_pos s' = label_pos s /\ unlabel_pos s' = unlabel_pos s
  /\ frame s' = frame s.

(** The six running averages of [main]. *)
Definition running_averages {T : Torch} (s : state) : list AverageMeter :=
  [data_times (frame s); batch_times (frame s); label_losses (frame s);
   unlabel_losses (frame s); label_acc (frame s); unlabel_acc (frame s)].

(** The dictionary of lines 199-205 for step 399 of a run whose best score
    so far is 90, and the same with an ["epoch"] entry added. *)
Definition saved_optimizer : SGD (@buffers identity_net) :=
  {| group_lr := 1 # 100; group_momentum := 9 # 10;
     group_weight_decay := 1 # 10000; opt_state := 400 |}.

Definition saved_checkpoint : gmap string (@pyval identity_net) :=
  checkpoint_of 399
    (upd_frame (upd_best_acc (fun _ => Fin 90))
       (upd_optimizer (fun _ => saved_optimizer)
          (@build identity_net default_args 400 400))).

Definition saved_checkpoint_with_epoch : gmap string (@pyval identity_net) :=
  <["epoch" := PyInt 1]> saved_checkpoint.

Definition one_test_batch : list (exn + (@images identity_net * list Z)) :=
  [inr (([[Fin 1; Fin 0]] : @images identity_net), [0])].

Definition is_best_save {T : Torch} (e : event) : bool :=
  match e with SaveCheckpoint _ true _ _ => true | _ => false end.

(** The dictionary of lines 199-205 for the state a fresh run of 100 steps
    is in once step 39 is done, with an ["epoch"] entry added so that the
    resume block gets through line 86. *)
Definition checkpoint_at_40 : gmap string (@pyval identity_net) :=
  <["epoch" := PyInt 0]>
    (checkpoint_of 39
       (snd (script_until (small_world ∅ []) 40
               (with_steps 0 100 default_args) 0 0))).

(** ** Further notions for the properties of the second part *)

(** An entry that [torch.clamp(max=1)] leaves alone. *)
Definition at_most_one (x : fl) : bool :=
  match x with
  | Fin q => Qle_bool q 1
  | PInf => false
  | _ => true
  end.

(** The shape of a tensor: the length of each row. *)
Definition shape (m : matrix) : list nat := map (@length fl) m.

(** The arguments with [inner_lr] set to a given value. *)
Definition with_inner_lr (o : option Q) (a : Args) : Args :=
  {| num_label := num_label a; total_steps := total_steps a;
     start_step := start_step a;
     batch_size := batch_size a; lr := lr a; lr_decay := lr_decay a;
     multiplier := multiplier a; fix_inner := fix_inner a; type := type a;
     weight_decay := weight_decay a; momentum := momentum a;
     resume := resume a; print_freq := print_freq a; test_freq := test_freq a;
     save_path := save_path a; inner_lr := o |}.

(** The arguments with [--resume] left out. *)
Definition without_resume (a : Args) : Args :=
  {| num_label := num_label a; total_steps := total_steps a;
     start_step := start_step a;
     batch_size := batch_size a; lr := lr a; lr_decay := lr_decay a;
     multiplier := multiplier a; fix_inner := fix_inner a; type := type a;
     weight_decay := weight_decay a; momentum := momentum a;
     resume := None; print_freq := print_freq a; test_freq := test_freq a;
     save_path := save_path a; inner_lr := inner_lr a |}.

(** Calls of the network made in training mode with gradients on (and
    every event that is not a call). *)
Definition train_mode_event {T : Torch} (e : event) : bool :=
  match e with
  | Forward m c g | ForwardFast m c g => m && c && g
  | _ => true
  end.

Definition is_logged {T : Torch} (e : event) : bool :=
  match e with Logged _ => true | _ => false end.



(** Two states that agree on everything training reads or writes: all
    but the trace and the [resume] argument. *)
Definition same_training {T : Torch} (s s' : state) : Prop :=
  without_resume (args s') = without_resume (args s)
  /\ model s' = model s /\ classifier s' = classifier s
  /\ grad_enabled s' = grad_enabled s /\ optimizer s' = optimizer s
  /\ lr_scheduler s' = lr_scheduler s /\ module_best_acc s' = module_best_acc s
  /\ label_pos s' = label_pos s /\ unlabel_pos s' = unlabel_pos s
  /\ clock s' = clock s /\ frame s' = frame s.

(** The keys the resume block reads, in the order it reads them. *)
Definition resume_keys : list string :=
  ["step"; "best_acc"; "model"; "classifier"; "optimizer"; "epoch"].

Definition first_missing {T : Torch} (ck : gmap string pyval) : option string :=
  List.find (fun k => match ck !! k with None => true | Some _ => false end)
    resume_keys.

(** The entries that are present hold values of the type the script
    expects of them. *)
Definition well_typed {T : Torch} (ck : gmap string pyval) : bool :=
  match ck !! "step" with Some (PyInt _) | None => true | _ => false end
  && match ck !! "model" with Some (PyStateDict _) | None => true | _ => false end
  && match ck !! "classifier" with Some (PyStateDict _) | None => true | _ => false end
  && match ck !! "optimizer" with Some (PyOptim _) | None => true | _ => false end.

(** The accuracy meter of [test] once it has seen the batches [bs], the
    network being called with the modules [m] and [c]. *)
Definition eval_accuracy {T : Torch} (m c : module weights)
    (bs : list (images * list Z)) (acc : AverageMeter) : AverageMeter :=
  fold_left
    (fun acc b =>
       meter_update acc (accuracy (forward m c (fst b)) (snd b)) (size0 (fst b)))
    bs acc.

Definition two_test_batches : list (@images identity_net * list Z) :=
  [(([[Fin 1; Fin 0]] : @images identity_net), [0]);
   (([[Fin 0; Fin 1]; [Fin 1; Fin 0]] : @images identity_net), [1; 0])].

Definition with_print_freq (f : Z) (a : Args) : Args :=
  {| num_label := num_label a; total_steps := total_steps a;
     start_step := start_step a;
     batch_size := batch_size a; lr := lr a; lr_decay := lr_decay a;
     multiplier := multiplier a; fix_inner := fix_inner a; type := type a;
     weight_decay := weight_decay a; momentum := momentum a;
     resume := resume a; print_freq := f; test_freq := test_freq a;
     save_path := save_path a; inner_lr := inner_lr a |}.

(** ** The baseline script (train_baseline.py)

    The supervised loop: one network, no pseudo-labels, and no [continue]
    in the loop body, so that its summaries, evaluations and checkpoints
    are reached.  Modelled like the script above, in a name space of its
    own. *)

Module Baseline.

Inductive exn : Type :=
| KeyError (key : string)
| TypeError
| ZeroDivisionError
| NotImplementedError
| AttributeError (what : string)
| RuntimeError (what : string).

(** What the script calls of torch and of the network. *)
Class FullModel : Type := {
  weights : Type;
  buffers : Type;
  images : Type;
  grads : Type;
  (** [x.size(0)] *)
  size0 : images -> Z;
  (** [model(x)] *)
  forward : module weights -> images -> matrix;
  (** [F.cross_entropy(pred, gt, reduction='mean')] *)
  cross_entropy : matrix -> list Z -> fl;
  (** [optimizer.zero_grad(); loss.backward()] for
      [loss = F.cross_entropy(model(x), gt)]. *)
  backward : module weights -> images -> list Z -> grads;
  (** The update rule of [SGD.step()]. *)
  sgd_step : Q -> Q -> Q -> buffers -> weights -> grads -> buffers * weights;
  no_buffers : buffers;
  (** [accuracy(pred, gt, topk=(1,))] *)
  accuracy : matrix -> list Z -> fl;
}.

(** The arguments of the baseline's parser that the script reads. *)
Record Args : Type := {
  num_label : Z;
  total_steps : Z;
  start_step : Z;
  batch_size : Z;
  lr : Q;
  lr_decay : Q;
  weight_decay : Q;
  momentum : Q;
  resume : option string;
  print_freq : Z;
  test_freq : Z;
  save_path : string;
}.

Definition set_start_step (z : Z) (a : Args) : Args :=
  {| num_label := num_label a; total_steps := total_steps a; start_step := z;
     batch_size := batch_size a; lr := lr a; lr_decay := lr_decay a;
     weight_decay := weight_decay a; momentum := momentum a;
     resume := resume a; print_freq := print_freq a; test_freq := test_freq a;
     save_path := save_path a |}.

Section Script.

Context {F : FullModel}.

Inductive pyval : Type :=
| PyInt (z : Z)
| PyFloat (x : fl)
| PyStateDict (w : weights)
| PyOptim (o : SGD buffers)
| PyMeter (m : AverageMeter).

Abbreviation checkpoint := (gmap string pyval).

Abbreviation batch := (images * list Z)%type.

Record World : Type := {
  label_loader : nat -> batch;
  test_loader : list (exn + batch);
  wall : nat -> fl;
  files : gmap string checkpoint;
}.

Inductive message : Type :=
| MsgLoading (path : string)
| MsgLoaded (path : string) (epoch : pyval)
| MsgNoCheckpoint (path : string)
| MsgStart
| MsgStep (step total : Z) (rate : Q) (meters : list AverageMeter) (label : pyval)
| MsgBest (best : fl)
| MsgTest (i : Z) (len : nat) (meters : list AverageMeter)
| MsgAccuracy (avg : fl).

Inductive event : Type :=
| Logged (m : message)
| AddScalar (tag : string) (v : pyval) (step : Z)
| SaveCheckpoint (st : checkpoint) (is_best : bool) (path filename : string)
| Forward (model_training grad : bool)
| WriterClosed
| LoggerClosed.

(** The local names of [main]; [acc] is bound to a meter and, between
    lines 124 and 139, to the score. *)
Record locals : Type := {
  data_times : AverageMeter;
  batch_times : AverageMeter;
  losses : AverageMeter;
  acc : pyval;
  best_acc : fl;
}.


Definition upd_data_times (f : AverageMeter -> AverageMeter) (l : locals) : locals :=
  {| data_times := f (data_times l); batch_times := batch_times l; losses :=
     losses l; acc := acc l; best_acc := best_acc l |}.

Definition upd_batch_times (f : AverageMeter -> AverageMeter) (l : locals) : locals :=
  {| data_times := data_times l; batch_times := f (batch_times l); losses :=
     losses l; acc := acc l; best_acc := best_acc l |}.

Definition upd_losses (f : AverageMeter -> AverageMeter) (l : locals) : locals :=
  {| data_times := data_times l; batch_times := batch_times l; losses := f
     (losses l); acc := acc l; best_acc := best_acc l |}.

Definition upd_acc (f : pyval -> pyval) (l : locals) : locals :=
  {| data_times := data_times l; batch_times := batch_times l; losses :=
     losses l; acc := f (acc l); best_acc := best_acc l |}.

Definition upd_best_acc (f : fl -> fl) (l : locals) : locals :=
  {| data_times := data_times l; batch_times := batch_times l; losses :=
     losses l; acc := acc l; best_acc := f (best_acc l) |}.


Record state : Type := {
  args : Args;
  model : module weights;
  grad_enabled : bool;
  optimizer : SGD buffers;
  lr_scheduler : MultiStepLR;
  module_best_acc : option pyval;
  label_pos : nat;
  clock : nat;
  frame : locals;
  out : list event;
}.


Definition upd_args (f : Args -> Args) (s : state) : state :=
  {| args := f (args s); model := model s; grad_enabled := grad_enabled s;
     optimizer := optimizer s; lr_scheduler := lr_scheduler s;
     module_best_acc := module_best_acc s; label_pos := label_pos s; clock
     := clock s; frame := frame s; out := out s |}.

Definition upd_model (f : module weights -> module weights) (s : state) : state :=
  {| args := args s; model := f (model s); grad_enabled := grad_enabled s;
     optimizer := optimizer s; lr_scheduler := lr_scheduler s;
     module_best_acc := module_best_acc s; label_pos := label_pos s; clock
     := clock s; frame := frame s; out := out s |}.

Definition upd_grad_enabled (f : bool -> bool) (s : state) : state :=
  {| args := args s; model := model s; grad_enabled := f (grad_enabled s);
     optimizer := optimizer s; lr_scheduler := lr_scheduler s;
     module_best_acc := module_best_acc s; label_pos := label_pos s; clock
     := clock s; frame := frame s; out := out s |}.

Definition upd_optimizer (f : SGD buffers -> SGD buffers) (s : state) : state :=
  {| args := args s; model := model s; grad_enabled := grad_enabled s;
     optimizer := f (optimizer s); lr_scheduler := lr_scheduler s;
     module_best_acc := module_best_acc s; label_pos := label_pos s; clock
     := clock s; frame := frame s; out := out s |}.

Definition upd_lr_scheduler (f : MultiStepLR -> MultiStepLR) (s : state) : state :=
  {| args := args s; model := model s; grad_enabled := grad_enabled s;
     optimizer := optimizer s; lr_scheduler := f (lr_scheduler s);
     module_best_acc := module_best_acc s; label_pos := label_pos s; clock
     := clock s; frame := frame s; out := out s |}.

Definition upd_module_best_acc (f : option pyval -> option pyval) (s : state) : state :=
  {| args := args s; model := model s; grad_enabled := grad_enabled s;
     optimizer := optimizer s; lr_scheduler := lr_scheduler s;
     module_best_acc := f (module_best_acc s); label_pos := label_pos s;
     clock := clock s; frame := frame s; out := out s |}.

Definition upd_label_pos (f : nat -> nat) (s : state) : state :=
  {| args := args s; model := model s; grad_enabled := grad_enabled s;
     optimizer := optimizer s; lr_scheduler := lr_scheduler s;
     module_best_acc := module_best_acc s; label_pos := f (label_pos s);
     clock := clock s; frame := frame s; out := out s |}.

Definition upd_clock (f : nat -> nat) (s : state) : state :=
  {| args := args s; model := model s; grad_enabled := grad_enabled s;
     optimizer := optimizer s; lr_scheduler := lr_scheduler s;
     module_best_acc := module_best_acc s; label_pos := label_pos s; clock
     := f (clock s); frame := frame s; out := out s |}.

Definition upd_frame (f : locals -> locals) (s : state) : state :=
  {| args := args s; model := model s; grad_enabled := grad_enabled s;
     optimizer := optimizer s; lr_scheduler := lr_scheduler s;
     module_best_acc := module_best_acc s; label_pos := label_pos s; clock
     := clock s; frame := f (frame s); out := out s |}.

Definition upd_out (f : list event -> list event) (s : state) : state :=
  {| args := args s; model := model s; grad_enabled := grad_enabled s;
     optimizer := optimizer s; lr_scheduler := lr_scheduler s;
     module_best_acc := module_best_acc s; label_pos := label_pos s; clock
     := clock s; frame := frame s; out := f (out s) |}.


Inductive res (A : Type) : Type :=
| Val (a : A)
| Exc (e : exn).
Arguments Val {A} _.
Arguments Exc {A} _.

Definition M (A : Type) : Type := state -> res A * state.

Definition ret {A} (a : A) : M A := fun s => (Val a, s).

Definition bind {A B} (m : M A) (k : A -> M B) : M B :=
  fun s =>
    match m s with
    | (Val a, s') => k a s'
    | (Exc e, s') => (Exc e, s')
    end.

Definition raise {A} (e : exn) : M A := fun s => (Exc e, s).
Definition gets {A} (f : state -> A) : M A := fun s => (Val (f s), s).
Definition modify (f : state -> state) : M unit := fun s => (Val tt, f s).

Notation "x <- m ;; k" := (bind m (fun x => k))
  (at level 100, m at next level, right associativity).
Notation "m ;;; k" := (bind m (fun _ => k))
  (at level 100, right associativity).

Variable W : World.

(** [for x in l: body] *)
Fixpoint for_each {A} (l : list A) (body : A -> M unit) : M unit :=
  match l with
  | [] => ret tt
  | x :: l' => body x ;;; for_each l' body
  end.

Definition with_no_grad {A} (m : M A) : M A :=
  fun s =>
    let prev := grad_enabled s in
    let '(r, s') := m (upd_grad_enabled (fun _ => false) s) in
    (r, upd_grad_enabled (fun _ => prev) s').

Definition py_mod (a b : Z) : M Z :=
  if b =? 0 then raise ZeroDivisionError else ret (a mod b).

Definition getitem (d : checkpoint) (key : string) : M pyval :=
  match d !! key with
  | Some v => ret v
  | None => raise (KeyError key)
  end.

Definition emit (e : event) : M unit := modify (upd_out (fun o => (o ++ [e])%list)).

Definition info (m : message) : M unit := emit (Logged m).

(** [writer.add_scalar(tag, v, step)]: a number is written, any other
    object makes tensorboardX raise. *)
Definition add_scalar (tag : string) (v : pyval) (step : Z) : M unit :=
  match v with
  | PyInt _ | PyFloat _ => emit (AddScalar tag v step)
  | PyStateDict _ | PyOptim _ | PyMeter _ => raise NotImplementedError
  end.

Definition time_time : M fl :=
  n <- gets clock ;;
  modify (upd_clock S) ;;;
  ret (wall W n).

Definition next_label : M batch :=
  n <- gets label_pos ;;
  modify (upd_label_pos S) ;;;
  ret (label_loader W n).

(** [model(x)] *)
Definition call_forward (x : images) : M matrix :=
  s <- gets id ;;
  emit (Forward (training (model s)) (grad_enabled s)) ;;;
  ret (forward (model s) x).

(** [optimizer.zero_grad(); loss.backward(); optimizer.step()] *)
Definition optimizer_step (img : images) (gt : list Z) : M unit :=
  s <- gets id ;;
  let o := optimizer s in
  let g := backward (model s) img gt in
  let '(b, w) :=
    sgd_step (group_lr o) (group_momentum o) (group_weight_decay o) (opt_state o)
             (state_dict (model s)) g in
  modify (upd_optimizer (set_opt_state b)) ;;;
  modify (upd_model (load_state_dict w)).

Definition lr_scheduler_step : M unit :=
  modify (fun s =>
    let '(sch, o) := scheduler_step (lr_scheduler s, optimizer s) in
    upd_lr_scheduler (fun _ => sch) (upd_optimizer (fun _ => o) s)).

Definition as_int (v : pyval) : M Z :=
  match v with PyInt z => ret z | _ => raise TypeError end.

Definition as_state_dict (v : pyval) : M weights :=
  match v with PyStateDict w => ret w | _ => raise TypeError end.

Definition as_optim (v : pyval) : M (SGD buffers) :=
  match v with PyOptim o => ret o | _ => raise TypeError end.

(** [acc.update(v, n)]: [acc] has to be a meter. *)
Definition acc_update (v : fl) (n : Z) : M unit :=
  l <- gets frame ;;
  match acc l with
  | PyMeter m => modify (upd_frame (upd_acc (fun _ => PyMeter (meter_update m v n))))
  | _ => raise (AttributeError "update")
  end.

Definition fresh_locals : locals :=
  {| data_times := AverageMeter_new; batch_times := AverageMeter_new;
     losses := AverageMeter_new; acc := PyMeter AverageMeter_new;
     best_acc := Fin 0 |}.

(** Lines 51-59. *)
Definition build (a : Args) (model0 : weights) : state :=
  let o := {| group_lr := lr a; group_momentum := momentum a;
              group_weight_decay := weight_decay a; opt_state := no_buffers |} in
  let '(sch, o) :=
    MultiStepLR_new o (lr_decay a) [total_steps a / 2; total_steps a * 3 / 4] in
  {| args := a;
     model := {| state_dict := model0; training := true |};
     grad_enabled := true;
     optimizer := o;
     lr_scheduler := sch;
     module_best_acc := None;
     label_pos := O; clock := O;
     frame := fresh_locals;
     out := [] |}.

(** Lines 61-72. *)
Definition resume_block : M unit :=
  a <- gets args ;;
  match resume a with
  | None => ret tt
  | Some path =>
      match files W !! path with
      | Some ckpt =>
          info (MsgLoading path) ;;;
          v <- getitem ckpt "step" ;;
          z <- as_int v ;;
          modify (upd_args (set_start_step z)) ;;;
          v <- getitem ckpt "best_acc" ;;
          modify (upd_module_best_acc (fun _ => Some v)) ;;;
          v <- getitem ckpt "model" ;;
          w <- as_state_dict v ;;
          modify (upd_model (load_state_dict w)) ;;;
          v <- getitem ckpt "optimizer" ;;
          o <- as_optim v ;;
          modify (upd_optimizer (fun _ => o)) ;;;
          v <- getitem ckpt "epoch" ;;
          info (MsgLoaded path v)
      | None => info (MsgNoCheckpoint path)
      end
  end.

(** Lines 142-173: [test]. *)
Record test_meters : Type := {
  t_batch_time : AverageMeter;
  t_losses : AverageMeter;
  t_acc : AverageMeter;
}.

Fixpoint test_loop (i : Z) (items : list (exn + batch)) (end_ : fl)
    (ms : test_meters) : M test_meters :=
  match items with
  | [] => ret ms
  | inl e :: _ => raise e
  | inr (data, target) :: rest =>
      pred <- call_forward data ;;
      let loss := cross_entropy pred target in
      let top1 := accuracy pred target in
      let losses := meter_update (t_losses ms) loss (size0 data) in
      let acc := meter_update (t_acc ms) top1 (size0 data) in
      now <- time_time ;;
      let batch_time := meter_update (t_batch_time ms) (fsub now end_) 1 in
      end_ <- time_time ;;
      a <- gets args ;;
      r <- py_mod i (print_freq a) ;;
      (if r =? 0
       then info (MsgTest i (length (test_loader W)) [batch_time; losses; acc])
       else ret tt) ;;;
      test_loop (i + 1) rest end_
        {| t_batch_time := batch_time; t_losses := losses; t_acc := acc |}
  end.

Definition test : M fl :=
  let ms := {| t_batch_time := AverageMeter_new; t_losses := AverageMeter_new;
               t_acc := AverageMeter_new |} in
  modify (upd_model (set_training false)) ;;;
  ms <- with_no_grad (
          end_ <- time_time ;;
          ms <- test_loop 0 (test_loader W) end_ ms ;;
          info (MsgAccuracy (meter_avg (t_acc ms))) ;;;
          ret ms) ;;
  modify (upd_model (set_training true)) ;;;
  ret (meter_avg (t_acc ms)).

(** The dictionary handed to [save_checkpoint] (lines 130-135). *)
Definition checkpoint_of (step : Z) (s : state) : checkpoint :=
  <["step" := PyInt (step + 1)]>
  (<["model" := PyStateDict (state_dict (model s))]>
  (<["best_acc" := PyFloat (best_acc (frame s))]>
  (<["optimizer" := PyOptim (optimizer s)]> ∅))).

(** Lines 124-139. *)
Definition evaluate_and_save (step : Z) : M unit :=
  score <- test ;;
  modify (upd_frame (upd_acc (fun _ => PyFloat score))) ;;;
  l <- gets frame ;;
  let is_best := fgt score (best_acc l) in
  (if is_best then modify (upd_frame (upd_best_acc (fun _ => score)))
   else ret tt) ;;;
  l <- gets frame ;;
  info (MsgBest (best_acc l)) ;;;
  s <- gets id ;;
  emit (SaveCheckpoint (checkpoint_of step s) is_best
          (save_path (args s)) "checkpoint.pth") ;;;
  l <- gets frame ;;
  add_scalar "test/accuracy" (acc l) step ;;;
  modify (upd_frame (upd_losses (fun _ => AverageMeter_new))) ;;;
  modify (upd_frame (upd_acc (fun _ => PyMeter AverageMeter_new))).

(** Lines 80-139: one pass through the body of the [for] loop. *)
Definition iteration (step : Z) : M unit :=
  data_start <- time_time ;;
  label <- next_label ;;
  let '(label_img, label_gt) := label in
  data_end <- time_time ;;
  label_pred <- call_forward label_img ;;
  let loss := cross_entropy label_pred label_gt in
  optimizer_step label_img label_gt ;;;
  lr_scheduler_step ;;;
  let top1 := accuracy label_pred label_gt in
  modify (upd_frame (upd_data_times
            (fun m => meter_update m (fsub data_end data_start) 1))) ;;;
  now <- time_time ;;
  modify (upd_frame (upd_batch_times
            (fun m => meter_update m (fsub now data_end) 1))) ;;;
  modify (upd_frame (upd_losses
            (fun m => meter_update m loss (size0 label_img)))) ;;;
  acc_update top1 (size0 label_img) ;;;
  o <- gets optimizer ;;
  add_scalar "train/label-acc" (PyFloat top1) step ;;;
  add_scalar "train/loss" (PyFloat loss) step ;;;
  add_scalar "train/lr" (PyFloat (Fin (group_lr o))) step ;;;
  a <- gets args ;;
  m <- py_mod step (print_freq a) ;;
  (if m =? 0 then
     l <- gets frame ;;
     info (MsgStep step (total_steps a) (group_lr o)
             [data_times l; batch_times l; losses l] (acc l))
   else ret tt) ;;;
  m <- py_mod (step + 1) (test_freq a) ;;
  if (m =? 0) || (step =? total_steps a - 1)
  then evaluate_and_save step
  else ret tt.

(** Lines 74-139. *)
Definition main : M unit :=
  modify (upd_frame (fun _ => fresh_locals)) ;;;
  modify (upd_model (set_training true)) ;;;
  info MsgStart ;;;
  a <- gets args ;;
  for_each (py_range (start_step a) (total_steps a)) iteration.

(** The script from the parsed arguments on: build, resume, [main()],
    close the writer and the logger. *)
Definition script (a : Args) (model0 : weights) : res unit * state :=
  (resume_block ;;; main ;;; emit WriterClosed ;;; emit LoggerClosed)
    (build a model0).

End Script.

Arguments Val {A} _.
Arguments Exc {A} _.

(** *** Notions for the properties of the baseline *)

(** The condition of line 123. *)
Definition due (a : Args) (step : Z) : bool :=
  ((step + 1) mod test_freq a =? 0) || (step =? total_steps a - 1).

(** The calls of [save_checkpoint] in a trace, in order. *)
Definition saves {F : FullModel} (o : list event) : list (gmap string pyval * bool) :=
  flat_map (fun e => match e with
                     | SaveCheckpoint ck b _ _ => [(ck, b)]
                     | _ => []
                     end) o.

Definition saved_step {F : FullModel} (p : gmap string pyval * bool) : option pyval :=
  fst p !! "step".

Definition yields_only_batches {F : FullModel} (W : World) : bool :=
  forallb (fun x => match x with inr _ => true | inl _ => false end)
    (test_loader W).

Definition is_meter {F : FullModel} (v : pyval) : bool :=
  match v with PyMeter _ => true | _ => false end.

Definition is_closed {F : FullModel} (e : event) : bool :=
  match e with WriterClosed | LoggerClosed => true | _ => false end.

(** [s'] differs from [s] at most in the clock and the trace, and its
    trace has the calls of [save_checkpoint] of [s]. *)
Definition only_clock_and_trace {F : FullModel} (s s' : state) : Prop :=
  args s' = args s /\ model s' = model s
  /\ grad_enabled s' = grad_enabled s /\ optimizer s' = optimizer s
  /\ lr_scheduler s' = lr_scheduler s /\ module_best_acc s' = module_best_acc s
  /\ label_pos s' = label_pos s /\ frame s' = frame s
  /\ saves (out s') = saves (out s).

(** A one-weight network for running the baseline. *)
Definition counting_model : FullModel :=
  {| weights := Z;
     buffers := Z;
     images := matrix;
     grads := Z;
     size0 := fun x => Z.of_nat (length x);
     forward := fun _ x => x;
     cross_entropy := fun _ _ => Fin 0;
     backward := fun _ _ _ => 1;
     sgd_step := fun _ _ _ b w g => (b + 1, w + g);
     no_buffers := 0;
     accuracy := fun _ _ => Fin 50 |}.

Definition default_args : Args :=
  {| num_label := 4000; total_steps := 120000; start_step := 0;
     batch_size := 128; lr := 1 # 10; lr_decay := 1 # 10;
     weight_decay := 1 # 10000; momentum := 9 # 10; resume := None;
     print_freq := 50; test_freq := 400; save_path := "./results" |}.

Definition with_schedule (start total print test : Z) (a : Args) : Args :=
  {| num_label := num_label a; total_steps := total; start_step := start;
     batch_size := batch_size a; lr := lr a; lr_decay := lr_decay a;
     weight_decay := weight_decay a; momentum := momentum a;
     resume := resume a; print_freq := print; test_freq := test;
     save_path := save_path a |}.

Definition with_resume (path : string) (a : Args) : Args :=
  {| num_label := num_label a; total_steps := total_steps a;
     start_step := start_step a;
     batch_size := batch_size a; lr := lr a; lr_decay := lr_decay a;
     weight_decay := weight_decay a; momentum := momentum a;
     resume := Some path; print_freq := print_freq a; test_freq := test_freq a;
     save_path := save_path a |}.

(** A world whose only file is the dictionary of lines 130-135 for step
    399 of a run. *)
Definition saved_world : @World counting_model :=
  {| label_loader := fun _ => (([[Fin 1; Fin 0]] : @images counting_model), [0]);
     test_loader := [];
     wall := fun n => Fin (inject_Z (Z.of_nat n));
     files := {["checkpoint.pth" :=
                 checkpoint_of 399 (@build counting_model default_args 400)]} |}.

Definition one_batch : list (exn + (@images counting_model * list Z)) :=
  [inr (([[Fin 1; Fin 0]] : @images counting_model), [0])].

Definition small_world (tests : list (exn + (matrix * list Z)))
  : @World counting_model :=
  {| label_loader := fun _ => (([[Fin 1; Fin 0]] : @images counting_model), [0]);
     test_loader := tests;
     wall := fun n => Fin (inject_Z (Z.of_nat n));
     files := ∅ |}.

End Baseline.

(** * Properties *)

(** ** The projection *)

Section Projection.

Lemma Qle_bool_false (a b : Q) : Qle_bool a b = false -> (b < a)%Q.
Proof.
  intros H. destruct (Qlt_le_dec b a) as [Hlt|Hle]; [exact Hlt|].
  apply Qle_bool_iff in Hle. congruence.
Qed.

Lemma Qmax_0_cases (q : Q) : Qmax q 0 = if Qle_bool 0 q then q else 0%Q.
Proof.
  unfold Qmax, GenericMinMax.gmax.
  destruct (Qle_bool 0 q) eqn:H0.
  - apply Qle_bool_iff in H0.
    destruct (Qcompare_spec q 0); try reflexivity. lra.
  - apply Qle_bool_false in H0.
    destruct (Qcompare_spec q 0); try reflexivity; lra.
Qed.

Lemma Qmin_1_cases (q : Q) : Qmin q 1 = if Qle_bool q 1 then q else 1%Q.
Proof.
  unfold Qmin, GenericMinMax.gmin.
  destruct (Qle_bool q 1) eqn:H1.
  - apply Qle_bool_iff in H1.
    destruct (Qcompare_spec q 1); try reflexivity. lra.
  - apply Qle_bool_false in H1.
    destruct (Qcompare_spec q 1); try reflexivity; lra.
Qed.

Lemma clamp_spec (x : fl) : clamp 0 1 x = Spec.clamp01 x.
Proof.
  destruct x as [q| | |]; simpl; try reflexivity.
  rewrite Qmax_0_cases.
  destruct (Qle_bool 0 q) eqn:H0.
  - rewrite Qmin_1_cases. destruct (Qle_bool q 1); reflexivity.
  - reflexivity.
Qed.

Lemma relu_spec (x : fl) : relu x = Spec.clip_negative x.
Proof.
  destruct x as [q| | |]; simpl; try reflexivity.
  rewrite Qmax_0_cases. destruct (Qle_bool 0 q); reflexivity.
Qed.

Lemma div_rows_own_sums (m : matrix) :
  div_rows m (sum_dim1 m) = Spec.renormalize m.
Proof.
  unfold div_rows, sum_dim1, Spec.renormalize.
  induction m as [|r m IH]; simpl; [reflexivity|].
  f_equal. exact IH.
Qed.

Lemma isub_scale_row (lr : Q) (r g : list fl) :
  zip_with fsub r (map (fmul (Fin lr)) g)
  = zip_with (fun x y => fsub x (fmul (Fin lr) y)) r g.
Proof.
  revert g. induction r as [|x r IH]; intros [|y g]; simpl; try reflexivity.
  f_equal. apply IH.
Qed.

Lemma isub_scale (lr : Q) (t g : matrix) :
  isub t (scale lr g) = Spec.meta_update lr t g.
Proof.
  unfold isub, scale, Spec.meta_update.
  revert g. induction t as [|r t IH]; intros [|gr g]; simpl; try reflexivity.
  f_equal; [apply isub_scale_row | apply IH].
Qed.

Lemma map_map_ext_fl (f g : fl -> fl) (m : matrix) :
  (forall x, f x = g x) -> map (map f) m = map (map g) m.
Proof.
  intros E. apply map_ext. intros r. apply map_ext. exact E.
Qed.

Lemma final_target_spec (inner_lr : Q) (t : tensor) (g : matrix) :
  let u := Spec.meta_update inner_lr (data t) g in
  data (final_target "0" inner_lr t g) = Spec.policy0 u
  /\ data (final_target "1" inner_lr t g) = Spec.policy1 u
  /\ data (final_target "2" inner_lr t g) = Spec.policy2 u
  /\ (forall type, requires_grad (final_target type inner_lr t g) = false)
  /\ (forall type,
        final_target type inner_lr t g
        = detach (update_pseudo_gt type inner_lr t g)).
Proof.
  cbv zeta. unfold final_target, update_pseudo_gt, project.
  simpl. rewrite !isub_scale, !div_rows_own_sums.
  unfold Spec.policy0, Spec.policy1, Spec.policy2.
  rewrite (map_map_ext_fl _ _ _ clamp_spec), (map_map_ext_fl _ _ _ relu_spec).
  repeat split; reflexivity.
Qed.

(** *** Rows after renormalisation *)










Lemma Qclamp_bounds (q : Q) : (0 <= Qmin (Qmax q 0) 1)%Q.
Proof.
  rewrite Qmax_0_cases, Qmin_1_cases.
  destruct (Qle_bool 0 q) eqn:H0.
  - apply Qle_bool_iff in H0. destruct (Qle_bool q 1); lra.
  - destruct (Qle_bool 0 1); lra.
Qed.


Lemma Qrelu_bounds (q : Q) : (0 <= Qmax q 0)%Q.
Proof.
  rewrite Qmax_0_cases. destruct (Qle_bool 0 q) eqn:H0; [|lra].
  apply Qle_bool_iff in H0. exact H0.
Qed.



Lemma final_target_policy3 (inner_lr : Q) (t : tensor) (g : matrix) :
  data (final_target "3" inner_lr t g) = Spec.meta_update inner_lr (data t) g.
Proof. unfold final_target, update_pseudo_gt. simpl. apply isub_scale. Qed.

End Projection.

(** ** The loop body *)

Section Loop.

Context {T : Torch}.
Variable W : @World T.

Ltac run_iteration :=
  unfold iteration, train_step, time_time, next_label, next_unlabel, call_forward,
    call_forward_fast, optimizer_step, lr_scheduler_step, with_no_grad, emit,
    bind, gets, modify, ret, continue;
  cbn -[scheduler_step update_pseudo_gt];
  destruct (label_loader W _) as [li lg];
  destruct (unlabel_loader W _) as [ui ug];
  cbn -[scheduler_step update_pseudo_gt];
  destruct (sgd_step _ _ _ _ _ _) as [b [wm wc]];
  cbn -[update_pseudo_gt].

Lemma iteration_continues (step : Z) (s : state) :
  fst (iteration W step s) = Cont.
Proof. run_iteration. reflexivity. Qed.

Lemma iteration_frame (step : Z) (s : state) :
  frame (snd (iteration W step s)) = frame s.
Proof. run_iteration. reflexivity. Qed.

Lemma iteration_modes (step : Z) (s : state) :
  let s' := snd (iteration W step s) in
  training (model s') = training (model s)
  /\ training (classifier s') = training (classifier s)
  /\ grad_enabled s' = grad_enabled s.
Proof. run_iteration. repeat split. Qed.

Lemma iteration_out (step : Z) (s : state) :
  out (snd (iteration W step s))
  = (out s
     ++ [Forward (training (model s)) (training (classifier s)) (grad_enabled s);
         ForwardFast (training (model s)) (training (classifier s)) (grad_enabled s);
         Printed (fsub (wall W (S (S (clock s)))) (wall W (S (clock s))))])%list.
Proof. run_iteration. rewrite <- !app_assoc. reflexivity. Qed.

Lemma iteration_scheduler (step : Z) (s : state) :
  sched_view (snd (iteration W step s)) = advance (sched_view s).
Proof. run_iteration. reflexivity. Qed.


(** The loop over any list of steps: no step raises, each one advances the
    scheduler once, none touches the frame of [main]. *)
Lemma loop_run (l : list Z) (s : state) :
  let r := for_each l (iteration W) s in
  fst r = Val tt
  /\ sched_view (snd r) = Nat.iter (length l) advance (sched_view s)
  /\ frame (snd r) = frame s
  /\ (training (model (snd r)) = training (model s)
      /\ training (classifier (snd r)) = training (classifier s)
      /\ grad_enabled (snd r) = grad_enabled s).
Proof.
  revert s. induction l as [|x l IH]; intros s; cbn zeta.
  - simpl. repeat split.
  - simpl for_each.
    pose proof (iteration_continues x s) as Hc.
    pose proof (iteration_scheduler x s) as Hs.
    pose proof (iteration_frame x s) as Hf.
    pose proof (iteration_modes x s) as Hm. cbv zeta in Hm.
    destruct (iteration W x s) as [r s']. simpl in Hc, Hs, Hf, Hm. subst r.
    destruct (IH s') as (H1 & H2 & H3 & H4).
    split; [exact H1|]. split.
    + rewrite H2, Hs. simpl length. rewrite Nat.iter_succ_r. reflexivity.
    + split; [congruence|]. destruct H4 as (? & ? & ?), Hm as (? & ? & ?).
      repeat split; congruence.
Qed.

(** Every event a loop writes is a call of the network or a [print]. *)
Lemma loop_out (l : list Z) (s : state) :
  exists evs,
    out (snd (for_each l (iteration W) s)) = (out s ++ evs)%list
    /\ forallb train_event evs = true.
Proof.
  revert s. induction l as [|x l IH]; intros s.
  - exists []. simpl. rewrite app_nil_r. split; reflexivity.
  - simpl for_each.
    pose proof (iteration_continues x s) as Hc.
    pose proof (iteration_out x s) as Ho.
    destruct (iteration W x s) as [r s']. simpl in Hc, Ho. subst r.
    destruct (IH s') as (evs & E & F). rewrite E, Ho, <- app_assoc.
    eexists. split; [reflexivity|]. simpl. exact F.
Qed.

(** A loop over a range is the loop over its first part followed by the
    loop over the rest. *)
Lemma map_seq_from {A} (f : nat -> A) (n m : nat) :
  map f (seq n m) = map (fun i => f (n + i)%nat) (seq 0 m).
Proof.
  revert n f. induction m as [|m IH]; intros n f; [reflexivity|].
  simpl. rewrite Nat.add_0_r. f_equal.
  rewrite (IH (S n)), (IH 1%nat). apply map_ext. intros i.
  f_equal. lia.
Qed.

Lemma py_range_split (a b c : Z) :
  a <= b <= c -> py_range a c = (py_range a b ++ py_range b c)%list.
Proof.
  intros H. unfold py_range.
  replace (Z.to_nat (c - a)) with (Z.to_nat (b - a) + Z.to_nat (c - b))%nat by lia.
  rewrite seq_app, map_app. f_equal. simpl.
  rewrite map_seq_from. apply map_ext. intros i. lia.
Qed.

Lemma py_range_length (a b : Z) : length (py_range a b) = Z.to_nat (b - a).
Proof. unfold py_range. rewrite length_map, length_seq. reflexivity. Qed.

Lemma for_each_app (l1 l2 : list Z) (s : state) :
  for_each (l1 ++ l2) (iteration W) s
  = for_each l2 (iteration W) (snd (for_each l1 (iteration W) s)).
Proof.
  revert s. induction l1 as [|x l1 IH]; intros s; [reflexivity|].
  simpl. pose proof (iteration_continues x s) as Hc.
  destruct (iteration W x s) as [r s']. simpl in Hc. subst r. apply IH.
Qed.

End Loop.

(** ** The learning-rate schedule *)

Section Schedule.

Lemma qpow_add (g : Q) (n m : nat) :
  (qpow g (n + m) == qpow g n * qpow g m)%Q.
Proof.
  induction n as [|n IH]; simpl; [ring|]. rewrite IH. ring.
Qed.

Lemma get_lr_closed (sch : MultiStepLR) (c : Q) :
  (get_lr sch c
   == c * qpow (gamma sch) (count_occ Z.eq_dec (milestones sch) (last_epoch sch)))%Q.
Proof.
  unfold get_lr.
  destruct (count_occ Z.eq_dec (milestones sch) (last_epoch sch)); simpl; ring.
Qed.

Lemma hits_succ (ms : list Z) (lo e : Z) :
  lo <= e ->
  hits ms lo (e + 1) = Nat.add (hits ms lo e) (count_occ Z.eq_dec ms (e + 1)).
Proof.
  intros Hle. unfold hits. induction ms as [|m ms IH]; [reflexivity|].
  cbn [List.filter count_occ].
  destruct (Z.eq_dec m (e + 1)) as [->|Hne].
  - replace (lo <? e + 1) with true by lia.
    replace (e + 1 <=? e + 1) with true by lia.
    replace (e + 1 <=? e) with false by lia.
    cbn. rewrite IH. lia.
  - replace (m <=? e + 1) with (m <=? e) by lia.
    destruct ((lo <? m) && (m <=? e)); cbn; rewrite IH; reflexivity.
Qed.

Lemma hits_empty (ms : list Z) (e : Z) : hits ms e e = 0%nat.
Proof.
  unfold hits. induction ms as [|m ms IH]; [reflexivity|].
  cbn [List.filter]. replace ((e <? m) && (m <=? e)) with false by lia. exact IH.
Qed.

(** [k] scheduler steps multiply the rate by [gamma] once for every
    milestone crossed. *)
Lemma advance_iter (k : nat) (sch : MultiStepLR) (r : Q) :
  let p := Nat.iter k advance (sch, r) in
  milestones (fst p) = milestones sch
  /\ gamma (fst p) = gamma sch
  /\ last_epoch (fst p) = last_epoch sch + Z.of_nat k
  /\ (snd p == r * qpow (gamma sch)
                   (hits (milestones sch) (last_epoch sch)
                         (last_epoch sch + Z.of_nat k)))%Q.
Proof.
  induction k as [|k IH]; cbv zeta.
  - simpl. rewrite Z.add_0_r, hits_empty. simpl. repeat split; ring.
  - rewrite Nat.iter_succ. cbv zeta in IH.
    destruct IH as (Hm & Hg & He & Hr).
    destruct (Nat.iter k advance (sch, r)) as [sch' r']. simpl in *.
    repeat split; try assumption; [lia|].
    rewrite get_lr_closed. simpl. rewrite Hm, Hg, He, Hr.
    replace (last_epoch sch + Z.of_nat (S k)) with (last_epoch sch + Z.of_nat k + 1) by lia.
    rewrite hits_succ by lia. rewrite qpow_add. ring.
Qed.



Lemma hits_two_milestones (total step : Z) :
  0 <= total ->
  hits [total / 2; total * 3 / 4] (-1) step = decays total step.
Proof.
  intros Ht. unfold hits, decays.
  assert (0 <= total / 2) by (apply Z.div_pos; lia).
  assert (0 <= total * 3 / 4) by (apply Z.div_pos; lia).
  cbn [List.filter].
  replace (-1 <? total / 2) with true by lia.
  replace (-1 <? total * 3 / 4) with true by lia.
  cbn [andb].
  destruct (total / 2 <=? step), (total * 3 / 4 <=? step); reflexivity.
Qed.

Context {T : Torch}.
Variable W : @World T.

Lemma resume_block_fresh (s : state) :
  resume (args s) = None -> resume_block W s = (Val tt, s).
Proof.
  intros H. unfold resume_block, bind, gets. rewrite H. reflexivity.
Qed.

(** A run that is not resumed is the loop, entered in the state the
    prologue of [main] leaves. *)
Lemma fresh_script (a : Args) (m0 c0 : weights) :
  resume a = None ->
  let s1 := snd (main_prologue (build a m0 c0)) in
  script W a m0 c0
  = for_each (py_range (start_step a) (total_steps a)) (iteration W) s1
  /\ forall stop,
       script_until W stop a m0 c0
       = for_each (py_range (start_step a) stop) (iteration W) s1.
Proof.
  intros Hres. cbv zeta.
  assert (resume_block W (build a m0 c0) = (Val tt, build a m0 c0)) as E
    by (apply resume_block_fresh; exact Hres).
  split; [|intros stop]; unfold script, script_until, main, main_until;
    unfold bind at 1; rewrite E; reflexivity.
Qed.

(** A run that is not resumed, stopped before [step]: the loop ran [step]
    times without raising, and the scheduler was stepped as often. *)
Lemma fresh_run_until (a : Args) (m0 c0 : weights) (step : Z) :
  start_step a = 0 -> resume a = None -> 0 <= step ->
  fst (script_until W step a m0 c0) = Val tt
  /\ sched_view (snd (script_until W step a m0 c0))
     = Nat.iter (S (Z.to_nat step)) advance
         ({| milestones := [total_steps a / 2; total_steps a * 3 / 4];
             gamma := lr_decay a; last_epoch := -1 |}, lr a).
Proof.
  intros H0 Hres Hstep.
  destruct (fresh_script a m0 c0 Hres) as [_ E]. rewrite E, H0.
  destruct (loop_run W (py_range 0 step) (snd (main_prologue (build a m0 c0))))
    as (R1 & R2 & _).
  split; [exact R1|].
  rewrite R2, py_range_length, Z.sub_0_r, Nat.iter_succ_r. reflexivity.
Qed.

(** The state in which [script_until] stops is a state the full run
    passes through: the full run is the rest of the loop from there. *)
Lemma script_passes_through (a : Args) (m0 c0 : weights) (s : Z) :
  start_step a = 0 -> resume a = None -> 0 <= s <= total_steps a ->
  script W a m0 c0
  = for_each (py_range s (total_steps a)) (iteration W)
      (snd (script_until W s a m0 c0)).
Proof.
  intros H0 Hres Hs.
  destruct (fresh_script a m0 c0 Hres) as [E1 E2]. rewrite E1, E2, H0.
  rewrite (py_range_split 0 s (total_steps a)) by lia.
  apply for_each_app.
Qed.




End Schedule.


(** Rounding to binary64 on a few numbers: the floats Python prints as
    0.1 and 0.3333333333333333, a tie that goes to the even neighbour, and
    the product 0.1 * 0.1. *)
Example round64_samples :
  Binary64.round64 (1 # 10) = (3602879701896397 # 36028797018963968)%Q
  /\ Binary64.round64 (1 # 3) = (6004799503160661 # 18014398509481984)%Q
  /\ Binary64.round64 (inject_Z (2 ^ 53 + 1)) = inject_Z (2 ^ 53)
  /\ Binary64.round64 (inject_Z (2 ^ 53 + 3)) = inject_Z (2 ^ 53 + 4)
  /\ Binary64.mul64 (Binary64.round64 (1 # 10)) (Binary64.round64 (1 # 10))
     = (1441151880758559 # 144115188075855872)%Q.
Proof. repeat split; vm_compute; reflexivity. Qed.

(** The rates [optimizer.step()] is called with in a run of 8 steps, as
    the optimizer logs them: the decay due at step 4 is first used in the
    update of step 4, not of step 3, the scheduler being stepped after the
    optimizer. *)
Example optimizer_steps_before_scheduler :
  opt_state (optimizer (snd (script rate_log_world
                               (with_steps 0 8 default_args) 0%Z 0%Z)))
  = [1 # 10; 1 # 10; 1 # 10; 1 # 10; 1 # 100; 1 # 100; 1 # 1000; 1 # 1000]%Q.
Proof. vm_compute. reflexivity. Qed.


(** ** What an iteration does and what it never reaches *)

Section Iteration.

Context {T : Torch}.
Variable W : @World T.

(** C1.  Every pass through the loop body ends at the [continue] of line
    156: it leaves the running averages and every other local of [main]
    as they were, and writes nothing but the two calls of the network and
    the [print] of line 155; no summary, no evaluation, no checkpoint, for
    any step and any evaluation interval.  The same holds of the loop over
    any list of steps. *)
Theorem iteration_stops_at_continue (step : Z) (s : state) :
  fst (iteration W step s) = Cont
  /\ frame (snd (iteration W step s)) = frame s
  /\ out (snd (iteration W step s))
     = (out s
        ++ [Forward (training (model s)) (training (classifier s)) (grad_enabled s);
            ForwardFast (training (model s)) (training (classifier s))
              (grad_enabled s);
            Printed (fsub (wall W (S (S (clock s)))) (wall W (S (clock s))))])%list
  /\ (forall (l : list Z) (s0 : state),
         fst (for_each l (iteration W) s0) = Val tt
         /\ frame (snd (for_each l (iteration W) s0)) = frame s0
         /\ exists evs,
              out (snd (for_each l (iteration W) s0)) = (out s0 ++ evs)%list
              /\ forallb train_event evs = true).
Proof.
  split; [apply iteration_continues|].
  split; [apply iteration_frame|].
  split; [apply iteration_out|].
  intros l s0. destruct (loop_run W l s0) as (H1 & _ & H3 & _).
  split; [exact H1|]. split; [exact H3 | apply loop_out].
Qed.

Lemma iteration_relabel (gt : nat -> list Z) (step : Z) (s : state) :
  iteration (relabel gt W) step s = iteration W step s.
Proof.
  unfold iteration, train_step, time_time, next_label, next_unlabel, call_forward,
    call_forward_fast, optimizer_step, lr_scheduler_step, with_no_grad, emit,
    bind, gets, modify, ret, continue.
  cbn -[scheduler_step update_pseudo_gt].
  destruct (label_loader W _) as [li lg].
  destruct (unlabel_loader W _) as [ui ug].
  cbn -[scheduler_step update_pseudo_gt].
  destruct (sgd_step _ _ _ _ _ _) as [b [wm wc]].
  reflexivity.
Qed.

Lemma for_each_relabel (gt : nat -> list Z) (l : list Z) (s : state) :
  for_each l (iteration (relabel gt W)) s = for_each l (iteration W) s.
Proof.
  revert s. induction l as [|x l IH]; intros s; [reflexivity|].
  simpl. rewrite iteration_relabel.
  destruct (iteration W x s) as [[ | |] s']; try reflexivity; apply IH.
Qed.

(** C7.  The ground-truth labels of the unlabeled batch change nothing:
    one training step computes the same pseudo-labels, losses, weights and
    optimizer state whatever they are, and so does the whole run. *)
Theorem unlabel_gt_is_ignored :
  (forall (label : images * list Z) (img : images) (gt1 gt2 : list Z) (s : state),
      train_step label (img, gt1) s = train_step label (img, gt2) s)
  /\ (forall (gt : nat -> list Z) (step : Z) (s : state),
         iteration (relabel gt W) step s = iteration W step s)
  /\ (forall (gt : nat -> list Z) (a : Args) (m0 c0 : weights),
         script (relabel gt W) a m0 c0 = script W a m0 c0).
Proof.
  split; [|split].
  - intros [li lg] img gt1 gt2 s. reflexivity.
  - apply iteration_relabel.
  - intros gt a m0 c0. unfold script, bind.
    change (resume_block (relabel gt W)) with (resume_block W).
    destruct (resume_block W (build a m0 c0)) as [[ | |] s1]; try reflexivity.
    unfold main, bind. simpl. apply for_each_relabel.
Qed.

(** What lines 108-152 hand on: the prediction for the unlabeled batch,
    the target of line 141 and the loss computed from it. *)
Lemma train_step_values (label unlabel : images * list Z) (s : state) :
  match fst (train_step label unlabel s) with
  | Val v =>
      let rate := if fix_inner (args s) then (lr (args s) * multiplier (args s))%Q
                  else (group_lr (optimizer s) * multiplier (args s))%Q in
      let pred := forward (model s) (classifier s) (fst unlabel) in
      let leaf := {| data := softmax pred; requires_grad := true |} in
      let g := autograd_grad (model s) (classifier s) rate (fst unlabel) leaf
                 (fst label) (snd label) in
      unlabel_pred v = pred
      /\ target v = final_target (type (args s)) rate leaf g
      /\ loss v = kl_div (log_softmax pred) (target v)
  | _ => False
  end.
Proof.
  destruct label as [li lg], unlabel as [ui ug].
  unfold train_step, call_forward, call_forward_fast, optimizer_step,
    lr_scheduler_step, with_no_grad, emit, bind, gets, modify, ret.
  cbn -[scheduler_step update_pseudo_gt final_target].
  destruct (sgd_step _ _ _ _ _ _) as [b [wm wc]].
  cbn -[update_pseudo_gt final_target]. repeat split.
Qed.

(** C2.  The target of the final KL-divergence loss is the pseudo-label
    tensor after [target -= inner_lr * meta_gradient] and the projection,
    detached; the projection is: under policy 0 clamp every entry to [0,1]
    and divide each row by its sum, under policy 1 set negative entries to
    0 and divide each row by its sum, under policy 2 set negative entries
    to 0 and do not renormalize. *)
Theorem projection_refines_spec :
  (forall (inner_lr : Q) (t : tensor) (g : matrix),
      let u := Spec.meta_update inner_lr (data t) g in
      data (final_target "0" inner_lr t g) = Spec.policy0 u
      /\ data (final_target "1" inner_lr t g) = Spec.policy1 u
      /\ data (final_target "2" inner_lr t g) = Spec.policy2 u
      /\ (forall ty, requires_grad (final_target ty inner_lr t g) = false)
      /\ (forall ty, final_target ty inner_lr t g
                     = detach (update_pseudo_gt ty inner_lr t g)))
  /\ (forall (label unlabel : images * list Z) (s : state),
         match fst (train_step label unlabel s) with
         | Val v =>
             let rate :=
               if fix_inner (args s) then (lr (args s) * multiplier (args s))%Q
               else (group_lr (optimizer s) * multiplier (args s))%Q in
             let pred := forward (model s) (classifier s) (fst unlabel) in
             let leaf := {| data := softmax pred; requires_grad := true |} in
             let g := autograd_grad (model s) (classifier s) rate (fst unlabel)
                        leaf (fst label) (snd label) in
             target v = final_target (type (args s)) rate leaf g
             /\ requires_grad (target v) = false
             /\ loss v = kl_div (log_softmax pred) (target v)
         | _ => False
         end).
Proof.
  split.
  - intros inner_lr t g. apply final_target_spec.
  - intros label unlabel s.
    pose proof (train_step_values label unlabel s) as H.
    destruct (fst (train_step label unlabel s)); try exact H.
    cbv zeta in H |- *. destruct H as (_ & Ht & Hl).
    split; [exact Ht|]. split; [rewrite Ht; reflexivity | exact Hl].
Qed.

(** C9.  ['3'] is an accepted choice of [--type]; under it no projection
    branch runs and the target of the final loss is
    [target - inner_lr * meta_gradient] as it is, which can hold negative
    entries and rows that do not sum to 1. *)
Theorem policy3_leaves_update_unprojected :
  In "3" type_choices
  /\ (forall m, project "3" m = m)
  /\ (forall inner_lr t g,
         data (final_target "3" inner_lr t g)
         = Spec.meta_update inner_lr (data t) g)
  /\ (forall (label unlabel : images * list Z) (s : state),
         match fst (train_step label unlabel s) with
         | Val v =>
             let rate :=
               if fix_inner (args s) then (lr (args s) * multiplier (args s))%Q
               else (group_lr (optimizer s) * multiplier (args s))%Q in
             let pred := forward (model s) (classifier s) (fst unlabel) in
             let leaf := {| data := softmax pred; requires_grad := true |} in
             let g := autograd_grad (model s) (classifier s) rate (fst unlabel)
                        leaf (fst label) (snd label) in
             if String.eqb (type (args s)) "3"
             then data (target v) = Spec.meta_update rate (softmax pred) g
             else True
         | _ => False
         end)
  /\ (exists inner_lr t g,
         existsb (existsb is_negative) (data (final_target "3" inner_lr t g)) = true
         /\ existsb (fun r => negb (sums_to_one r))
              (data (final_target "3" inner_lr t g)) = true).
Proof.
  split; [simpl; tauto|].
  split; [reflexivity|].
  split; [apply final_target_policy3|].
  split.
  - intros label unlabel s.
    pose proof (train_step_values label unlabel s) as H.
    destruct (fst (train_step label unlabel s)); try exact H.
    cbv zeta in H |- *. destruct H as (_ & Ht & _).
    destruct (String.eqb_spec (type (args s)) "3") as [E|_]; [|exact I].
    rewrite Ht, E. apply final_target_policy3.
  - exists (1 # 10)%Q,
      {| data := [[Fin (1 # 2); Fin (1 # 2)]]; requires_grad := true |},
      [[Fin 10; Fin (-5)]].
    split; vm_compute; reflexivity.
Qed.

End Iteration.

(** A run of one step with evaluation due at every step: [main] returns
    with nothing recorded, evaluated or saved. *)
Example one_step_run_skips_evaluation :
  let tests := [inr (([[Fin 1; Fin 0]] : @images identity_net), [0])] in
  let a := with_test_freq 1 (with_steps 0 1 default_args) in
  let r := script (small_world ∅ tests) a 0 0 in
  fst r = Val tt
  /\ out (snd r)
     = [Logged MsgStart; Forward true true true; ForwardFast true true true;
        Printed (Fin 1)]
  /\ frame (snd r) = fresh_locals.
Proof. vm_compute. repeat split. Qed.

(** The lines behind the [continue], run for the same step: they evaluate
    and hand a checkpoint to [save_checkpoint], and then stop at the
    summary of line 209. *)
Example lines_behind_continue_would_save :
  let tests := [inr (([[Fin 1; Fin 0]] : @images identity_net), [0])] in
  let a := with_test_freq 1 (with_steps 0 1 default_args) in
  let W := small_world ∅ tests in
  let r := test_and_save W 0 (@build identity_net a 0 0) in
  fst r = Exc NotImplementedError
  /\ existsb (fun e => match e with SaveCheckpoint _ _ _ _ => true | _ => false end)
       (out (snd r)) = true.
Proof. vm_compute. repeat split. Qed.

(** ** The evaluation pass *)

Section Evaluation.

Context {T : Torch}.
Variable W : @World T.

Lemma only_clock_and_trace_refl (s : state) : only_clock_and_trace s s.
Proof. unfold only_clock_and_trace. repeat split. Qed.

Lemma only_clock_and_trace_trans (s1 s2 s3 : state) :
  only_clock_and_trace s1 s2 -> only_clock_and_trace s2 s3 ->
  only_clock_and_trace s1 s3.
Proof.
  unfold only_clock_and_trace. intros H1 H2.
  destruct H1 as (?&?&?&?&?&?&?&?&?&?), H2 as (?&?&?&?&?&?&?&?&?&?).
  repeat split; congruence.
Qed.

(** The loop of [test], entered in inference mode with gradients off: it
    changes the clock and the trace only, calls the network in that mode,
    once per batch when it gets through, and it may raise. *)
Lemma test_loop_run (items : list (exn + images * list Z)) :
  forall (i : Z) (end_ : fl) (ms : test_meters) (s : state),
    training (model s) = false -> training (classifier s) = false ->
    grad_enabled s = false ->
    only_clock_and_trace s (snd (test_loop W i items end_ ms s))
    /\ exists evs,
         out (snd (test_loop W i items end_ ms s)) = (out s ++ evs)%list
         /\ forallb eval_event evs = true
         /\ match fst (test_loop W i items end_ ms s) with
            | Val _ => length (List.filter is_forward evs) = length items
            | Exc _ => True
            | Cont => False
            end.
Proof.
  induction items as [|[e|[data tgt]] rest IH]; intros i end_ ms s Hm Hc Hg.
  - simpl. split; [apply only_clock_and_trace_refl|].
    exists []. rewrite app_nil_r. repeat split.
  - simpl. split; [apply only_clock_and_trace_refl|].
    exists []. rewrite app_nil_r. repeat split.
  - cbn [test_loop].
    unfold call_forward, time_time, emit, info, bind, gets, modify, ret, py_mod, raise.
    cbn -[test_loop meter_update Z.modulo].
    rewrite Hm, Hc, Hg.
    destruct (print_freq (args s) =? 0) eqn:Hp.
    + cbn. split; [unfold only_clock_and_trace; cbn; repeat split|].
      eexists. split; [reflexivity|]. repeat split.
    + cbn -[test_loop meter_update Z.modulo].
      destruct (i mod print_freq (args s) =? 0).
      * cbn -[test_loop meter_update Z.modulo].
        match goal with |- context [test_loop W ?i' rest ?e' ?m' ?s'] =>
          destruct (IH i' e' m' s') as (Hf & evs & Ho & He & Hr);
            [exact Hm | exact Hc | exact Hg |];
            set (r := test_loop W i' rest e' m' s') in *
        end.
        split.
        { eapply only_clock_and_trace_trans; [|exact Hf].
          unfold only_clock_and_trace; cbn; repeat split. }
        eexists. split; [rewrite Ho; cbn; rewrite <- !app_assoc; reflexivity|].
        split; [cbn; exact He|].
        destruct (fst r); try exact Hr. cbn. rewrite Hr. reflexivity.
      * cbn -[test_loop meter_update Z.modulo].
        match goal with |- context [test_loop W ?i' rest ?e' ?m' ?s'] =>
          destruct (IH i' e' m' s') as (Hf & evs & Ho & He & Hr);
            [exact Hm | exact Hc | exact Hg |];
            set (r := test_loop W i' rest e' m' s') in *
        end.
        split.
        { eapply only_clock_and_trace_trans; [|exact Hf].
          unfold only_clock_and_trace; cbn; repeat split. }
        eexists. split; [rewrite Ho; cbn; rewrite <- !app_assoc; reflexivity|].
        split; [cbn; exact He|].
        destruct (fst r); try exact Hr. cbn. rewrite Hr. reflexivity.
Qed.

Lemma test_run (s : state) :
  (args (snd (test W s)) = args s
   /\ state_dict (model (snd (test W s))) = state_dict (model s)
   /\ state_dict (classifier (snd (test W s))) = state_dict (classifier s)
   /\ grad_enabled (snd (test W s)) = grad_enabled s
   /\ optimizer (snd (test W s)) = optimizer s
   /\ lr_scheduler (snd (test W s)) = lr_scheduler s
   /\ frame (snd (test W s)) = frame s)
  /\ (exists evs,
        out (snd (test W s)) = (out s ++ evs)%list
        /\ forallb eval_event evs = true
        /\ match fst (test W s) with
           | Val _ => length (List.filter is_forward evs) = length (test_loader W)
           | _ => True
           end)
  /\ match fst (test W s) with
     | Val _ => training (model (snd (test W s))) = true
                /\ training (classifier (snd (test W s))) = true
     | Exc _ => training (model (snd (test W s))) = false
                /\ training (classifier (snd (test W s))) = false
     | Cont => False
     end.
Proof.
  unfold test, with_no_grad, time_time, info, emit, bind, gets, modify, ret.
  cbn -[test_loop].
  match goal with |- context [test_loop W ?i' ?l ?e' ?m' ?s'] =>
    destruct (test_loop_run l i' e' m' s' eq_refl eq_refl eq_refl)
      as (Hf & evs & Ho & He & Hr);
      destruct (test_loop W i' l e' m' s') as [[ms| |e] s4]
  end; cbn in Hf, Ho, Hr |- *; [| contradiction |];
    destruct Hf as (Ha & Hmo & Hcl & _ & Hop & Hsc & _ & _ & _ & Hfr);
    cbn in Ha, Hmo, Hcl, Hop, Hsc, Hfr.
  - rewrite Ha, Hmo, Hcl, Hop, Hsc, Hfr, Ho. cbn.
    split; [repeat split|]. split; [|split; reflexivity].
    eexists. split; [rewrite <- app_assoc; reflexivity|].
    split.
    + rewrite forallb_app, He. reflexivity.
    + rewrite List.filter_app, length_app, Hr. cbn. lia.
  - rewrite Ha, Hmo, Hcl, Hop, Hsc, Hfr, Ho. cbn.
    split; [repeat split|]. split; [|split; reflexivity].
    exists evs. repeat split. exact He.
Qed.

(** C8, amended.  [test] puts both modules in inference mode and calls the
    network only in that mode with gradients off, once per batch of the
    test set when it returns; gradient mode is put back on every path; the
    modules are back in training mode when [test] returns, and are left in
    inference mode when it raises, the exception going on to the caller. *)
Theorem test_restores_training_mode_on_return (s : state) :
  grad_enabled (snd (test W s)) = grad_enabled s
  /\ (exists evs,
        out (snd (test W s)) = (out s ++ evs)%list
        /\ forallb eval_event evs = true
        /\ match fst (test W s) with
           | Val _ => length (List.filter is_forward evs) = length (test_loader W)
           | _ => True
           end)
  /\ match fst (test W s) with
     | Val _ => training (model (snd (test W s))) = true
                /\ training (classifier (snd (test W s))) = true
     | Exc e => training (model (snd (test W s))) = false
                /\ training (classifier (snd (test W s))) = false
                /\ (forall step, evaluate_and_save W step s
                                 = (Exc e, snd (test W s)))
     | Cont => False
     end.
Proof.
  destruct (test_run s) as ((_ & _ & _ & Hg & _) & Hev & Hmode).
  split; [exact Hg|]. split; [exact Hev|].
  unfold evaluate_and_save, bind.
  destruct (test W s) as [[score| |e] s1]; cbn in Hmode |- *; try exact Hmode.
  destruct Hmode as [H1 H2]. repeat split; assumption.
Qed.

End Evaluation.

(** C8 as stated fails: the test loader raises after its first batch and
    [test] leaves both modules in inference mode. *)
Lemma test_failure_leaves_inference_mode :
  let tests := [inr (([[Fin 1; Fin 0]] : @images identity_net), [0]);
                inl (RuntimeError "DataLoader worker exited unexpectedly")] in
  let s := @build identity_net default_args 0 0 in
  let r := test (small_world ∅ tests) s in
  training (model s) = true
  /\ training (classifier s) = true
  /\ fst r = Exc (RuntimeError "DataLoader worker exited unexpectedly")
  /\ training (model (snd r)) = false
  /\ training (classifier (snd r)) = false.
Proof. vm_compute. repeat split. Qed.

(** ** Checkpoints and resuming *)

(** C3 fails on the code.  Resuming from a checkpoint that records step 400
    and best score 90 restores the step and the optimizer, but [main]
    starts its own [best_acc] at 0: an evaluation that scores 50 is then
    recorded and saved as the best, below the 90 of the checkpoint.  And a
    checkpoint as the script itself writes it has no ["epoch"] entry, so
    that line 86 raises [KeyError]. *)
Theorem resumed_run_forgets_best_score :
  let a := with_resume "checkpoint.pth" default_args in
  let W := small_world {["checkpoint.pth" := saved_checkpoint_with_epoch]}
             one_test_batch in
  let r := bind (resume_block W) (fun _ => main_prologue)
             (@build identity_net a 0 0) in
  fst r = Val tt
  /\ start_step (args (snd r)) = 400
  /\ optimizer (snd r) = saved_optimizer
  /\ module_best_acc (snd r) = Some (PyFloat (Fin 90))
  /\ best_acc (frame (snd r)) = Fin 0
  /\ best_acc (frame (snd (evaluate_and_save W 799 (snd r)))) = Fin 50
  /\ existsb is_best_save (out (snd (evaluate_and_save W 799 (snd r)))) = true
  /\ fst (script (small_world {["checkpoint.pth" := saved_checkpoint]}
                    one_test_batch) a 0 0)
     = Exc (KeyError "epoch").
Proof. vm_compute. repeat split. Qed.

Lemma resume_block_scheduler {T : Torch} (W : World) (s : state) :
  lr_scheduler (snd (resume_block W s)) = lr_scheduler s.
Proof.
  unfold resume_block, bind, gets, getitem, info, emit, modify, as_int,
    as_state_dict, as_optim, raise, ret.
  destruct (resume (args s)) as [path|]; [|reflexivity].
  destruct (files W !! path) as [ck|]; [|reflexivity].
  cbn.
  repeat match goal with
         | |- context [match ?m !! ?k with _ => _ end] =>
             destruct (m !! k) as [[ | | | | ]|]; cbn; try reflexivity
         end.
Qed.

(** C6.  The checkpoint holds the five entries step, model, classifier,
    best_acc and optimizer and nothing of the scheduler; the resume block
    leaves the newly built scheduler, whose counter is 0, as it is; the
    counter then grows by one per iteration from the resume point.  So a
    run of 100 steps resumed at step 40 still trains at rate 0.1 at step
    50, where the uninterrupted run trains at 0.01. *)
Theorem checkpoint_omits_scheduler :
  (forall (T : Torch) (step : Z) (s : state),
      dom (checkpoint_of step s)
      = (list_to_set ["step"; "model"; "classifier"; "best_acc"; "optimizer"]
         : gset string))
  /\ (forall (T : Torch) (W : World) (s : state),
         lr_scheduler (snd (resume_block W s)) = lr_scheduler s)
  /\ (forall (T : Torch) (a : Args) (m0 c0 : weights),
         last_epoch (lr_scheduler (build a m0 c0)) = 0)
  /\ (forall (T : Torch) (W : World) (l : list Z) (s : state),
         last_epoch (lr_scheduler (snd (for_each l (iteration W) s)))
         = last_epoch (lr_scheduler s) + Z.of_nat (length l))
  /\ (let a := with_steps 0 100 default_args in
      checkpoint_at_40 !! "step" = Some (PyInt 40)
      /\ lr_used_at (small_world ∅ []) a 0 0 50 = (1 # 100)%Q
      /\ lr_used_at (small_world {["checkpoint.pth" := checkpoint_at_40]} [])
           (with_resume "checkpoint.pth" a) 0 0 50 = (1 # 10)%Q).
Proof.
  split; [|split; [|split; [|split]]].
  - intros T step s. unfold checkpoint_of.
    rewrite !dom_insert_L, dom_empty_L. set_solver.
  - intros T W s. apply resume_block_scheduler.
  - reflexivity.
  - intros T W l s.
    destruct (loop_run W l s) as (_ & Hv & _).
    pose proof (advance_iter (length l) (lr_scheduler s) (group_lr (optimizer s)))
      as (_ & _ & He & _).
    unfold sched_view in Hv. rewrite <- Hv in He. exact He.
  - vm_compute. repeat split.
Qed.

(** * Further properties *)

(** ** The pseudo-label update *)

Section ProjectionMore.

Lemma zip_with_shape (f : fl -> fl -> fl) (t d : matrix) :
  shape d = shape t -> shape (zip_with (zip_with f) t d) = shape t.
Proof.
  unfold shape. revert d. induction t as [|r t IH]; intros [|r' d] H;
    simpl in *; try congruence.
  injection H as Hr Hd. f_equal; [|apply IH; exact Hd].
  clear - Hr. revert r' Hr. induction r as [|x r IH]; intros [|y r'] H;
    simpl in *; try congruence. f_equal. apply IH. congruence.
Qed.

Lemma map_map_shape (f : fl -> fl) (m : matrix) : shape (map (map f) m) = shape m.
Proof.
  unfold shape. rewrite map_map. apply map_ext. intros r. apply length_map.
Qed.

Lemma renormalize_shape (m : matrix) : shape (Spec.renormalize m) = shape m.
Proof.
  unfold shape, Spec.renormalize. rewrite map_map. apply map_ext.
  intros r. apply length_map.
Qed.

Lemma project_shape (ty : string) (m : matrix) : shape (project ty m) = shape m.
Proof.
  unfold project.
  destruct (String.eqb ty "0"); [|destruct (String.eqb ty "1");
    [|destruct (String.eqb ty "2")]]; cbv zeta;
    rewrite ?div_rows_own_sums, ?renormalize_shape, ?map_map_shape; reflexivity.
Qed.

(** The projection keeps the shape of the tensor under every policy, and
    the target of the final loss has the shape of the pseudo-label tensor
    whenever the gradient has. *)
Theorem final_target_keeps_shape
    (ty : string) (rate : Q) (t : tensor) (g : matrix) :
  shape g = shape (data t) ->
  shape (data (final_target ty rate t g)) = shape (data t).
Proof.
  intros H. unfold final_target, update_pseudo_gt. simpl.
  rewrite project_shape. unfold isub. apply zip_with_shape.
  unfold scale. rewrite map_map_shape. exact H.
Qed.

Lemma final_target_keeps_shape_witness :
  shape (data (final_target "0" (1 # 10)
                 {| data := [[Fin (1 # 2); Fin (1 # 2)]; [Fin 1; Fin 0]];
                    requires_grad := true |}
                 [[Fin 10; Fin (-5)]; [Fin 0; Fin 3]]))
  = [2%nat; 2%nat].
Proof.
  apply (final_target_keeps_shape "0" (1 # 10)
           {| data := [[Fin (1 # 2); Fin (1 # 2)]; [Fin 1; Fin 0]];
              requires_grad := true |}
           [[Fin 10; Fin (-5)]; [Fin 0; Fin 3]]).
  reflexivity.
Defined.

(** *** No negative entry survives policies 0, 1 and 2 *)

Lemma relu_not_negative (x : fl) : is_negative (relu x) = false.
Proof.
  destruct x as [q| | |]; simpl; try reflexivity.
  apply negb_false_iff, Qle_bool_iff, Qrelu_bounds.
Qed.

Lemma clamp_not_negative (x : fl) : is_negative (clamp 0 1 x) = false.
Proof.
  destruct x as [q| | |]; simpl; try reflexivity.
  apply negb_false_iff, Qle_bool_iff, Qclamp_bounds.
Qed.

Lemma is_negative_Fin (q : Q) : is_negative (Fin q) = false -> (0 <= q)%Q.
Proof. simpl. intros H. apply negb_false_iff in H. apply Qle_bool_iff, H. Qed.

Lemma Fin_not_negative (q : Q) : (0 <= q)%Q -> is_negative (Fin q) = false.
Proof. intros H. simpl. apply negb_false_iff, Qle_bool_iff, H. Qed.

Lemma fadd_not_negative (x y : fl) :
  is_negative x = false -> is_negative y = false ->
  is_negative (fadd x y) = false.
Proof.
  destruct x as [a| | |], y as [b| | |]; intros Hx Hy; try reflexivity;
    try discriminate.
  apply is_negative_Fin in Hx, Hy. apply Fin_not_negative. lra.
Qed.

Lemma row_sum_not_negative (r : list fl) :
  forallb (fun x => negb (is_negative x)) r = true ->
  is_negative (row_sum r) = false.
Proof.
  unfold row_sum. induction r as [|x r IH]; simpl; intros H.
  - reflexivity.
  - apply andb_prop in H as [Hx Hr]. apply negb_true_iff in Hx.
    apply fadd_not_negative; [exact Hx | apply IH, Hr].
Qed.

Lemma fdiv_not_negative (x d : fl) :
  is_negative x = false -> is_negative d = false ->
  is_negative (fdiv x d) = false.
Proof.
  destruct x as [a| | |], d as [b| | |]; intros Hx Hd; try reflexivity;
    try discriminate.
  - apply is_negative_Fin in Hx, Hd. unfold fdiv, inf_signed.
    destruct (Qcompare_spec b 0).
    + destruct (Qcompare_spec a 0); try reflexivity. lra.
    + lra.
    + apply Fin_not_negative. apply Qle_shift_div_l; lra.
  - apply is_negative_Fin in Hd. simpl.
    destruct (Qcompare_spec b 0); try reflexivity. lra.
Qed.

Lemma renormalize_not_negative (f : fl -> fl) (m : matrix) :
  (forall x, is_negative (f x) = false) ->
  existsb (existsb is_negative) (Spec.renormalize (map (map f) m)) = false.
Proof.
  intros Hf. unfold Spec.renormalize.
  apply not_true_is_false. intros H.
  apply existsb_exists in H as [r [Hr H]].
  apply existsb_exists in H as [x [Hx H]].
  apply in_map_iff in Hr as [c [<- Hc]].
  apply in_map_iff in Hc as [r0 [<- _]].
  apply in_map_iff in Hx as [y [<- Hy]].
  apply in_map_iff in Hy as [z [<- _]].
  rewrite fdiv_not_negative in H; [discriminate | apply Hf |].
  apply row_sum_not_negative. apply forallb_forall.
  intros w Hw. apply in_map_iff in Hw as [v [<- _]]. rewrite Hf. reflexivity.
Qed.

(** Under policies 0, 1 and 2 the projected tensor has no negative entry,
    whatever the updated tensor holds (an entry can be NaN or infinite). *)
Theorem projection_has_no_negative_entry (m : matrix) :
  existsb (existsb is_negative) (project "0" m) = false
  /\ existsb (existsb is_negative) (project "1" m) = false
  /\ existsb (existsb is_negative) (project "2" m) = false.
Proof.
  unfold project. simpl. rewrite !div_rows_own_sums.
  split; [|split].
  - apply renormalize_not_negative, clamp_not_negative.
  - apply renormalize_not_negative, relu_not_negative.
  - apply not_true_is_false. intros H.
    apply existsb_exists in H as [r [Hr H]].
    apply existsb_exists in H as [x [Hx H]].
    apply in_map_iff in Hr as [r0 [<- _]].
    apply in_map_iff in Hx as [y [<- _]].
    rewrite relu_not_negative in H. discriminate.
Qed.

Lemma clamp_is_relu_below_one (x : fl) :
  at_most_one x = true -> clamp 0 1 x = relu x.
Proof.
  destruct x as [q| | |]; simpl; intros H; try reflexivity; try discriminate.
  f_equal. rewrite Qmin_1_cases.
  assert (Qle_bool (Qmax q 0) 1 = true) as ->; [|reflexivity].
  apply Qle_bool_iff in H. apply Qle_bool_iff.
  rewrite Qmax_0_cases. destruct (Qle_bool 0 q); lra.
Qed.

(** Policies 0 and 1 differ only through entries above 1: on a tensor
    without such an entry they give the same result. *)
Theorem policies_0_and_1_agree_below_one (m : matrix) :
  forallb (forallb at_most_one) m = true -> project "0" m = project "1" m.
Proof.
  intros H. unfold project. simpl.
  assert (map (map (clamp 0 1)) m = map (map relu) m) as ->; [|reflexivity].
  apply map_ext_in. intros r Hr. apply map_ext_in. intros x Hx.
  apply clamp_is_relu_below_one.
  pose proof (proj1 (forallb_forall _ _) H r Hr) as Hrow.
  exact (proj1 (forallb_forall _ _) Hrow x Hx).
Qed.

Lemma policies_0_and_1_agree_below_one_witness :
  project "0" [[Fin (3 # 4); Fin (-1 # 4)]] = project "1" [[Fin (3 # 4); Fin (-1 # 4)]].
Proof.
  apply (policies_0_and_1_agree_below_one [[Fin (3 # 4); Fin (-1 # 4)]]).
  reflexivity.
Defined.

(** *** A softmax row stays a distribution

    The gradient of line 123 is taken through the inner step of line 118,
    whose loss depends on the pseudo-labels only through their inner
    product with the log-probabilities; its rows are orthogonal to the
    rows of [softmax(unlabel_pred)].  With rates and entries taken as
    exact numbers this is enough for a row to keep a positive entry. *)










End ProjectionMore.

(** ** Runs of the loop *)

Section RunMore.

Context {T : Torch}.
Variable W : @World T.

Ltac run_iteration :=
  unfold iteration, train_step, time_time, next_label, next_unlabel, call_forward,
    call_forward_fast, optimizer_step, lr_scheduler_step, with_no_grad, emit,
    bind, gets, modify, ret, continue;
  cbn -[scheduler_step update_pseudo_gt];
  destruct (label_loader W _) as [li lg];
  destruct (unlabel_loader W _) as [ui ug];
  cbn -[scheduler_step update_pseudo_gt];
  destruct (sgd_step _ _ _ _ _ _) as [b [wm wc]];
  cbn -[update_pseudo_gt].

Lemma iteration_counters (step : Z) (s : state) :
  label_pos (snd (iteration W step s)) = S (label_pos s)
  /\ unlabel_pos (snd (iteration W step s)) = S (unlabel_pos s)
  /\ clock (snd (iteration W step s)) = S (S (S (clock s)))
  /\ length (out (snd (iteration W step s))) = S (S (S (length (out s)))).
Proof.
  run_iteration. repeat split. rewrite !length_app. simpl. lia.
Qed.

Lemma iteration_args (step : Z) (s : state) :
  args (snd (iteration W step s))
  = with_inner_lr
      (Some (if fix_inner (args s) then (lr (args s) * multiplier (args s))%Q
             else (group_lr (optimizer s) * multiplier (args s))%Q))
      (args s).
Proof. run_iteration. reflexivity. Qed.

Lemma loop_counters (l : list Z) (s : state) :
  label_pos (snd (for_each l (iteration W) s)) = (label_pos s + length l)%nat
  /\ unlabel_pos (snd (for_each l (iteration W) s)) = (unlabel_pos s + length l)%nat
  /\ clock (snd (for_each l (iteration W) s)) = (clock s + 3 * length l)%nat
  /\ length (out (snd (for_each l (iteration W) s)))
     = (length (out s) + 3 * length l)%nat.
Proof.
  revert s. induction l as [|x l IH]; intros s.
  - simpl. repeat split; lia.
  - simpl for_each.
    pose proof (iteration_continues W x s) as Hc.
    pose proof (iteration_counters x s) as (H1 & H2 & H3 & H4).
    destruct (iteration W x s) as [r s']. simpl in Hc, H1, H2, H3, H4. subst r.
    destruct (IH s') as (I1 & I2 & I3 & I4).
    rewrite I1, I2, I3, I4, H1, H2, H3, H4. simpl length. repeat split; lia.
Qed.

Lemma loop_args (l : list Z) (s : state) :
  exists o, args (snd (for_each l (iteration W) s)) = with_inner_lr o (args s).
Proof.
  revert s. induction l as [|x l IH]; intros s.
  - exists (inner_lr (args s)). simpl. destruct (args s). reflexivity.
  - simpl for_each.
    pose proof (iteration_continues W x s) as Hc.
    pose proof (iteration_args x s) as Ha.
    destruct (iteration W x s) as [r s']. simpl in Hc, Ha. subst r.
    destruct (IH s') as [o Ho]. exists o. rewrite Ho, Ha. reflexivity.
Qed.

(** A run without [--resume] never raises: it takes one batch from each
    loader, reads the clock three times, writes three events and steps the
    scheduler once for each step of [range(start_step, total_steps)], and
    nothing at all when that range is empty. *)
Theorem fresh_run_counts (a : Args) (m0 c0 : weights) :
  resume a = None ->
  let n := Z.to_nat (total_steps a - start_step a) in
  fst (script W a m0 c0) = Val tt
  /\ label_pos (snd (script W a m0 c0)) = n
  /\ unlabel_pos (snd (script W a m0 c0)) = n
  /\ clock (snd (script W a m0 c0)) = (3 * n)%nat
  /\ length (out (snd (script W a m0 c0))) = (1 + 3 * n)%nat
  /\ last_epoch (lr_scheduler (snd (script W a m0 c0))) = Z.of_nat n.
Proof.
  intros Hres. cbv zeta.
  destruct (fresh_script W a m0 c0 Hres) as [E _]. rewrite E.
  set (s1 := snd (main_prologue (build a m0 c0))).
  set (l := py_range (start_step a) (total_steps a)).
  assert (length l = Z.to_nat (total_steps a - start_step a)) as Hl
    by apply py_range_length.
  destruct (loop_run W l s1) as (R1 & R2 & _).
  destruct (loop_counters l s1) as (C1 & C2 & C3 & C4).
  pose proof (advance_iter (length l) (lr_scheduler s1) (group_lr (optimizer s1)))
    as (_ & _ & He & _).
  unfold sched_view in R2. rewrite <- R2 in He. simpl in He.
  rewrite C1, C2, C3, C4, He, Hl. repeat split; try reflexivity. exact R1.
Qed.

(** With [start_step] at or beyond [total_steps] the run trains nothing:
    weights and optimizer state are as built and the only output is the
    start message. *)
Theorem empty_range_trains_nothing (a : Args) (m0 c0 : weights) :
  resume a = None -> total_steps a <= start_step a ->
  fst (script W a m0 c0) = Val tt
  /\ state_dict (model (snd (script W a m0 c0))) = m0
  /\ state_dict (classifier (snd (script W a m0 c0))) = c0
  /\ opt_state (optimizer (snd (script W a m0 c0))) = no_buffers
  /\ out (snd (script W a m0 c0)) = [Logged MsgStart].
Proof.
  intros Hres Hle.
  destruct (fresh_script W a m0 c0 Hres) as [E _]. rewrite E.
  unfold py_range. replace (Z.to_nat (total_steps a - start_step a)) with 0%nat by lia.
  simpl. repeat split.
Qed.

End RunMore.

Lemma fresh_run_counts_witness :
  label_pos (snd (script (small_world ∅ []) (with_steps 2 7 default_args) 0 0))
  = 5%nat.
Proof.
  destruct (fresh_run_counts (small_world ∅ []) (with_steps 2 7 default_args)
              0 0 eq_refl) as (_ & H & _).
  exact H.
Defined.

Lemma empty_range_trains_nothing_witness :
  out (snd (script (small_world ∅ []) (with_steps 7 7 default_args) 0 0))
  = [Logged MsgStart].
Proof.
  destruct (empty_range_trains_nothing (small_world ∅ [])
              (with_steps 7 7 default_args) 0 0 eq_refl ltac:(cbn; lia))
    as (_ & _ & _ & _ & H).
  exact H.
Defined.

Section RunSchedule.

Context {T : Torch}.
Variable W : @World T.

Ltac run_iteration :=
  unfold iteration, train_step, time_time, next_label, next_unlabel, call_forward,
    call_forward_fast, optimizer_step, lr_scheduler_step, with_no_grad, emit,
    bind, gets, modify, ret, continue;
  cbn -[scheduler_step update_pseudo_gt];
  destruct (label_loader W _) as [li lg];
  destruct (unlabel_loader W _) as [ui ug];
  cbn -[scheduler_step update_pseudo_gt];
  destruct (sgd_step _ _ _ _ _ _) as [b [wm wc]];
  cbn -[update_pseudo_gt].

(** The rate at step [s] of a run started at 0, in closed form. *)
Lemma fresh_rate_closed (a : Args) (m0 c0 : weights) (s : Z) :
  start_step a = 0 -> resume a = None -> 0 <= s -> 0 <= total_steps a ->
  (lr_used_at W a m0 c0 s == lr a * qpow (lr_decay a) (decays (total_steps a) s))%Q.
Proof.
  intros H0 Hres Hs Ht.
  destruct (fresh_run_until W a m0 c0 s H0 Hres Hs) as (_ & Hview).
  pose proof (advance_iter (S (Z.to_nat s))
                {| milestones := [total_steps a / 2; total_steps a * 3 / 4];
                   gamma := lr_decay a; last_epoch := -1 |} (lr a)) as Hit.
  cbv zeta in Hit. rewrite <- Hview in Hit. cbn [milestones gamma last_epoch] in Hit.
  destruct Hit as (_ & _ & _ & Hr).
  replace (-1 + Z.of_nat (S (Z.to_nat s))) with s in Hr by lia.
  rewrite hits_two_milestones in Hr by lia.
  unfold lr_used_at. exact Hr.
Qed.

Lemma qpow_nonneg (g : Q) (n : nat) : (0 <= g)%Q -> (0 <= qpow g n)%Q.
Proof.
  intros Hg. induction n as [|n IH]; simpl; [lra|].
  apply Qmult_le_0_compat; assumption.
Qed.

Lemma qpow_antitone (g : Q) (n k : nat) :
  (0 <= g)%Q -> (g <= 1)%Q -> (qpow g (k + n) <= qpow g n)%Q.
Proof.
  intros H0 H1. induction k as [|k IH]; simpl; [lra|].
  pose proof (qpow_nonneg g (k + n) H0) as Hp.
  assert (g * qpow g (k + n) <= 1 * qpow g (k + n))%Q as H
    by (apply Qmult_le_compat_r; assumption).
  lra.
Qed.

Lemma decays_monotone (total s s' : Z) :
  s <= s' -> (decays total s <= decays total s')%nat.
Proof.
  intros H. unfold decays.
  destruct (Z.leb_spec (total / 2) s), (Z.leb_spec (total / 2) s'),
    (Z.leb_spec (total * 3 / 4) s), (Z.leb_spec (total * 3 / 4) s');
    simpl; lia.
Qed.

(** With a non-negative rate and a decay factor between 0 and 1, the rate
    of a run started at 0 never goes up from one step to a later one. *)
Theorem rate_never_increases (a : Args) (m0 c0 : weights) (s s' : Z) :
  start_step a = 0 -> resume a = None -> 0 <= total_steps a ->
  (0 <= lr a)%Q -> (0 <= lr_decay a)%Q -> (lr_decay a <= 1)%Q ->
  0 <= s <= s' ->
  (lr_used_at W a m0 c0 s' <= lr_used_at W a m0 c0 s)%Q.
Proof.
  intros H0 Hres Ht Hlr Hg0 Hg1 Hs.
  rewrite !fresh_rate_closed by (assumption || lia).
  pose proof (decays_monotone (total_steps a) s s' ltac:(lia)) as Hd.
  replace (decays (total_steps a) s')
    with ((decays (total_steps a) s' - decays (total_steps a) s)
          + decays (total_steps a) s)%nat by lia.
  set (n := decays (total_steps a) s).
  set (k := (decays (total_steps a) s' - n)%nat).
  rewrite (Qmult_comm (lr a) (qpow (lr_decay a) (k + n))).
  rewrite (Qmult_comm (lr a) (qpow (lr_decay a) n)).
  apply Qmult_le_compat_r; [|exact Hlr]. apply qpow_antitone; assumption.
Qed.

Lemma py_range_one (s : Z) : py_range s (s + 1) = [s].
Proof.
  unfold py_range. replace (s + 1 - s) with 1 by lia. simpl. f_equal. lia.
Qed.

(** The inner rate that the iteration for step [s] leaves in
    [args.inner_lr]: with [--fix_inner] it is [lr * multiplier] at every
    step; without, it is the scheduled rate of step [s] times
    [multiplier]. *)
Theorem inner_rate_follows_schedule (a : Args) (m0 c0 : weights) (s : Z) :
  start_step a = 0 -> resume a = None -> 0 <= s < total_steps a ->
  exists r,
    inner_lr (args (snd (script_until W (s + 1) a m0 c0))) = Some r
    /\ (r == if fix_inner a then lr a * multiplier a
             else lr a * qpow (lr_decay a) (decays (total_steps a) s)
                  * multiplier a)%Q.
Proof.
  intros H0 Hres Hs.
  pose proof (fresh_rate_closed a m0 c0 s H0 Hres ltac:(lia) ltac:(lia)) as Hrate.
  unfold lr_used_at in Hrate.
  destruct (fresh_script W a m0 c0 Hres) as [_ E].
  rewrite (E (s + 1)), H0, (py_range_split 0 s (s + 1)) by lia.
  rewrite for_each_app, py_range_one. rewrite E, H0 in Hrate.
  set (st := snd (for_each (py_range 0 s) (iteration W)
                    (snd (main_prologue (build a m0 c0))))) in *.
  destruct (loop_args W (py_range 0 s) (snd (main_prologue (build a m0 c0))))
    as [o Ho]. fold st in Ho.
  change (args (snd (main_prologue (build a m0 c0)))) with a in Ho.
  simpl for_each.
  pose proof (iteration_args W s st) as Ha.
  destruct (iteration W s st) as [[ | |] s']; simpl in Ha |- *;
    rewrite Ha, Ho; simpl;
    (eexists; split; [reflexivity|]);
    (destruct (fix_inner a); [reflexivity | rewrite Hrate; reflexivity]).
Qed.

(** *** Every call of the network in a run is made in training mode *)

Lemma resume_block_effects (s : state) :
  training (model (snd (resume_block W s))) = training (model s)
  /\ training (classifier (snd (resume_block W s))) = training (classifier s)
  /\ grad_enabled (snd (resume_block W s)) = grad_enabled s
  /\ frame (snd (resume_block W s)) = frame s
  /\ exists evs,
       out (snd (resume_block W s)) = (out s ++ evs)%list
       /\ forallb is_logged evs = true.
Proof.
  unfold resume_block, bind, gets, getitem, info, emit, modify, as_int,
    as_state_dict, as_optim, raise, ret.
  destruct (resume (args s)) as [path|];
    [|repeat split; exists []; rewrite app_nil_r; split; reflexivity].
  destruct (files W !! path) as [ck|];
    [|cbn; repeat split; eexists; split; reflexivity].
  cbn.
  repeat match goal with
         | |- context [match ?m !! ?k with _ => _ end] =>
             destruct (m !! k) as [[ | | | | ]|]; cbn
         end;
    repeat split; rewrite <- ?app_assoc; eexists; split; reflexivity.
Qed.

Lemma loop_train_mode (l : list Z) (s : state) :
  training (model s) = true -> training (classifier s) = true ->
  grad_enabled s = true ->
  exists evs,
    out (snd (for_each l (iteration W) s)) = (out s ++ evs)%list
    /\ forallb train_mode_event evs = true.
Proof.
  revert s. induction l as [|x l IH]; intros s Hm Hc Hg.
  - exists []. simpl. rewrite app_nil_r. split; reflexivity.
  - simpl for_each.
    pose proof (iteration_continues W x s) as Hk.
    pose proof (iteration_out W x s) as Ho.
    pose proof (iteration_modes W x s) as Hmo. cbv zeta in Hmo.
    destruct (iteration W x s) as [r s']. simpl in Hk, Ho, Hmo. subst r.
    destruct Hmo as (M1 & M2 & M3).
    destruct (IH s') as (evs & E & F); [congruence | congruence | congruence |].
    rewrite E, Ho, <- app_assoc, Hm, Hc, Hg.
    eexists. split; [reflexivity|]. simpl. exact F.
Qed.

(** Whatever the arguments and the checkpoint file, every call of the
    network that a run makes is made with both modules in training mode
    and gradients on: no iteration ever reaches [test]. *)
Theorem run_calls_network_in_training_mode (a : Args) (m0 c0 : weights) :
  forallb train_mode_event (out (snd (script W a m0 c0))) = true.
Proof.
  unfold script, bind.
  destruct (resume_block_effects (build a m0 c0)) as (_ & _ & Hg & _ & evs & Ho & He).
  destruct (resume_block W (build a m0 c0)) as [[[]| |e] s1]; simpl in Ho, Hg.
  - unfold main, main_prologue, info, emit, bind, modify, gets. cbn -[for_each iteration].
    match goal with |- context [for_each ?l (iteration W) ?s0] =>
      destruct (loop_train_mode l s0 eq_refl eq_refl Hg) as (evs' & E & F)
    end.
    rewrite E. cbn. rewrite Ho. cbn. rewrite !forallb_app, F. cbn.
    rewrite andb_true_r.
    clear - He. induction evs as [|e evs IH]; [reflexivity|].
    simpl in He |- *. apply andb_prop in He as [H1 H2].
    destruct e; try discriminate. simpl. apply IH, H2.
  - simpl. rewrite Ho. simpl.
    clear - He. induction evs as [|ev evs IH]; [reflexivity|].
    simpl in He |- *. apply andb_prop in He as [H1 H2].
    destruct ev; try discriminate. simpl. apply IH, H2.
  - simpl. rewrite Ho. simpl.
    clear - He. induction evs as [|ev evs IH]; [reflexivity|].
    simpl in He |- *. apply andb_prop in He as [H1 H2].
    destruct ev; try discriminate. simpl. apply IH, H2.
Qed.

End RunSchedule.

Lemma rate_never_increases_witness :
  (lr_used_at (small_world ∅ []) (with_steps 0 100 default_args) 0%Z 0%Z 80%Z
   <= lr_used_at (small_world ∅ []) (with_steps 0 100 default_args) 0%Z 0%Z 10%Z)%Q.
Proof.
  apply (rate_never_increases (small_world ∅ []) (with_steps 0 100 default_args)
           0%Z 0%Z 10%Z 80%Z);
    solve [reflexivity | cbn; lia | vm_compute; discriminate].
Defined.

Lemma inner_rate_follows_schedule_witness :
  exists r,
    inner_lr (args (snd (script_until (small_world ∅ []) (60 + 1)
                           (with_steps 0 100 default_args) 0%Z 0%Z))) = Some r
    /\ (r == 1 # 100)%Q.
Proof.
  destruct (inner_rate_follows_schedule (small_world ∅ [])
              (with_steps 0 100 default_args) 0%Z 0%Z 60%Z
              eq_refl eq_refl ltac:(cbn; lia)) as (r & Hr & Hq).
  exists r. split; [exact Hr|]. rewrite Hq. reflexivity.
Defined.

(** ** The running averages over a run *)

Section RunAverages.

Context {T : Torch}.
Variable W : @World T.





End RunAverages.


(** ** The resume block *)

Section ResumeMore.

Context {T : Torch}.
Variable W : @World T.

Lemma checkpoint_of_lookup (step : Z) (s0 : state) :
  checkpoint_of step s0 !! "step" = Some (PyInt (step + 1))
  /\ checkpoint_of step s0 !! "best_acc" = Some (PyFloat (best_acc (frame s0)))
  /\ checkpoint_of step s0 !! "model" = Some (PyStateDict (state_dict (model s0)))
  /\ checkpoint_of step s0 !! "classifier"
     = Some (PyStateDict (state_dict (classifier s0)))
  /\ checkpoint_of step s0 !! "optimizer" = Some (PyOptim (optimizer s0))
  /\ checkpoint_of step s0 !! "epoch" = None.
Proof.
  unfold checkpoint_of.
  repeat split;
    repeat (rewrite lookup_insert_ne by discriminate);
    rewrite ?lookup_insert_eq, ?lookup_empty; reflexivity.
Qed.

(** What the block loads from a checkpoint with all six entries. *)
Lemma resume_block_loads (s : state) (path : string) (ck : gmap string pyval)
    (step : Z) (b e : pyval) (wm wc : weights) (o : SGD buffers) :
  resume (args s) = Some path -> files W !! path = Some ck ->
  ck !! "step" = Some (PyInt step) -> ck !! "best_acc" = Some b ->
  ck !! "model" = Some (PyStateDict wm) ->
  ck !! "classifier" = Some (PyStateDict wc) ->
  ck !! "optimizer" = Some (PyOptim o) -> ck !! "epoch" = Some e ->
  fst (resume_block W s) = Val tt
  /\ args (snd (resume_block W s)) = set_start_step step (args s)
  /\ module_best_acc (snd (resume_block W s)) = Some b
  /\ model (snd (resume_block W s)) = load_state_dict wm (model s)
  /\ classifier (snd (resume_block W s)) = load_state_dict wc (classifier s)
  /\ optimizer (snd (resume_block W s)) = o
  /\ lr_scheduler (snd (resume_block W s)) = lr_scheduler s
  /\ frame (snd (resume_block W s)) = frame s
  /\ out (snd (resume_block W s))
     = (out s ++ [Logged (MsgLoading path); Logged (MsgLoaded path e)])%list.
Proof.
  intros Hres Hf H1 H2 H3 H4 H5 H6.
  unfold resume_block, bind, gets, getitem, info, emit, modify, as_int,
    as_state_dict, as_optim, raise, ret.
  rewrite Hres, Hf. cbn. rewrite H1. cbn. rewrite H2. cbn. rewrite H3. cbn.
  rewrite H4. cbn. rewrite H5. cbn. rewrite H6. cbn.
  repeat split. rewrite <- app_assoc. reflexivity.
Qed.

(** A checkpoint that holds the six entries the block reads, of the types
    it expects: the step, both sets of weights and the optimizer state are
    taken from it, the best score goes to the module-level name, and the
    modes of the modules, the scheduler and the locals of [main] are left
    alone. *)
Theorem resume_restores (s : state) (path : string) (ck : gmap string pyval)
    (step : Z) (b e : pyval) (wm wc : weights) (o : SGD buffers) :
  resume (args s) = Some path -> files W !! path = Some ck ->
  ck !! "step" = Some (PyInt step) -> ck !! "best_acc" = Some b ->
  ck !! "model" = Some (PyStateDict wm) ->
  ck !! "classifier" = Some (PyStateDict wc) ->
  ck !! "optimizer" = Some (PyOptim o) -> ck !! "epoch" = Some e ->
  fst (resume_block W s) = Val tt
  /\ args (snd (resume_block W s)) = set_start_step step (args s)
  /\ module_best_acc (snd (resume_block W s)) = Some b
  /\ model (snd (resume_block W s)) = load_state_dict wm (model s)
  /\ classifier (snd (resume_block W s)) = load_state_dict wc (classifier s)
  /\ optimizer (snd (resume_block W s)) = o
  /\ lr_scheduler (snd (resume_block W s)) = lr_scheduler s
  /\ frame (snd (resume_block W s)) = frame s
  /\ out (snd (resume_block W s))
     = (out s ++ [Logged (MsgLoading path); Logged (MsgLoaded path e)])%list.
Proof.
  intros Hres Hf H1 H2 H3 H4 H5 H6.
  unfold resume_block, bind, gets, getitem, info, emit, modify, as_int,
    as_state_dict, as_optim, raise, ret.
  rewrite Hres, Hf. cbn. rewrite H1. cbn. rewrite H2. cbn. rewrite H3. cbn.
  rewrite H4. cbn. rewrite H5. cbn. rewrite H6. cbn.
  repeat split. rewrite <- app_assoc. reflexivity.
Qed.

(** Whether the block gets through, for a checkpoint whose entries have the
    expected types: it raises [KeyError] for the first of step, best_acc,
    model, classifier, optimizer, epoch that is missing, and returns when
    none is. *)
Theorem resume_raises_first_missing_key
    (s : state) (path : string) (ck : gmap string pyval) :
  resume (args s) = Some path -> files W !! path = Some ck ->
  well_typed ck = true ->
  fst (resume_block W s)
  = match first_missing ck with
    | Some k => Exc (KeyError k)
    | None => Val tt
    end.
Proof.
  intros Hres Hf Hty.
  unfold resume_block, bind, gets, getitem, info, emit, modify, as_int,
    as_state_dict, as_optim, raise, ret.
  rewrite Hres, Hf. unfold first_missing, well_typed in *. cbn in *.
  destruct (ck !! "step") as [[ | | | | ]|]; cbn in *;
    try discriminate; try reflexivity.
  destruct (ck !! "best_acc") as [?|]; cbn in *; try reflexivity.
  destruct (ck !! "model") as [[ | | | | ]|]; cbn in *;
    try discriminate; try reflexivity.
  destruct (ck !! "classifier") as [[ | | | | ]|]; cbn in *;
    try discriminate; try reflexivity.
  destruct (ck !! "optimizer") as [[ | | | | ]|]; cbn in *;
    try discriminate; try reflexivity.
  destruct (ck !! "epoch") as [?|]; cbn in *; reflexivity.
Qed.

(** The dictionary of lines 199-205 has no ["epoch"] entry: a run told to
    resume from it stops at line 86 with [KeyError], before [main] is
    called, whatever step and state the dictionary was built from. *)
Theorem own_checkpoint_cannot_be_resumed
    (a : Args) (m0 c0 : weights) (path : string) (step : Z) (s0 : state) :
  resume a = Some path -> files W !! path = Some (checkpoint_of step s0) ->
  fst (script W a m0 c0) = Exc (KeyError "epoch")
  /\ label_pos (snd (script W a m0 c0)) = 0%nat
  /\ forallb is_logged (out (snd (script W a m0 c0))) = true.
Proof.
  intros Hres Hf.
  destruct (checkpoint_of_lookup step s0) as (H1 & H2 & H3 & H4 & H5 & H6).
  unfold script, bind at 1.
  unfold resume_block, bind, gets, getitem, info, emit, modify, as_int,
    as_state_dict, as_optim, raise, ret.
  cbn [args build]. 
  assert (args (build a m0 c0) = a) as -> by reflexivity.
  rewrite Hres, Hf. cbn -[checkpoint_of].
  rewrite H1. cbn -[checkpoint_of]. rewrite H2. cbn -[checkpoint_of].
  rewrite H3. cbn -[checkpoint_of]. rewrite H4. cbn -[checkpoint_of].
  rewrite H5. cbn -[checkpoint_of]. rewrite H6. cbn -[checkpoint_of].
  repeat split.
Qed.

(** Saving and resuming, once the dictionary is given an ["epoch"] entry:
    the run resumes at the step after the one that saved, with the saved
    weights and optimizer state; the saved best score reaches only the
    module-level name, and the scheduler is the newly built one. *)
Theorem save_then_resume
    (a : Args) (m0 c0 : weights) (path : string) (step : Z) (s0 : state)
    (e : pyval) :
  resume a = Some path ->
  files W !! path = Some (<["epoch" := e]> (checkpoint_of step s0)) ->
  let s := snd (resume_block W (build a m0 c0)) in
  fst (resume_block W (build a m0 c0)) = Val tt
  /\ start_step (args s) = step + 1
  /\ state_dict (model s) = state_dict (model s0)
  /\ state_dict (classifier s) = state_dict (classifier s0)
  /\ optimizer s = optimizer s0
  /\ module_best_acc s = Some (PyFloat (best_acc (frame s0)))
  /\ best_acc (frame s) = Fin 0
  /\ lr_scheduler s = lr_scheduler (build a m0 c0).
Proof.
  intros Hres Hf. cbv zeta.
  destruct (checkpoint_of_lookup step s0) as (H1 & H2 & H3 & H4 & H5 & _).
  destruct (resume_block_loads (build a m0 c0) path
              (<["epoch" := e]> (checkpoint_of step s0)) (step + 1)
              (PyFloat (best_acc (frame s0))) e
              (state_dict (model s0)) (state_dict (classifier s0)) (optimizer s0))
    as (R0 & R1 & R2 & R3 & R4 & R5 & R6 & R7 & _);
    try (rewrite lookup_insert_ne by discriminate; assumption);
    try assumption; try apply lookup_insert_eq.
  rewrite R1, R2, R3, R4, R5, R6, R7. repeat split. exact R0.
Qed.

End ResumeMore.

Lemma resume_restores_witness :
  let W := small_world {["checkpoint.pth" := saved_checkpoint_with_epoch]} [] in
  let s := @build identity_net (with_resume "checkpoint.pth" default_args) 0 0 in
  optimizer (snd (resume_block W s)) = saved_optimizer.
Proof.
  cbv zeta.
  destruct (resume_restores
              (small_world {["checkpoint.pth" := saved_checkpoint_with_epoch]} [])
              (@build identity_net (with_resume "checkpoint.pth" default_args) 0 0)
              "checkpoint.pth" saved_checkpoint_with_epoch 400
              (PyFloat (Fin 90)) (PyInt 1) 400 400 saved_optimizer)
    as (_ & _ & _ & _ & _ & H & _); [vm_compute; reflexivity .. | exact H].
Defined.

Lemma resume_raises_first_missing_key_witness :
  let ck : gmap string (@pyval identity_net) :=
    <["step" := PyInt 400]> (<["best_acc" := PyFloat (Fin 90)]> ∅) in
  let W := small_world {["checkpoint.pth" := ck]} [] in
  let s := @build identity_net (with_resume "checkpoint.pth" default_args) 0 0 in
  fst (resume_block W s) = Exc (KeyError "model").
Proof.
  cbv zeta.
  rewrite (resume_raises_first_missing_key
             (small_world
                {["checkpoint.pth" :=
                    <["step" := PyInt 400]> (<["best_acc" := PyFloat (Fin 90)]> ∅)]} [])
             (@build identity_net (with_resume "checkpoint.pth" default_args) 0 0)
             "checkpoint.pth"
             (<["step" := PyInt 400]> (<["best_acc" := PyFloat (Fin 90)]> ∅)));
    vm_compute; reflexivity.
Defined.

Lemma own_checkpoint_cannot_be_resumed_witness :
  fst (script (small_world {["checkpoint.pth" := saved_checkpoint]} [])
         (with_resume "checkpoint.pth" default_args) 0 0)
  = Exc (KeyError "epoch").
Proof.
  destruct (own_checkpoint_cannot_be_resumed
              (small_world {["checkpoint.pth" := saved_checkpoint]} [])
              (with_resume "checkpoint.pth" default_args) 0 0 "checkpoint.pth" 399
              (upd_frame (upd_best_acc (fun _ => Fin 90))
                 (upd_optimizer (fun _ => saved_optimizer)
                    (@build identity_net default_args 400 400))))
    as [H _]; [vm_compute; reflexivity .. | exact H].
Defined.

Lemma save_then_resume_witness :
  let W := small_world {["checkpoint.pth" := saved_checkpoint_with_epoch]} [] in
  let s := @build identity_net (with_resume "checkpoint.pth" default_args) 0 0 in
  start_step (args (snd (resume_block W s))) = 400.
Proof.
  cbv zeta.
  destruct (save_then_resume
              (small_world {["checkpoint.pth" := saved_checkpoint_with_epoch]} [])
              (with_resume "checkpoint.pth" default_args) 0 0 "checkpoint.pth" 399
              (upd_frame (upd_best_acc (fun _ => Fin 90))
                 (upd_optimizer (fun _ => saved_optimizer)
                    (@build identity_net default_args 400 400)))
              (PyInt 1)) as (_ & H & _); [vm_compute; reflexivity .. | exact H].
Defined.

(** ** A missing checkpoint file *)

Section MissingFile.

Context {T : Torch}.
Variable W : @World T.

Lemma iteration_same_training (x : Z) (s s' : state) (pre : list event) :
  same_training s s' -> out s' = (pre ++ out s)%list ->
  same_training (snd (iteration W x s)) (snd (iteration W x s'))
  /\ out (snd (iteration W x s')) = (pre ++ out (snd (iteration W x s)))%list.
Proof.
  intros H Ho.
  destruct s as [a m c g o sch mb lp up ck fr ou].
  destruct s' as [a' m' c' g' o' sch' mb' lp' up' ck' fr' ou'].
  unfold same_training in H. cbn in H, Ho.
  destruct H as (Ha & -> & -> & -> & -> & -> & -> & -> & -> & -> & ->).
  subst ou'.
  destruct a, a'. unfold without_resume in Ha. cbn in Ha.
  injection Ha as -> -> -> -> -> -> -> -> -> -> -> -> -> -> ->.
  unfold iteration, train_step, time_time, next_label, next_unlabel, call_forward,
    call_forward_fast, optimizer_step, lr_scheduler_step, with_no_grad, emit,
    bind, gets, modify, ret, continue.
  cbn -[scheduler_step update_pseudo_gt].
  destruct (label_loader W _) as [li lg].
  destruct (unlabel_loader W _) as [ui ug].
  cbn -[scheduler_step update_pseudo_gt].
  destruct (sgd_step _ _ _ _ _ _) as [b [wm wc]].
  cbn -[update_pseudo_gt].
  split; [unfold same_training; cbn; repeat split|].
  rewrite <- !app_assoc. reflexivity.
Qed.

Lemma loop_same_training (l : list Z) (s s' : state) (pre : list event) :
  same_training s s' -> out s' = (pre ++ out s)%list ->
  same_training (snd (for_each l (iteration W) s))
                (snd (for_each l (iteration W) s'))
  /\ out (snd (for_each l (iteration W) s'))
     = (pre ++ out (snd (for_each l (iteration W) s)))%list.
Proof.
  revert s s'. induction l as [|x l IH]; intros s s' H Ho.
  - simpl. split; assumption.
  - simpl for_each.
    destruct (iteration_same_training x s s' pre H Ho) as [H1 H2].
    pose proof (iteration_continues W x s) as C1.
    pose proof (iteration_continues W x s') as C2.
    destruct (iteration W x s) as [r1 s1], (iteration W x s') as [r2 s2].
    simpl in *. subst r1 r2. apply IH; assumption.
Qed.

(** A [--resume] path that names no file is not an error: the run logs
    one message and then trains exactly as the run without [--resume]
    does; the two end in states that agree on weights, optimizer,
    scheduler, loader positions and locals, and their outputs differ by
    that one message. *)
Theorem missing_checkpoint_is_a_fresh_start
    (a : Args) (m0 c0 : weights) (path : string) :
  resume a = Some path -> files W !! path = None ->
  fst (script W a m0 c0) = Val tt
  /\ same_training (snd (script W (without_resume a) m0 c0))
                   (snd (script W a m0 c0))
  /\ out (snd (script W a m0 c0))
     = Logged (MsgNoCheckpoint path)
       :: out (snd (script W (without_resume a) m0 c0)).
Proof.
  intros Hres Hf.
  destruct (fresh_script W (without_resume a) m0 c0 eq_refl) as [E _].
  rewrite E. clear E.
  unfold script, resume_block, main, main_prologue, bind, gets, info, emit, modify.
  assert (args (build a m0 c0) = a) as -> by reflexivity.
  rewrite Hres, Hf. cbn -[for_each iteration py_range].
  match goal with
  | |- context [for_each ?l (iteration W) ?s2] =>
      match goal with
      | |- context [same_training (snd (for_each l (iteration W) ?s1))] =>
          destruct (loop_same_training l s1 s2 [Logged (MsgNoCheckpoint path)])
            as [H1 H2];
            [unfold same_training; cbn; repeat split;
             destruct a; reflexivity
            | reflexivity |];
            destruct (loop_run W l s2) as (R & _)
      end
  end.
  split; [exact R|]. split; [exact H1 | exact H2].
Qed.

End MissingFile.

Lemma missing_checkpoint_is_a_fresh_start_witness :
  fst (script (small_world ∅ []) (with_resume "nowhere.pth"
                                    (with_steps 0 3 default_args)) 0 0)
  = Val tt.
Proof.
  destruct (missing_checkpoint_is_a_fresh_start (small_world ∅ [])
              (with_resume "nowhere.pth" (with_steps 0 3 default_args)) 0 0
              "nowhere.pth") as [H _]; [vm_compute; reflexivity .. | exact H].
Defined.

(** ** More on the evaluation pass *)

Section EvaluationMore.

Context {T : Torch}.
Variable W : @World T.

(** The loop of [test] over a run of batches the loader yields, when
    [print_freq] is not 0. *)
Lemma test_loop_prefix (bs : list (images * list Z)) :
  forall (rest : list (exn + images * list Z)) (i : Z) (end_ : fl)
         (ms : test_meters) (s : state),
    training (model s) = false -> training (classifier s) = false ->
    grad_enabled s = false -> print_freq (args s) <> 0 ->
    exists end' ms' s',
      test_loop W i (map inr bs ++ rest) end_ ms s
      = test_loop W (i + Z.of_nat (length bs)) rest end' ms' s'
      /\ t_acc ms' = eval_accuracy (model s) (classifier s) bs (t_acc ms)
      /\ only_clock_and_trace s s'
      /\ clock s' = (clock s + 2 * length bs)%nat
      /\ exists evs,
           out s' = (out s ++ evs)%list
           /\ forallb eval_event evs = true
           /\ length (List.filter is_forward evs) = length bs.
Proof.
  induction bs as [|[data tgt] bs IH]; intros rest i end_ ms s Hm Hc Hg Hp.
  - exists end_, ms, s. simpl. rewrite Z.add_0_r, Nat.add_0_r.
    split; [reflexivity|]. split; [reflexivity|].
    split; [apply only_clock_and_trace_refl|]. split; [reflexivity|].
    exists []. rewrite app_nil_r. repeat split.
  - cbn [map app test_loop length].
    unfold call_forward, time_time, emit, info, bind, gets, modify, ret, py_mod, raise.
    cbn -[test_loop meter_update Z.modulo Z.of_nat eval_accuracy].
    rewrite Hm, Hc, Hg.
    apply Z.eqb_neq in Hp. rewrite Hp.
    cbn -[test_loop meter_update Z.modulo Z.of_nat eval_accuracy].
    destruct (i mod print_freq (args s) =? 0);
      cbn -[test_loop meter_update Z.modulo Z.of_nat eval_accuracy];
      match goal with |- context [test_loop W ?i' _ ?e' ?m' ?s'] =>
        destruct (IH rest i' e' m' s') as
          (end' & ms' & s2 & E & Hacc & Hf & Hck & evs & Ho & He & Hn);
          [exact Hm | exact Hc | exact Hg | cbn; apply Z.eqb_neq; exact Hp |]
      end;
      exists end', ms', s2;
      (split; [rewrite E; f_equal; lia|]);
      (split; [rewrite Hacc; reflexivity|]);
      (split; [eapply only_clock_and_trace_trans; [|exact Hf];
               unfold only_clock_and_trace; cbn; repeat split|]);
      (split; [rewrite Hck; cbn; lia|]);
      (eexists; split; [rewrite Ho; cbn; rewrite <- !app_assoc; reflexivity|]);
      (split; [cbn; exact He | cbn; rewrite Hn; reflexivity]).
Qed.

Ltac enter_test :=
  unfold test, with_no_grad, time_time, info, emit, bind, gets, modify, ret;
  cbn -[test_loop eval_accuracy].

(** [test] over a loader that yields the batches [bs] and then stops: it
    returns the mean of the accuracy meter fed with every batch in turn,
    the network being called in inference mode on the weights as they
    are, and reads the clock once plus twice per batch. *)
Theorem test_scores_every_batch (s : state) (bs : list (images * list Z)) :
  test_loader W = map inr bs -> print_freq (args s) <> 0 ->
  fst (test W s)
  = Val (meter_avg
           (eval_accuracy (set_training false (model s))
              (set_training false (classifier s)) bs AverageMeter_new))
  /\ clock (snd (test W s)) = (clock s + 1 + 2 * length bs)%nat.
Proof.
  intros Hl Hp. enter_test. rewrite Hl.
  rewrite <- (app_nil_r (map inr bs)).
  match goal with |- context [test_loop W ?i' _ ?e' ?m' ?s'] =>
    destruct (test_loop_prefix bs [] i' e' m' s' eq_refl eq_refl eq_refl Hp)
      as (end' & ms' & s2 & E & Hacc & _ & Hck & _)
  end.
  rewrite E. cbn -[eval_accuracy]. rewrite Hacc, Hck. cbn -[eval_accuracy].
  split; [reflexivity | lia].
Qed.

(** [test] over a loader that raises after the batches [bs]: the exception
    leaves [test] after exactly [length bs] calls of the network, with
    both modules in inference mode. *)
Theorem test_stops_at_loader_failure
    (s : state) (bs : list (images * list Z)) (e : exn)
    (rest : list (exn + images * list Z)) :
  test_loader W = (map inr bs ++ inl e :: rest)%list -> print_freq (args s) <> 0 ->
  fst (test W s) = Exc e
  /\ training (model (snd (test W s))) = false
  /\ training (classifier (snd (test W s))) = false
  /\ exists evs,
       out (snd (test W s)) = (out s ++ evs)%list
       /\ length (List.filter is_forward evs) = length bs.
Proof.
  intros Hl Hp. enter_test. rewrite Hl.
  match goal with |- context [test_loop W ?i' _ ?e' ?m' ?s'] =>
    destruct (test_loop_prefix bs (inl e :: rest) i' e' m' s'
                eq_refl eq_refl eq_refl Hp)
      as (end' & ms' & s2 & E & _ & Hf & _ & evs & Ho & _ & Hn)
  end.
  rewrite E. cbn.
  destruct Hf as (_ & Hmo & Hcl & _). cbn in Hmo, Hcl, Ho.
  rewrite Hmo, Hcl, Ho. cbn. repeat split.
  exists evs. split; [reflexivity | exact Hn].
Qed.

(** With [--print_freq 0] the first batch of [test] ends in
    [ZeroDivisionError] (line 235), after one call of the network, and
    the modules stay in inference mode. *)
Theorem test_divides_by_print_freq
    (s : state) (b : images * list Z) (rest : list (exn + images * list Z)) :
  test_loader W = inr b :: rest -> print_freq (args s) = 0 ->
  fst (test W s) = Exc ZeroDivisionError
  /\ training (model (snd (test W s))) = false
  /\ training (classifier (snd (test W s))) = false
  /\ out (snd (test W s)) = (out s ++ [Forward false false false])%list.
Proof.
  intros Hl Hp. enter_test. rewrite Hl. destruct b as [data tgt].
  cbn [test_loop].
  unfold call_forward, time_time, emit, info, bind, gets, modify, ret, py_mod, raise.
  cbn -[meter_update]. rewrite Hp. cbn. repeat split.
Qed.

(** [test] over an empty loader is no error: it returns the mean of an
    empty meter without calling the network, and the modules are back in
    training mode. *)
Theorem test_of_empty_loader (s : state) :
  test_loader W = [] ->
  fst (test W s) = Val (meter_avg AverageMeter_new)
  /\ training (model (snd (test W s))) = true
  /\ training (classifier (snd (test W s))) = true
  /\ out (snd (test W s))
     = (out s ++ [Logged (MsgAccuracy (meter_avg AverageMeter_new))])%list.
Proof.
  intros Hl. enter_test. rewrite Hl. cbn. repeat split.
Qed.

(** What [test] leaves alone. *)
Lemma test_frame (s : state) :
  args (snd (test W s)) = args s
  /\ state_dict (model (snd (test W s))) = state_dict (model s)
  /\ state_dict (classifier (snd (test W s))) = state_dict (classifier s)
  /\ optimizer (snd (test W s)) = optimizer s
  /\ lr_scheduler (snd (test W s)) = lr_scheduler s
  /\ module_best_acc (snd (test W s)) = module_best_acc s
  /\ label_pos (snd (test W s)) = label_pos s
  /\ unlabel_pos (snd (test W s)) = unlabel_pos s
  /\ grad_enabled (snd (test W s)) = grad_enabled s
  /\ frame (snd (test W s)) = frame s.
Proof.
  enter_test.
  match goal with |- context [test_loop W ?i' ?l ?e' ?m' ?s'] =>
    destruct (test_loop_run W l i' e' m' s' eq_refl eq_refl eq_refl)
      as (Hf & _);
      destruct (test_loop W i' l e' m' s') as [[ms| |e] s4]
  end; cbn in Hf |- *;
    destruct Hf as (Ha & Hmo & Hcl & _ & Hop & Hsc & Hmb & Hlp & Hup & Hfr);
    cbn in Ha, Hmo, Hcl, Hop, Hsc, Hmb, Hlp, Hup, Hfr;
    rewrite ?Ha, ?Hmo, ?Hcl, ?Hop, ?Hsc, ?Hmb, ?Hlp, ?Hup, ?Hfr;
    repeat split.
Qed.

(** On every path [test] leaves the arguments, the weights, the optimizer,
    the scheduler, the positions of the training loaders, the gradient
    mode and the locals of [main] as they were. *)
Theorem test_changes_no_training_state (s : state) :
  args (snd (test W s)) = args s
  /\ state_dict (model (snd (test W s))) = state_dict (model s)
  /\ state_dict (classifier (snd (test W s))) = state_dict (classifier s)
  /\ optimizer (snd (test W s)) = optimizer s
  /\ lr_scheduler (snd (test W s)) = lr_scheduler s
  /\ module_best_acc (snd (test W s)) = module_best_acc s
  /\ label_pos (snd (test W s)) = label_pos s
  /\ unlabel_pos (snd (test W s)) = unlabel_pos s
  /\ grad_enabled (snd (test W s)) = grad_enabled s
  /\ frame (snd (test W s)) = frame s.
Proof.
  enter_test.
  match goal with |- context [test_loop W ?i' ?l ?e' ?m' ?s'] =>
    destruct (test_loop_run W l i' e' m' s' eq_refl eq_refl eq_refl)
      as (Hf & _);
      destruct (test_loop W i' l e' m' s') as [[ms| |e] s4]
  end; cbn in Hf |- *;
    destruct Hf as (Ha & Hmo & Hcl & _ & Hop & Hsc & Hmb & Hlp & Hup & Hfr);
    cbn in Ha, Hmo, Hcl, Hop, Hsc, Hmb, Hlp, Hup, Hfr;
    rewrite ?Ha, ?Hmo, ?Hcl, ?Hop, ?Hsc, ?Hmb, ?Hlp, ?Hup, ?Hfr;
    repeat split.
Qed.

End EvaluationMore.

Lemma test_scores_every_batch_witness :
  clock (snd (test (small_world ∅ (map inr two_test_batches))
                (@build identity_net default_args 0 0)))
  = 5%nat.
Proof.
  destruct (test_scores_every_batch (small_world ∅ (map inr two_test_batches))
              (@build identity_net default_args 0 0) two_test_batches)
    as [_ H]; [reflexivity | cbn; lia | exact H].
Defined.

Lemma test_stops_at_loader_failure_witness :
  fst (test (small_world ∅ (map inr two_test_batches
                              ++ inl (RuntimeError "worker") :: one_test_batch))
         (@build identity_net default_args 0 0))
  = Exc (RuntimeError "worker").
Proof.
  destruct (test_stops_at_loader_failure
              (small_world ∅ (map inr two_test_batches
                                ++ inl (RuntimeError "worker") :: one_test_batch))
              (@build identity_net default_args 0 0) two_test_batches
              (RuntimeError "worker") one_test_batch)
    as [H _]; [reflexivity | cbn; lia | exact H].
Defined.

Lemma test_divides_by_print_freq_witness :
  fst (test (small_world ∅ one_test_batch)
         (@build identity_net (with_print_freq 0 default_args) 0 0))
  = Exc ZeroDivisionError.
Proof.
  destruct (test_divides_by_print_freq (small_world ∅ one_test_batch)
              (@build identity_net (with_print_freq 0 default_args) 0 0)
              (([[Fin 1; Fin 0]] : @images identity_net), [0]) [])
    as [H _]; [reflexivity | reflexivity | exact H].
Defined.

Lemma test_of_empty_loader_witness :
  fst (test (small_world ∅ []) (@build identity_net default_args 0 0))
  = Val (meter_avg AverageMeter_new).
Proof.
  destruct (test_of_empty_loader (small_world ∅ [])
              (@build identity_net default_args 0 0))
    as [H _]; [reflexivity | exact H].
Defined.

(** ** Lines 193-209: score, best score and checkpoint *)

Section SaveMore.

Context {T : Torch}.
Variable W : @World T.

Lemma fgt_asymmetric (x y : fl) : fgt x y = true -> fgt y x = false.
Proof.
  destruct x as [a| | |], y as [b| | |]; simpl; intros H;
    try reflexivity; try discriminate.
  apply negb_true_iff, Qle_bool_false in H.
  apply negb_false_iff, Qle_bool_iff. lra.
Qed.

Lemma fgt_irreflexive (x : fl) : fgt x x = false.
Proof.
  destruct x as [a| | |]; simpl; try reflexivity.
  apply negb_false_iff, Qle_bool_iff. lra.
Qed.

(** When the evaluation returns a score, lines 194-205 keep the larger of
    the score and the best so far (a NaN score never wins), flag the
    checkpoint as best exactly when the score is greater, and hand
    [save_checkpoint] a dictionary with the next step, the weights and
    optimizer state as they were before the evaluation, and that best
    score.  The best score is never lowered.  Line 209 then raises: the
    name [acc] holds a meter by then, and no summary is written. *)
Theorem evaluation_keeps_the_best_score (step : Z) (s : state) :
  match fst (test W s) with
  | Val score =>
      let is_best := fgt score (best_acc (frame s)) in
      let best := if is_best then score else best_acc (frame s) in
      let s' := snd (evaluate_and_save W step s) in
      fst (evaluate_and_save W step s) = Exc NotImplementedError
      /\ best_acc (frame s') = best
      /\ fgt (best_acc (frame s)) (best_acc (frame s')) = false
      /\ exists ck,
           out s'
           = (out (snd (test W s))
              ++ [Logged (MsgBest best);
                  SaveCheckpoint ck is_best (save_path (args s)) "checkpoint.pth"])%list
           /\ ck !! "step" = Some (PyInt (step + 1))
           /\ ck !! "best_acc" = Some (PyFloat best)
           /\ ck !! "model" = Some (PyStateDict (state_dict (model s)))
           /\ ck !! "classifier" = Some (PyStateDict (state_dict (classifier s)))
           /\ ck !! "optimizer" = Some (PyOptim (optimizer s))
  | _ => True
  end.
Proof.
  pose proof (test_frame W s)
    as (Ha & Hmo & Hcl & Hop & _ & _ & _ & _ & _ & Hfr).
  unfold evaluate_and_save, bind.
  destruct (test W s) as [[score| |e] s1]; cbn [fst snd] in *; try exact I.
  unfold gets, modify, emit, info, add_scalar, raise, emit, bind, modify, ret.
  cbn -[fgt checkpoint_of]. rewrite Hfr.
  destruct (fgt score (best_acc (frame s))) eqn:Hb;
    cbn -[fgt checkpoint_of]; rewrite ?Hfr, ?Ha;
    (split; [reflexivity|]); (split; [reflexivity|]);
    (split; [first [apply fgt_asymmetric; exact Hb | apply fgt_irreflexive]|]);
    eexists; (split; [rewrite <- !app_assoc; reflexivity|]);
    match goal with |- context [checkpoint_of step ?st] =>
      destruct (checkpoint_of_lookup step st) as (L1 & L2 & L3 & L4 & L5 & _)
    end;
    rewrite L1, L2, L3, L4, L5; cbn; rewrite ?Hmo, ?Hcl, ?Hop, ?Hfr;
    repeat split.
Qed.

(** Lines 193-209 from any state: the six running averages of [main] are
    afterwards what they were before.  Line 207, under the comment "Reset
    the AverageMeters", binds new meters to the names [losses] and [acc]
    only, and the block never returns: either [test] raises, or line 209
    does, being handed the meter that [acc] has just been bound to. *)
Theorem reset_line_leaves_running_averages (step : Z) (s : state) :
  let r := evaluate_and_save W step s in
  running_averages (snd r) = running_averages s
  /\ fst r <> Val tt
  /\ match fst (test W s) with
     | Val _ =>
         fst r = Exc NotImplementedError
         /\ losses (frame (snd r)) = Some AverageMeter_new
         /\ acc (frame (snd r)) = Some (PyMeter AverageMeter_new)
     | Cont => True
     | Exc e => fst r = Exc e
     end.
Proof.
  cbv zeta.
  pose proof (test_frame W s) as (_ & _ & _ & _ & _ & _ & _ & _ & _ & Hfr).
  unfold evaluate_and_save, bind.
  destruct (test W s) as [[score| |e] s1]; cbn [fst snd] in *;
    unfold running_averages; cbn -[fgt]; rewrite ?Hfr;
    try (repeat split; discriminate).
  unfold gets, modify, emit, info, add_scalar, raise, emit, bind, modify, ret.
  cbn -[fgt].
  destruct (fgt score (best_acc (frame s))); cbn; rewrite ?Hfr;
    repeat split; discriminate.
Qed.

End SaveMore.

(** ** The baseline loop *)

Module BaselineFacts.
Import Baseline.

Section Facts.

Context {F : FullModel}.
Variable W : @World F.

Lemma saves_app (o1 o2 : list event) :
  saves (o1 ++ o2) = (saves o1 ++ saves o2)%list.
Proof. unfold saves. apply flat_map_app. Qed.

Ltac solve_saves :=
  unfold saves in *; rewrite ?flat_map_app; cbn [flat_map app];
  rewrite ?app_nil_r; try reflexivity; try congruence.

Lemma baseline_trace_refl (s : state) : only_clock_and_trace s s.
Proof. unfold only_clock_and_trace. repeat split. Qed.

Lemma baseline_trace_trans (s1 s2 s3 : state) :
  only_clock_and_trace s1 s2 -> only_clock_and_trace s2 s3 ->
  only_clock_and_trace s1 s3.
Proof.
  unfold only_clock_and_trace. intros H1 H2.
  destruct H1 as (?&?&?&?&?&?&?&?&?), H2 as (?&?&?&?&?&?&?&?&?).
  repeat split; congruence.
Qed.

(** The loop of [test] over the batches [bs] the loader yields first. *)
Lemma baseline_test_loop_prefix (bs : list (images * list Z)) :
  forall (rest : list (exn + images * list Z)) (i : Z) (end_ : fl)
         (ms : test_meters) (s : state),
    print_freq (args s) <> 0 ->
    exists end' ms' s',
      test_loop W i (map inr bs ++ rest) end_ ms s
      = test_loop W (i + Z.of_nat (length bs)) rest end' ms' s'
      /\ only_clock_and_trace s s'.
Proof.
  induction bs as [|[data tgt] bs IH]; intros rest i end_ ms s Hp.
  - exists end_, ms, s. simpl. rewrite Z.add_0_r.
    split; [reflexivity | apply baseline_trace_refl].
  - cbn [map app test_loop length].
    unfold call_forward, time_time, emit, info, bind, gets, modify, ret, py_mod, raise.
    cbn -[test_loop meter_update Z.modulo Z.of_nat].
    apply Z.eqb_neq in Hp. rewrite Hp.
    cbn -[test_loop meter_update Z.modulo Z.of_nat].
    destruct (i mod print_freq (args s) =? 0);
      cbn -[test_loop meter_update Z.modulo Z.of_nat];
      match goal with |- context [test_loop W ?i' _ ?e' ?m' ?s'] =>
        destruct (IH rest i' e' m' s') as (end' & ms' & s2 & E & Hf);
          [cbn; apply Z.eqb_neq; exact Hp |]
      end;
      exists end', ms', s2;
      (split; [rewrite E; f_equal; lia|]);
      (eapply baseline_trace_trans; [|exact Hf]);
      unfold only_clock_and_trace; cbn; repeat split; solve_saves.
Qed.

Lemma good_loader_inv (l : list (exn + images * list Z)) :
  forallb (fun x => match x with inr _ => true | inl _ => false end) l = true ->
  exists bs, l = map inr bs.
Proof.
  induction l as [|[e|b] l IH]; simpl; intros H.
  - exists []. reflexivity.
  - discriminate.
  - destruct (IH H) as [bs ->]. exists (b :: bs). reflexivity.
Qed.

(** [test] over a loader that yields only batches: it returns a score,
    leaves the model in training mode and changes nothing else but the
    clock and the trace, to which it adds no call of [save_checkpoint]. *)
Lemma test_returns (s : state) :
  yields_only_batches W = true -> print_freq (args s) <> 0 ->
  exists score s',
    test W s = (Val score, s')
    /\ only_clock_and_trace (upd_model (set_training true) s) s'.
Proof.
  intros Hl Hp. destruct (good_loader_inv _ Hl) as [bs Hbs].
  unfold test, with_no_grad, time_time, info, emit, bind, gets, modify, ret.
  cbn -[test_loop]. rewrite Hbs, <- (app_nil_r (map inr bs)).
  match goal with |- context [test_loop W ?i' _ ?e' ?m' ?s'] =>
    destruct (baseline_test_loop_prefix bs [] i' e' m' s' Hp) as (end' & ms' & s2 & E & Hf)
  end.
  rewrite E. cbn.
  eexists. eexists. split; [reflexivity|].
  unfold only_clock_and_trace in *. cbn in *.
  destruct Hf as (Ha & Hm & Hg & Ho & Hs & Hb & Hl' & Hfr & Hsv).
  rewrite Ha, Hm, Ho, Hs, Hb, Hl', Hfr. repeat split. solve_saves.
Qed.

(** [test] over a loader that raises after some batches: the exception
    comes out, the model stays in inference mode. *)
Lemma test_raises (s : state) (bs : list (images * list Z)) (e : exn)
    (rest : list (exn + images * list Z)) :
  test_loader W = (map inr bs ++ inl e :: rest)%list -> print_freq (args s) <> 0 ->
  exists s',
    test W s = (Exc e, s')
    /\ only_clock_and_trace (upd_model (set_training false) s) s'.
Proof.
  intros Hl Hp.
  unfold test, with_no_grad, time_time, info, emit, bind, gets, modify, ret.
  cbn -[test_loop]. rewrite Hl.
  match goal with |- context [test_loop W ?i' _ ?e' ?m' ?s'] =>
    destruct (baseline_test_loop_prefix bs (inl e :: rest) i' e' m' s' Hp)
      as (end' & ms' & s2 & E & Hf)
  end.
  rewrite E. cbn.
  eexists. split; [reflexivity|].
  unfold only_clock_and_trace in *. cbn in *.
  destruct Hf as (Ha & Hm & Hg & Ho & Hs & Hb & Hl' & Hfr & Hsv).
  rewrite Ha, Hm, Ho, Hs, Hb, Hl', Hfr. repeat split. solve_saves.
Qed.

Ltac enter_iteration :=
  unfold iteration, time_time, next_label, call_forward, optimizer_step,
    lr_scheduler_step, acc_update, add_scalar, info, emit, bind, gets, modify,
    ret, py_mod, raise;
  cbn -[scheduler_step evaluate_and_save Z.modulo meter_update];
  destruct (label_loader W _) as [li lg];
  cbn -[scheduler_step evaluate_and_save Z.modulo meter_update];
  destruct (sgd_step _ _ _ _ _ _) as [b w];
  cbn -[evaluate_and_save Z.modulo meter_update get_lr].

(** Lines 80-120 of one iteration, up to the decision of line 123. *)
Lemma iteration_train (step : Z) (s : state) :
  print_freq (args s) <> 0 -> test_freq (args s) <> 0 ->
  is_meter (acc (frame s)) = true ->
  exists s1,
    iteration W step s
    = (if due (args s) step then evaluate_and_save W step s1 else (Val tt, s1))
    /\ args s1 = args s
    /\ training (model s1) = training (model s)
    /\ grad_enabled s1 = grad_enabled s
    /\ label_pos s1 = S (label_pos s)
    /\ is_meter (acc (frame s1)) = true
    /\ best_acc (frame s1) = best_acc (frame s)
    /\ meter_count (data_times (frame s1)) = meter_count (data_times (frame s)) + 1
    /\ meter_count (batch_times (frame s1)) = meter_count (batch_times (frame s)) + 1
    /\ saves (out s1) = saves (out s).
Proof.
  intros Hp Ht Hm. apply Z.eqb_neq in Hp, Ht.
  enter_iteration.
  destruct (acc (frame s)) as [ | | | |m]; try discriminate.
  cbn -[evaluate_and_save Z.modulo meter_update get_lr].
  rewrite Hp. cbn -[evaluate_and_save Z.modulo meter_update get_lr].
  destruct (step mod print_freq (args s) =? 0);
    cbn -[evaluate_and_save Z.modulo meter_update get_lr];
    rewrite Ht; cbn -[evaluate_and_save Z.modulo meter_update get_lr];
    unfold due;
    destruct (((step + 1) mod test_freq (args s) =? 0)
              || (step =? total_steps (args s) - 1));
    (eexists; split; [reflexivity|]);
    cbn; repeat split; solve_saves.
Qed.

Lemma baseline_checkpoint_lookup (step : Z) (s0 : state) :
  checkpoint_of step s0 !! "step" = Some (PyInt (step + 1))
  /\ checkpoint_of step s0 !! "best_acc" = Some (PyFloat (best_acc (frame s0)))
  /\ checkpoint_of step s0 !! "model" = Some (PyStateDict (state_dict (model s0)))
  /\ checkpoint_of step s0 !! "optimizer" = Some (PyOptim (optimizer s0))
  /\ checkpoint_of step s0 !! "epoch" = None.
Proof.
  unfold checkpoint_of.
  repeat split;
    repeat (rewrite lookup_insert_ne by discriminate);
    rewrite ?lookup_insert_eq, ?lookup_empty; reflexivity.
Qed.

(** Lines 124-139 when the evaluation returns. *)
Lemma evaluate_and_save_returns (step : Z) (s1 : state) :
  yields_only_batches W = true -> print_freq (args s1) <> 0 ->
  exists s2 ck flag,
    evaluate_and_save W step s1 = (Val tt, s2)
    /\ args s2 = args s1
    /\ training (model s2) = true
    /\ grad_enabled s2 = grad_enabled s1
    /\ label_pos s2 = label_pos s1
    /\ losses (frame s2) = AverageMeter_new
    /\ acc (frame s2) = PyMeter AverageMeter_new
    /\ data_times (frame s2) = data_times (frame s1)
    /\ batch_times (frame s2) = batch_times (frame s1)
    /\ fgt (best_acc (frame s1)) (best_acc (frame s2)) = false
    /\ saves (out s2) = (saves (out s1) ++ [(ck, flag)])%list
    /\ ck !! "step" = Some (PyInt (step + 1))
    /\ ck !! "best_acc" = Some (PyFloat (best_acc (frame s2)))
    /\ ck !! "model" = Some (PyStateDict (state_dict (model s1)))
    /\ ck !! "optimizer" = Some (PyOptim (optimizer s1)).
Proof.
  intros Hl Hp.
  destruct (test_returns s1 Hl Hp) as (score & st & E & Hf).
  unfold evaluate_and_save, bind at 1. rewrite E.
  unfold only_clock_and_trace in Hf. cbn in Hf.
  destruct Hf as (Ha & Hm & Hg & Ho & Hs & Hb & Hl' & Hfr & Hsv).
  unfold add_scalar, info, emit, bind, gets, modify, ret.
  cbn -[fgt checkpoint_of]. rewrite Hfr.
  destruct (fgt score (best_acc (frame s1))) eqn:Hbest; cbn -[fgt checkpoint_of];
    (eexists; eexists; eexists; split; [reflexivity|]);
    cbn -[fgt checkpoint_of]; rewrite ?Ha, ?Hm, ?Hg, ?Ho, ?Hl', ?Hfr;
    match goal with |- context [checkpoint_of step ?st0] =>
      destruct (baseline_checkpoint_lookup step st0) as (L1 & L2 & L3 & L4 & _)
    end;
    cbn -[checkpoint_of] in L2, L3, L4;
    rewrite ?Hfr in L2; rewrite ?Hm in L3; rewrite ?Ho in L4;
    cbn -[checkpoint_of] in L3;
    repeat split;
    try solve [ apply fgt_asymmetric; exact Hbest
              | apply fgt_irreflexive
              | unfold saves in *; rewrite !flat_map_app, Hsv; cbn;
                rewrite ?app_nil_r; reflexivity
              | exact L1 | exact L2 | exact L3 | exact L4 ].
Qed.

(** Lines 124-139 when the test loader raises. *)
Lemma evaluate_and_save_raises (step : Z) (s1 : state)
    (bs : list (images * list Z)) (e : exn) (rest : list (exn + images * list Z)) :
  test_loader W = (map inr bs ++ inl e :: rest)%list -> print_freq (args s1) <> 0 ->
  exists s2,
    evaluate_and_save W step s1 = (Exc e, s2)
    /\ training (model s2) = false
    /\ label_pos s2 = label_pos s1
    /\ saves (out s2) = saves (out s1).
Proof.
  intros Hl Hp.
  destruct (test_raises s1 bs e rest Hl Hp) as (st & E & Hf).
  unfold evaluate_and_save, bind at 1. rewrite E.
  unfold only_clock_and_trace in Hf. cbn in Hf.
  destruct Hf as (Ha & Hm & Hg & Ho & Hs & Hb & Hl' & Hfr & Hsv).
  eexists. split; [reflexivity|]. rewrite Hm, Hl', Hsv. repeat split.
Qed.

(** The loop over any list of steps, when evaluations return. *)
Lemma loop_returns (l : list Z) :
  forall s : state,
    yields_only_batches W = true ->
    print_freq (args s) <> 0 -> test_freq (args s) <> 0 ->
    is_meter (acc (frame s)) = true ->
    exists s',
      for_each l (iteration W) s = (Val tt, s')
      /\ args s' = args s
      /\ is_meter (acc (frame s')) = true
      /\ label_pos s' = (label_pos s + length l)%nat
      /\ meter_count (data_times (frame s'))
         = meter_count (data_times (frame s)) + Z.of_nat (length l)
      /\ meter_count (batch_times (frame s'))
         = meter_count (batch_times (frame s)) + Z.of_nat (length l)
      /\ map saved_step (saves (out s'))
         = (map saved_step (saves (out s))
            ++ map (fun x => Some (PyInt (x + 1))) (List.filter (due (args s)) l))%list.
Proof.
  induction l as [|x l IH]; intros s Hl Hp Ht Hm.
  - exists s. simpl. rewrite Nat.add_0_r, !Z.add_0_r, app_nil_r.
    repeat split; assumption.
  - cbn [for_each List.filter length]. unfold bind at 1.
    destruct (iteration_train x s Hp Ht Hm)
      as (s1 & E & Ha & Hmo & Hg & Hlp & Hme & Hb & Hd & Hbt & Hsv).
    rewrite E. destruct (due (args s) x) eqn:Hdue.
    + destruct (evaluate_and_save_returns x s1 Hl ltac:(rewrite Ha; exact Hp))
        as (s2 & ck & flag & E2 & Ha2 & _ & _ & Hlp2 & _ & Hacc2 & Hd2 & Hbt2
            & _ & Hsv2 & Hck & _).
      rewrite E2.
      destruct (IH s2 Hl) as (s' & E3 & Ha3 & Hm3 & Hlp3 & Hd3 & Hbt3 & Hsv3);
        [rewrite Ha2, Ha; exact Hp | rewrite Ha2, Ha; exact Ht
        | rewrite Hacc2; reflexivity |].
      exists s'. split; [exact E3|].
      rewrite Ha3, Ha2, Ha, Hlp3, Hlp2, Hlp, Hd3, Hd2, Hd, Hbt3, Hbt2, Hbt.
      rewrite Hsv3, Hsv2, Hsv, Ha2, Ha, map_app. cbn [map].
      unfold saved_step at 2. cbn [fst]. rewrite Hck, <- app_assoc.
      repeat split; try assumption; lia.
    + destruct (IH s1 Hl) as (s' & E3 & Ha3 & Hm3 & Hlp3 & Hd3 & Hbt3 & Hsv3);
        [rewrite Ha; exact Hp | rewrite Ha; exact Ht | exact Hme |].
      exists s'. split; [exact E3|].
      rewrite Ha3, Ha, Hlp3, Hlp, Hd3, Hd, Hbt3, Hbt, Hsv3, Hsv, Ha.
      repeat split; try assumption; lia.
Qed.

Lemma py_range_cons (a b : Z) : a < b -> py_range a b = a :: py_range (a + 1) b.
Proof.
  intros H. rewrite (py_range_split a (a + 1) b) by lia.
  rewrite py_range_one. reflexivity.
Qed.

Lemma py_range_snoc (a b : Z) :
  a < b -> py_range a b = (py_range a (b - 1) ++ [b - 1])%list.
Proof.
  intros H. rewrite (py_range_split a (b - 1) b) by lia.
  f_equal. rewrite <- (py_range_one (b - 1)). f_equal. lia.
Qed.

Lemma baseline_for_each_app (l1 l2 : list Z) (s : state) :
  for_each (l1 ++ l2) (iteration W) s
  = match for_each l1 (iteration W) s with
    | (Val _, s') => for_each l2 (iteration W) s'
    | (Exc e, s') => (Exc e, s')
    end.
Proof.
  revert s. induction l1 as [|x l1 IH]; intros s; [reflexivity|].
  cbn [app for_each]. unfold bind.
  destruct (iteration W x s) as [[[]|e] s']; [apply IH | reflexivity].
Qed.

Lemma for_each_head_raises (x : Z) (l : list Z) (s s' : state) (e : exn) :
  iteration W x s = (Exc e, s') ->
  for_each (x :: l) (iteration W) s = (Exc e, s').
Proof. intros E. cbn [for_each]. unfold bind. rewrite E. reflexivity. Qed.

Lemma due_last (a : Args) : due a (total_steps a - 1) = true.
Proof. unfold due. rewrite Z.eqb_refl. apply orb_true_r. Qed.

(** Line 113 with [--print_freq 0]. *)
Lemma iteration_print_freq_zero (step : Z) (s : state) :
  print_freq (args s) = 0 -> is_meter (acc (frame s)) = true ->
  exists s',
    iteration W step s = (Exc ZeroDivisionError, s')
    /\ label_pos s' = S (label_pos s)
    /\ saves (out s') = saves (out s).
Proof.
  intros Hp Hm. enter_iteration.
  destruct (acc (frame s)) as [ | | | |m]; try discriminate.
  cbn -[evaluate_and_save Z.modulo meter_update get_lr].
  rewrite Hp. cbn -[evaluate_and_save Z.modulo meter_update get_lr].
  eexists. split; [reflexivity|]. cbn. split; [reflexivity | solve_saves].
Qed.

(** Line 123 with [--test_freq 0]. *)
Lemma iteration_test_freq_zero (step : Z) (s : state) :
  print_freq (args s) <> 0 -> test_freq (args s) = 0 ->
  is_meter (acc (frame s)) = true ->
  exists s',
    iteration W step s = (Exc ZeroDivisionError, s')
    /\ label_pos s' = S (label_pos s)
    /\ saves (out s') = saves (out s).
Proof.
  intros Hp Ht Hm. apply Z.eqb_neq in Hp. enter_iteration.
  destruct (acc (frame s)) as [ | | | |m]; try discriminate.
  cbn -[evaluate_and_save Z.modulo meter_update get_lr].
  rewrite Hp. cbn -[evaluate_and_save Z.modulo meter_update get_lr].
  destruct (step mod print_freq (args s) =? 0);
    cbn -[evaluate_and_save Z.modulo meter_update get_lr];
    rewrite Ht; cbn -[evaluate_and_save Z.modulo meter_update get_lr];
    (eexists; split; [reflexivity|]); cbn; (split; [reflexivity | solve_saves]).
Qed.

(** The loop over steps of which one at least is due, when the test
    loader raises. *)
Lemma loop_raises (bs : list (images * list Z)) (e : exn)
    (rest : list (exn + images * list Z)) (l : list Z) :
  test_loader W = (map inr bs ++ inl e :: rest)%list ->
  forall s : state,
    print_freq (args s) <> 0 -> test_freq (args s) <> 0 ->
    is_meter (acc (frame s)) = true ->
    existsb (due (args s)) l = true ->
    exists s',
      for_each l (iteration W) s = (Exc e, s')
      /\ training (model s') = false
      /\ saves (out s') = saves (out s).
Proof.
  intros Hl. induction l as [|x l IH]; intros s Hp Ht Hm Hex; [discriminate|].
  cbn [for_each existsb] in *. unfold bind at 1.
  destruct (iteration_train x s Hp Ht Hm)
    as (s1 & E & Ha & _ & _ & _ & Hme & _ & _ & _ & Hsv).
  rewrite E. destruct (due (args s) x) eqn:Hdue.
  - destruct (evaluate_and_save_raises x s1 bs e rest Hl
                ltac:(rewrite Ha; exact Hp)) as (s2 & E2 & Hmo & _ & Hsv2).
    rewrite E2. exists s2. split; [reflexivity|].
    split; [exact Hmo | congruence].
  - simpl in Hex.
    destruct (IH s1) as (s' & E3 & Hmo & Hsv3);
      [rewrite Ha; exact Hp | rewrite Ha; exact Ht | exact Hme
      | rewrite Ha; exact Hex |].
    exists s'. split; [exact E3|]. split; [exact Hmo | congruence].
Qed.

Ltac enter_script a Hres :=
  unfold script, main, resume_block, info, emit, bind, gets, modify, ret;
  cbn [args build];
  change (args (build a _)) with a;
  rewrite Hres; cbn -[for_each iteration py_range].

(** A run of the baseline without [--resume], with [print_freq] and
    [test_freq] not 0 and a test loader that yields only batches, never
    raises; it calls [save_checkpoint] exactly at the steps for which
    [(step+1) % test_freq == 0] or [step == total_steps-1], in order, each
    time with the next step in the dictionary; it takes one batch per
    step and closes the writer and the logger. *)
Theorem baseline_saves_at_due_steps (a : Args) (m0 : weights) :
  resume a = None -> print_freq a <> 0 -> test_freq a <> 0 ->
  yields_only_batches W = true ->
  fst (script W a m0) = Val tt
  /\ map saved_step (saves (out (snd (script W a m0))))
     = map (fun x => Some (PyInt (x + 1)))
         (List.filter (due a) (py_range (start_step a) (total_steps a)))
  /\ label_pos (snd (script W a m0)) = Z.to_nat (total_steps a - start_step a)
  /\ exists o, out (snd (script W a m0)) = (o ++ [WriterClosed; LoggerClosed])%list.
Proof.
  intros Hres Hp Ht Hl. enter_script a Hres.
  match goal with |- context [for_each ?l (iteration W) ?s1] =>
    destruct (loop_returns l s1 Hl Hp Ht eq_refl)
      as (s' & E & Ha & _ & Hlp & _ & _ & Hsv)
  end.
  rewrite E. cbn -[saves]. rewrite py_range_length in Hlp.
  cbn -[saves] in Hlp, Hsv.
  split; [reflexivity|]. split.
  - rewrite !saves_app, !map_app, Hsv.
    change (saves (out (build a m0))) with (@nil (gmap string pyval * bool)).
    change (saves [Logged MsgStart]) with (@nil (gmap string pyval * bool)).
    change (saves [WriterClosed]) with (@nil (gmap string pyval * bool)).
    change (saves [LoggerClosed]) with (@nil (gmap string pyval * bool)).
    cbn [map app]. rewrite !app_nil_r. reflexivity.
  - split; [exact Hlp|]. eexists. rewrite <- app_assoc. reflexivity.
Qed.

(** In such a run that has at least one step, the two time meters have
    counted every step when the run ends, and [losses] and [acc] are
    empty meters: the last step evaluates and line 139 resets them. *)
Theorem baseline_meters_at_end (a : Args) (m0 : weights) :
  resume a = None -> print_freq a <> 0 -> test_freq a <> 0 ->
  yields_only_batches W = true -> start_step a < total_steps a ->
  meter_count (data_times (frame (snd (script W a m0))))
  = total_steps a - start_step a
  /\ meter_count (batch_times (frame (snd (script W a m0))))
     = total_steps a - start_step a
  /\ losses (frame (snd (script W a m0))) = AverageMeter_new
  /\ acc (frame (snd (script W a m0))) = PyMeter AverageMeter_new.
Proof.
  intros Hres Hp Ht Hl Hlt.
  assert (exists st,
            script W a m0 = (Val tt, st)
            /\ meter_count (data_times (frame st)) = total_steps a - start_step a
            /\ meter_count (batch_times (frame st)) = total_steps a - start_step a
            /\ losses (frame st) = AverageMeter_new
            /\ acc (frame st) = PyMeter AverageMeter_new) as (st & E & H).
  { enter_script a Hres.
    rewrite (py_range_snoc _ _ Hlt), baseline_for_each_app.
    match goal with |- context [for_each ?l (iteration W) ?s1] =>
      destruct (loop_returns l s1 Hl Hp Ht eq_refl)
        as (s' & E & Ha & Hm & _ & Hd & Hb & _)
    end.
    rewrite E. cbn [for_each]. unfold bind at 1.
    cbn in Ha, Hd, Hb. rewrite py_range_length in Hd, Hb.
    destruct (iteration_train (total_steps a - 1) s'
                ltac:(rewrite Ha; exact Hp) ltac:(rewrite Ha; exact Ht) Hm)
      as (s1 & E1 & Ha1 & _ & _ & _ & _ & _ & Hd1 & Hb1 & _).
    rewrite E1, Ha, due_last.
    destruct (evaluate_and_save_returns (total_steps a - 1) s1 Hl
                ltac:(rewrite Ha1, Ha; exact Hp))
      as (s2 & ck & flag & E2 & _ & _ & _ & _ & Hlo & Hac & Hd2 & Hb2 & _).
    rewrite E2. cbn. eexists. split; [reflexivity|]. cbn.
    rewrite Hlo, Hac, Hd2, Hb2, Hd1, Hb1, Hd, Hb. repeat split; lia. }
  rewrite E. exact H.
Qed.

(** With [--print_freq 0] a run that has a step to do ends in
    [ZeroDivisionError] at line 113 of its first iteration: one batch is
    taken and nothing is saved. *)
Theorem baseline_print_freq_zero (a : Args) (m0 : weights) :
  resume a = None -> start_step a < total_steps a -> print_freq a = 0 ->
  fst (script W a m0) = Exc ZeroDivisionError
  /\ label_pos (snd (script W a m0)) = 1%nat
  /\ saves (out (snd (script W a m0))) = [].
Proof.
  intros Hres Hlt Hp. enter_script a Hres.
  rewrite (py_range_cons _ _ Hlt).
  match goal with |- context [for_each (?x :: ?l) (iteration W) ?s1] =>
    destruct (iteration_print_freq_zero x s1 Hp eq_refl) as (s' & E & Hlp & Hsv);
      rewrite (for_each_head_raises x l s1 s' _ E)
  end.
  cbn. split; [reflexivity|]. split; [exact Hlp | exact Hsv].
Qed.

(** With [--test_freq 0] (and [print_freq] not 0) it ends in
    [ZeroDivisionError] at line 123 of its first iteration. *)
Theorem baseline_test_freq_zero (a : Args) (m0 : weights) :
  resume a = None -> start_step a < total_steps a ->
  print_freq a <> 0 -> test_freq a = 0 ->
  fst (script W a m0) = Exc ZeroDivisionError
  /\ label_pos (snd (script W a m0)) = 1%nat
  /\ saves (out (snd (script W a m0))) = [].
Proof.
  intros Hres Hlt Hp Ht. enter_script a Hres.
  rewrite (py_range_cons _ _ Hlt).
  match goal with |- context [for_each (?x :: ?l) (iteration W) ?s1] =>
    destruct (iteration_test_freq_zero x s1 Hp Ht eq_refl) as (s' & E & Hlp & Hsv);
      rewrite (for_each_head_raises x l s1 s' _ E)
  end.
  cbn. split; [reflexivity|]. split; [exact Hlp | exact Hsv].
Qed.

(** When the test loader raises, a run that has a step to do ends with
    that exception at its first evaluation: nothing has been saved, and
    the model is left in inference mode. *)
Theorem baseline_failed_evaluation_saves_nothing
    (a : Args) (m0 : weights) (bs : list (images * list Z)) (e : exn)
    (rest : list (exn + images * list Z)) :
  resume a = None -> start_step a < total_steps a ->
  print_freq a <> 0 -> test_freq a <> 0 ->
  test_loader W = (map inr bs ++ inl e :: rest)%list ->
  fst (script W a m0) = Exc e
  /\ training (model (snd (script W a m0))) = false
  /\ saves (out (snd (script W a m0))) = [].
Proof.
  intros Hres Hlt Hp Ht Hl. enter_script a Hres.
  match goal with |- context [for_each ?l (iteration W) ?s1] =>
    destruct (loop_raises bs e rest l Hl s1 Hp Ht eq_refl)
      as (s' & E & Hmo & Hsv)
  end.
  { cbn. rewrite (py_range_snoc _ _ Hlt), existsb_app. cbn.
    rewrite due_last. cbn. apply orb_true_r. }
  rewrite E. cbn. split; [reflexivity|]. split; [exact Hmo | exact Hsv].
Qed.

(** The dictionary of lines 130-135 has no ["epoch"] entry: a run told to
    resume from it stops at line 70 with [KeyError] before [main] is
    called. *)
Theorem baseline_own_checkpoint_cannot_be_resumed
    (a : Args) (m0 : weights) (path : string) (step : Z) (s0 : state) :
  resume a = Some path -> files W !! path = Some (checkpoint_of step s0) ->
  fst (script W a m0) = Exc (KeyError "epoch")
  /\ label_pos (snd (script W a m0)) = 0%nat.
Proof.
  intros Hres Hf.
  destruct (baseline_checkpoint_lookup step s0) as (H1 & H2 & H3 & H4 & H5).
  unfold script, main, resume_block, info, emit, bind, gets, modify, ret,
    getitem, as_int, as_state_dict, as_optim, raise.
  change (args (build a m0)) with a.
  rewrite Hres, Hf. cbn -[checkpoint_of].
  rewrite H1. cbn -[checkpoint_of]. rewrite H2. cbn -[checkpoint_of].
  rewrite H3. cbn -[checkpoint_of]. rewrite H4. cbn -[checkpoint_of].
  rewrite H5. cbn. split; reflexivity.
Qed.

End Facts.

Lemma baseline_saves_at_due_steps_witness :
  map saved_step
    (saves (out (snd (script (small_world one_batch)
                        (with_schedule 0 5 2 2 default_args) 0))))
  = [Some (PyInt 2); Some (PyInt 4); Some (PyInt 5)].
Proof.
  destruct (baseline_saves_at_due_steps (small_world one_batch)
              (with_schedule 0 5 2 2 default_args) 0) as (_ & H & _);
    [reflexivity | cbn; lia | cbn; lia | reflexivity |].
  rewrite H. vm_compute. reflexivity.
Defined.

Lemma baseline_meters_at_end_witness :
  meter_count
    (data_times (frame (snd (script (small_world one_batch)
                               (with_schedule 2 7 2 2 default_args) 0))))
  = 7 - 2.
Proof.
  destruct (baseline_meters_at_end (small_world one_batch)
              (with_schedule 2 7 2 2 default_args) 0) as (H & _);
    [reflexivity | cbn; lia | cbn; lia | reflexivity | cbn; lia | exact H].
Defined.

Lemma baseline_print_freq_zero_witness :
  fst (script (small_world one_batch) (with_schedule 0 5 0 2 default_args) 0)
  = Exc ZeroDivisionError.
Proof.
  destruct (baseline_print_freq_zero (small_world one_batch)
              (with_schedule 0 5 0 2 default_args) 0) as (H & _);
    [reflexivity | cbn; lia | reflexivity | exact H].
Defined.

Lemma baseline_test_freq_zero_witness :
  fst (script (small_world one_batch) (with_schedule 0 5 2 0 default_args) 0)
  = Exc ZeroDivisionError.
Proof.
  destruct (baseline_test_freq_zero (small_world one_batch)
              (with_schedule 0 5 2 0 default_args) 0) as (H & _);
    [reflexivity | cbn; lia | cbn; lia | reflexivity | exact H].
Defined.

Lemma baseline_failed_evaluation_saves_nothing_witness :
  fst (script (small_world (one_batch ++ [inl (RuntimeError "worker")]))
         (with_schedule 0 5 2 2 default_args) 0)
  = Exc (RuntimeError "worker").
Proof.
  destruct (baseline_failed_evaluation_saves_nothing
              (small_world (one_batch ++ [inl (RuntimeError "worker")]))
              (with_schedule 0 5 2 2 default_args) 0
              [(([[Fin 1; Fin 0]] : @images counting_model), [0])]
              (RuntimeError "worker") []) as (H & _);
    [reflexivity | cbn; lia | cbn; lia | cbn; lia | reflexivity | exact H].
Defined.

Lemma baseline_own_checkpoint_cannot_be_resumed_witness :
  fst (script saved_world (with_resume "checkpoint.pth" default_args) 0)
  = Exc (KeyError "epoch").
Proof.
  destruct (baseline_own_checkpoint_cannot_be_resumed saved_world
              (with_resume "checkpoint.pth" default_args) 0 "checkpoint.pth" 399
              (@build counting_model default_args 400)) as (H & _);
    [reflexivity | vm_compute; reflexivity | exact H].
Defined.

End BaselineFacts.
